(** * Authenticity pipeline of the car-damage application

    A shallow embedding of the check-authenticity pipeline
    (metadata analyzer, forensics analyzer, scoring engine and their
    helpers) and the properties its specification states about it.

    Conventions of the embedding.
    - A JavaScript [number] is an exact rational ([Q]); the IEEE-754
      rounding of the arithmetic and the values NaN and Infinity are not
      represented.  Where the source can produce NaN from strings
      ([parseInt]) the result is an [option]; where it divides numbers
      read from a file (GPS rationals) the result is a [quotient].
    - A JavaScript string is the list of its code units ([list N]).
    - A [Buffer] is a list of bytes.
    - [undefined]/[null] and optional fields are [option]s.
    - A template literal is kept as the list of its parts, so that
      numbers inside diagnostic texts need no decimal printing. *)

From Stdlib Require Import ZArith NArith QArith Qround Qabs List Bool Lia Lqa.
From Stdlib Require Import Strings.String Strings.Ascii Strings.Byte.
Import ListNotations.

Local Open Scope Q_scope.

(* ================================================================= *)
(** ** JavaScript numbers *)

Module JSNum.

Definition number := Q.

(** [x >= y], [x > y], [x < y], [x <= y] on numbers. *)
Definition ge (x y : number) : bool := Qle_bool y x.
Definition gt (x y : number) : bool := negb (Qle_bool x y).
Definition lt (x y : number) : bool := negb (Qle_bool y x).
Definition le (x y : number) : bool := Qle_bool x y.

Definition Math_min (a b : number) : number := if Qle_bool a b then a else b.
Definition Math_max (a b : number) : number := if Qle_bool a b then b else a.

(** [Math.round]: nearest integer, ties towards +infinity. *)
Definition Math_round (x : number) : number := inject_Z (Qfloor (x + (1 # 2))).

Definition Math_abs (x : number) : number := Qabs x.

Definition of_nat (n : nat) : number := inject_Z (Z.of_nat n).

(** A quotient of two numbers read from a file: finite, or one of NaN
    and the infinities when the divisor is zero.  Sums, negation,
    rounding and scaling of a non-finite value stay non-finite. *)
Inductive quotient :=
| Finite (x : number)
| NonFinite.

(** [a / b] on integers. *)
Definition divide (a b : Z) : quotient :=
  if (b =? 0)%Z then NonFinite else Finite (inject_Z a / inject_Z b).

End JSNum.
Import JSNum.

(* ================================================================= *)
(** ** JavaScript strings *)

Module JSString.

(** A string is the sequence of its code units. *)
Definition jsstring := list N.

(** The code units of an ASCII literal. *)
Definition js (s : string) : jsstring :=
  List.map N_of_ascii (list_ascii_of_string s).

Fixpoint eqb (a b : jsstring) : bool :=
  match a, b with
  | [], [] => true
  | x :: a', y :: b' => N.eqb x y && eqb a' b'
  | _, _ => false
  end.

(** [s.startsWith(p)] *)
Fixpoint startsWith (s p : jsstring) : bool :=
  match p, s with
  | [], _ => true
  | _ :: _, [] => false
  | x :: p', y :: s' => N.eqb x y && startsWith s' p'
  end.

(** [s.includes(sub)] *)
Fixpoint includes (s sub : jsstring) : bool :=
  startsWith s sub ||
  match s with
  | [] => false
  | _ :: s' => includes s' sub
  end.

(** Truthiness of a string value: the empty string is falsy. *)
Definition truthy (s : jsstring) : bool :=
  match s with [] => false | _ :: _ => true end.

(** Truthiness of an optional string ([undefined] is falsy). *)
Definition truthy_opt (s : option jsstring) : bool :=
  match s with None => false | Some s => truthy s end.

(** [String.prototype.toLowerCase], one code unit at a time.  The
    ASCII and Latin-1 capitals are mapped as Unicode maps them; of the
    code units above U+00FF only those whose lower case falls back
    into U+0000..U+00FF (or onto them) are listed, every other code
    unit is left as it is.  No keyword of the tables below has a code
    unit above U+00FF, so the unlisted mappings cannot change the
    outcome of an [includes] test against them. *)
Definition lower_unit (c : N) : list N :=
  (if (65 <=? c) && (c <=? 90) then [c + 32]
   else if (192 <=? c) && (c <=? 222) && negb (c =? 215) then [c + 32]
   else if c =? 304 then [105; 775]        (* U+0130 -> i, U+0307 *)
   else if c =? 376 then [255]             (* U+0178 -> U+00FF *)
   else if c =? 7838 then [223]            (* U+1E9E -> U+00DF *)
   else if c =? 8490 then [107]            (* U+212A -> k *)
   else if c =? 8491 then [229]            (* U+212B -> U+00E5 *)
   else [c])%N.

Definition toLowerCase (s : jsstring) : jsstring := flat_map lower_unit s.

(** [s.split(sep)] for a one-unit separator. *)
Fixpoint split_aux (sep : N) (s : jsstring) (cur : jsstring) : list jsstring :=
  match s with
  | [] => [rev cur]
  | c :: s' =>
      if N.eqb c sep then rev cur :: split_aux sep s' []
      else split_aux sep s' (c :: cur)
  end.

Definition split (sep : N) (s : jsstring) : list jsstring := split_aux sep s [].

(** [s.replace(a, b)] with a string pattern: the first occurrence only. *)
Fixpoint replace_first (a : N) (b : jsstring) (s : jsstring) : jsstring :=
  match s with
  | [] => []
  | c :: s' => if N.eqb c a then b ++ s' else c :: replace_first a b s'
  end.

(** [s.replace(/a/g, b)]: every occurrence of one code unit. *)
Definition replace_all (a : N) (b : jsstring) (s : jsstring) : jsstring :=
  flat_map (fun c => if N.eqb c a then b else [c]) s.

(** Exceptions the embedded code can meet: the range error of the
    [Buffer] readers, and an [Error] with a message. *)
Inductive JSError :=
| ERR_OUT_OF_RANGE (offset : N)
| Error (message : jsstring).

(** A statement either completes with a value or throws. *)
Inductive Completion (A : Type) :=
| Normal (a : A)
| Throw (e : JSError).
Arguments Normal {A} a.
Arguments Throw {A} e.

(** Parts of a template literal. *)
Inductive Part :=
| Txt (s : jsstring)
| OptTxt (s : option jsstring)      (* an interpolated optional string *)
| Num (x : number)                  (* an interpolated number *)
| Fixed (x : number) (digits : nat) (* [x.toFixed(digits)] *)
| ErrTxt (e : JSError)              (* the message or printing of an error *).

Definition template := list Part.

End JSString.
Import JSString.

(* ================================================================= *)
(** ** types/index.ts *)

Module Types.

Inductive FindingType := critical | warning | info.
Inductive Category := metadata | statistics | forensics | ai_signature.
Inductive Status := passed | warning_status | failed.
Inductive Verdict := VERIFIED | RISKY | REJECTED.

Definition FindingType_eqb (a b : FindingType) : bool :=
  match a, b with
  | critical, critical | warning, warning | info, info => true
  | _, _ => false
  end.

Definition Category_eqb (a b : Category) : bool :=
  match a, b with
  | metadata, metadata | statistics, statistics
  | forensics, forensics | ai_signature, ai_signature => true
  | _, _ => false
  end.

(** [Finding]; the free-form [evidence] payload is not represented. *)
Module Finding.
Record t := mk {
  type : FindingType;
  severity : number;
  category : Category;
  message : jsstring;
  details : option template
}.
End Finding.

Module CameraInfo.
Record t := mk {
  make : option jsstring;
  model : option jsstring;
  software : option jsstring;
  lensModel : option jsstring;
  orientation : option number;
  xResolution : option number;
  yResolution : option number
}.
End CameraInfo.

Module GPSInfo.
Record t := mk {
  latitude : option quotient;
  longitude : option quotient;
  altitude : option quotient;
  latitudeRef : option jsstring;
  longitudeRef : option jsstring
}.
End GPSInfo.

(** A [Date] as the six arguments it was constructed from
    ([new Date(y, m, d, h, mi, s)]); [None] stands for NaN.  The time
    value, which depends on the local time zone, is not computed; the
    date is an Invalid Date as soon as one argument is NaN. *)
Module JSDate.
Record t := mk {
  year : option Z;
  monthIndex : option Z;
  day : option Z;
  hours : option Z;
  minutes : option Z;
  seconds : option Z
}.


End JSDate.

Module AISignature.
Record t := mk {
  tool : option jsstring;
  toolType : option jsstring;
  confidence : number;
  evidence : template
}.
End AISignature.

Module ELAAnalysis.
Record t := mk {
  variance : number;
  meanDifference : number;
  maxDifference : number;
  hotspotCount : number;
  hotspotPercentage : number;
  hasManipulation : bool;
  severity : number
}.
End ELAAnalysis.

Module FrequencyAnalysis.
Record t := mk {
  hasAnomalies : bool;
  anomalyType : jsstring;
  spectralEnergy : number;
  gridArtifacts : bool;
  periodicPatterns : bool;
  severity : number
}.
End FrequencyAnalysis.

Module TextureAnalysis.
Record t := mk {
  naturalness : number;
  repetitionScore : number;
  microPatternScore : number;
  textureRichness : number;
  isArtificial : bool;
  severity : number
}.
End TextureAnalysis.

Module CompressionAnalysis.
Record t := mk {
  hasInconsistency : bool;
  inconsistencyType : option jsstring;
  hasStandardQuantization : bool;
  estimatedQuality : option number;
  blockArtifacts : bool;
  ghostingDetected : bool;
  qualityMismatch : bool;
  severity : number
}.
End CompressionAnalysis.

Module AIArtifactAnalysis.
Record t := mk {
  hasArtifacts : bool;
  artifactTypes : list jsstring;
  ganFingerprint : number;
  diffusionMarkers : number;
  description : jsstring;
  severity : number
}.
End AIArtifactAnalysis.

Module ForensicAnalysis.
Record t := mk {
  isScreenshot : bool;
  screenshotProbability : number;
  exportToolDetected : option jsstring;
  hasStandardQuantization : bool;
  quantizationQuality : option number;
  thumbnailConsistent : bool;
  fileFormatValid : bool
}.
End ForensicAnalysis.

Module MetadataAnalysisResult.
Record t := mk {
  status : Status;
  findings : list Finding.t;
  cameraInfo : option CameraInfo.t;
  timestampFindings : option (list Finding.t); (* timestamps?.inconsistencies *)
  aiSignatures : option (list AISignature.t);
  gpsInfo : option GPSInfo.t;
  hasEXIF : bool;
  hasGPS : bool
}.
End MetadataAnalysisResult.

Module ForensicsAnalysisResult.
Record t := mk {
  status : Status;
  findings : list Finding.t;
  forensics : option ForensicAnalysis.t;
  elaAnalysis : option ELAAnalysis.t;
  frequencyAnalysis : option FrequencyAnalysis.t;
  textureAnalysis : option TextureAnalysis.t;
  compressionAnalysis : option CompressionAnalysis.t;
  aiArtifactAnalysis : option AIArtifactAnalysis.t
}.
End ForensicsAnalysisResult.

Module AIDetection.
Record t := mk {
  isLikelyAI : bool;
  confidence : number;
  detectionMethods : list jsstring;
  primaryIndicators : list template
}.
End AIDetection.

(** [DetailedVerificationResult].  The [statistics] placeholder of
    [analysis] is a constant and [summary.recommendation] is a text
    derived from the other fields; neither is represented. *)
Module DetailedVerificationResult.
Record t := mk {
  status : Verdict;
  confidence : number;
  riskScore : number;
  processingTime : number;
  analysis_metadata : MetadataAnalysisResult.t;
  analysis_forensics : ForensicsAnalysisResult.t;
  totalFindings : nat;
  criticalCount : nat;
  warningCount : nat;
  infoCount : nat;
  aiDetection : AIDetection.t
}.
End DetailedVerificationResult.

End Types.
Import Types.

(* ================================================================= *)
(** ** lib/utils.ts *)

Module Utils.

(** [getSeverityLevel(score)] *)
Definition getSeverityLevel (score : number) : FindingType :=
  if ge score 75 then critical
  else if ge score 40 then warning
  else info.

(** [calculateConfidence(baseScore, positiveFactors, negativeFactors)] *)
Definition calculateConfidence
  (baseScore : number) (positiveFactors negativeFactors : list number) : number :=
  let score := baseScore in
  let score := fold_left (fun score factor => score + factor) positiveFactors score in
  let score := fold_left (fun score factor => score - factor) negativeFactors score in
  Math_max 0 (Math_min 100 score).

(** *** [parseInt] *)

(** White space and line terminators that [parseInt] skips. *)
Definition isStrWhiteSpace (c : N) : bool :=
  ((9 <=? c) && (c <=? 13) || (c =? 32) || (c =? 160) || (c =? 5760)
   || (8192 <=? c) && (c <=? 8202) || (c =? 8232) || (c =? 8233)
   || (c =? 8239) || (c =? 8287) || (c =? 12288) || (c =? 65279))%N.

Fixpoint trimStart (s : jsstring) : jsstring :=
  match s with
  | c :: s' => if isStrWhiteSpace c then trimStart s' else s
  | [] => []
  end.

(** The value of a code unit as a digit of the given radix. *)
Definition digitValue (radix : N) (c : N) : option N :=
  let v :=
    (if (48 <=? c) && (c <=? 57) then Some (c - 48)
     else if (97 <=? c) && (c <=? 122) then Some (c - 87)
     else if (65 <=? c) && (c <=? 90) then Some (c - 55)
     else None)%N in
  match v with
  | Some d => if (d <? radix)%N then Some d else None
  | None => None
  end.

(** The longest prefix of digits, read from the left; [None] when the
    string does not start with a digit. *)
Fixpoint readDigits (radix : N) (s : jsstring) (acc : option N) : option N :=
  match s with
  | [] => acc
  | c :: s' =>
      match digitValue radix c with
      | Some d =>
          readDigits radix s'
            (Some (match acc with Some a => a * radix + d | None => d end)%N)
      | None => acc
      end
  end.

(** [parseInt(s)] without a radix argument; [None] is NaN.  Leading
    white space is dropped, then a sign, then a [0x] or [0X] prefix
    (which selects radix 16); the digits that follow are read, and a
    string without any gives NaN. *)
Definition parseInt (s : jsstring) : option Z :=
  let s := trimStart s in
  let '(sign, s) :=
    match s with
    | c :: s' =>
        if (c =? 45)%N then ((-1)%Z, s')
        else if (c =? 43)%N then (1%Z, s')
        else (1%Z, s)
    | [] => (1%Z, s)
    end in
  let '(radix, s) :=
    match s with
    | c1 :: c2 :: s' =>
        if ((c1 =? 48) && ((c2 =? 120) || (c2 =? 88)))%N then (16%N, s')
        else (10%N, s)
    | _ => (10%N, s)
    end in
  match readDigits radix s None with
  | Some n => Some (sign * Z.of_N n)%Z
  | None => None
  end.

(** [parseInt(parts[i])]: a missing element is [undefined], which
    [parseInt] reads as the string "undefined". *)
Definition parseIntAt (parts : list jsstring) (i : nat) : option Z :=
  match nth_error parts i with
  | Some s => parseInt s
  | None => parseInt (js "undefined")
  end.

(** [x - 1] on a number that may be NaN. *)
Definition minusOne (x : option Z) : option Z :=
  match x with Some v => Some (v - 1)%Z | None => None end.

Definition SPACE : N := 32.
Definition COLON : N := 58.

(** [new Date(parseInt(dateParts[0]), parseInt(dateParts[1]) - 1, ...)] *)
Definition newDate (dateParts timeParts : list jsstring) : JSDate.t :=
  JSDate.mk (parseIntAt dateParts 0)
            (minusOne (parseIntAt dateParts 1))
            (parseIntAt dateParts 2)
            (parseIntAt timeParts 0)
            (parseIntAt timeParts 1)
            (parseIntAt timeParts 2).

(** [parseEXIFDate(dateStr)]; [None] is [null].  No statement of the
    guarded block can throw on a string, so the handler is not
    represented. *)
Definition parseEXIFDate (dateStr : option jsstring) : option JSDate.t :=
  match dateStr with
  | None => None
  | Some dateStr =>
      if negb (truthy dateStr) then None
      else
        let parts := split SPACE dateStr in
        if negb (Nat.eqb (List.length parts) 2) then None
        else
          let dateParts := split COLON (nth 0 parts []) in
          if negb (Nat.eqb (List.length dateParts) 3) then None
          else
            let timeParts := split COLON (nth 1 parts []) in
            if negb (Nat.eqb (List.length timeParts) 3) then None
            else Some (newDate dateParts timeParts)
  end.

(** [parseGPSTimestamp(dateStr, timeStr)] *)
Definition parseGPSTimestamp (dateStr timeStr : option jsstring) : option JSDate.t :=
  match dateStr, timeStr with
  | Some dateStr, Some timeStr =>
      if negb (truthy dateStr) || negb (truthy timeStr) then None
      else
        let dateParts := split COLON dateStr in
        let timeParts := split COLON timeStr in
        Some (newDate dateParts timeParts)
  | _, _ => None
  end.

(** *** Buffers *)

Definition Buffer := list byte.

Definition byteLength (b : Buffer) : N := N.of_nat (List.length b).

(** [buf.subarray(start, end)]: both ends are clamped to the buffer. *)
Definition subarray (b : Buffer) (s e : N) : Buffer :=
  let len := byteLength b in
  let s := N.min s len in
  let e := N.min e len in
  if (e <=? s)%N then []
  else firstn (N.to_nat (e - s)) (skipn (N.to_nat s) b).

(** [buf.subarray(start)] *)
Definition subarrayFrom (b : Buffer) (s : N) : Buffer :=
  subarray b s (byteLength b).

(** [buf[i]] *)
Definition byteAt (b : Buffer) (i : N) : option N :=
  match nth_error b (N.to_nat i) with
  | Some x => Some (Byte.to_N x)
  | None => None
  end.

Definition beValue (bs : list byte) : N :=
  fold_left (fun acc x => acc * 256 + Byte.to_N x)%N bs 0%N.

(** [buf.readUInt32BE(offset)]: throws unless [offset + 4 <= length]. *)
Definition readUInt32BE (b : Buffer) (offset : N) : Completion N :=
  if (offset + 4 <=? byteLength b)%N
  then Normal (beValue (subarray b offset (offset + 4)))
  else Throw (ERR_OUT_OF_RANGE offset).

(** [buf.readUInt16BE(offset)] *)
Definition readUInt16BE (b : Buffer) (offset : N) : Completion N :=
  if (offset + 2 <=? byteLength b)%N
  then Normal (beValue (subarray b offset (offset + 2)))
  else Throw (ERR_OUT_OF_RANGE offset).

(** [buf.equals(other)] *)
Fixpoint equals (a b : Buffer) : bool :=
  match a, b with
  | [], [] => true
  | x :: a', y :: b' => Byte.eqb x y && equals a' b'
  | _, _ => false
  end.

(** Position of the first [value] in [b], counted from [pos]. *)
Fixpoint indexOfFrom (value : byte) (b : Buffer) (pos : Z) : Z :=
  match b with
  | [] => (-1)%Z
  | x :: b' => if Byte.eqb x value then pos else indexOfFrom value b' (pos + 1)%Z
  end.

(** [buf.indexOf(value, byteOffset)] for [byteOffset >= 0]; -1 when absent. *)
Definition indexOf (b : Buffer) (value : byte) (byteOffset : Z) : Z :=
  indexOfFrom value (skipn (Z.to_nat byteOffset) b) byteOffset.

Fixpoint bufStartsWith (b p : Buffer) : bool :=
  match p, b with
  | [], _ => true
  | _ :: _, [] => false
  | x :: p', y :: b' => Byte.eqb x y && bufStartsWith b' p'
  end.

(** [buf.includes(other)] *)
Fixpoint bufIncludes (b other : Buffer) : bool :=
  bufStartsWith b other ||
  match b with
  | [] => false
  | _ :: b' => bufIncludes b' other
  end.

(** [buf.toString('latin1')]: one code unit per byte. *)
Definition toString_latin1 (b : Buffer) : jsstring := List.map Byte.to_N b.

(** [buf.toString('ascii')]: the high bit of every byte is dropped. *)
Definition toString_ascii (b : Buffer) : jsstring :=
  List.map (fun x => N.land (Byte.to_N x) 127) b.

(** The UTF-16 code units of a code point. *)
Definition codeUnits (cp : N) : jsstring :=
  (if cp <? 65536 then [cp]
   else [55296 + N.shiftr (cp - 65536) 10; 56320 + N.land (cp - 65536) 1023])%N.

(** State of the UTF-8 decoder: continuation bytes still needed, the
    code point so far, and the bounds of the next continuation byte. *)
Record Utf8State := mkUtf8 {
  needed : nat;
  codePoint : N;
  lower : N;
  upper : N
}.

Definition utf8Idle : Utf8State := mkUtf8 0 0 128 191.

(** A byte met while no sequence is open. *)
Definition utf8Lead (x : N) : jsstring * Utf8State :=
  (if x <=? 127 then ([x], utf8Idle)
   else if (194 <=? x) && (x <=? 223) then ([], mkUtf8 1 (N.land x 31) 128 191)
   else if (224 <=? x) && (x <=? 239) then
     ([], mkUtf8 2 (N.land x 15)
                 (if x =? 224 then 160 else 128) (if x =? 237 then 159 else 191))
   else if (240 <=? x) && (x <=? 244) then
     ([], mkUtf8 3 (N.land x 7)
                 (if x =? 240 then 144 else 128) (if x =? 244 then 143 else 191))
   else ([65533], utf8Idle))%N.

(** One byte of input; an ill-formed sequence yields U+FFFD and the
    offending byte is read again as a lead byte. *)
Definition utf8Step (st : Utf8State) (x : N) : jsstring * Utf8State :=
  match needed st with
  | O => utf8Lead x
  | S n =>
      if ((lower st <=? x) && (x <=? upper st))%N then
        let cp := N.lor (N.shiftl (codePoint st) 6) (N.land x 63) in
        match n with
        | O => (codeUnits cp, utf8Idle)
        | S _ => ([], mkUtf8 n cp 128 191)
        end
      else
        let '(out, st') := utf8Lead x in
        (65533%N :: out, st')
  end.

Fixpoint utf8Decode (st : Utf8State) (b : Buffer) : jsstring :=
  match b with
  | [] => match needed st with O => [] | S _ => [65533%N] end
  | x :: b' =>
      let '(out, st') := utf8Step st (Byte.to_N x) in
      out ++ utf8Decode st' b'
  end.

(** [buf.toString('utf-8')] *)
Definition toString_utf8 (b : Buffer) : jsstring := utf8Decode utf8Idle b.

(** *** [Map<string, string>]: entries in insertion order. *)

Definition StringMap := list (jsstring * jsstring).

(** [map.set(k, v)]: an existing key keeps its place. *)
Fixpoint map_set (k v : jsstring) (m : StringMap) : StringMap :=
  match m with
  | [] => [(k, v)]
  | (k', v') :: m' =>
      if JSString.eqb k' k then (k, v) :: m' else (k', v') :: map_set k v m'
  end.

(** [map.has(k)] *)
Definition map_has (k : jsstring) (m : StringMap) : bool :=
  existsb (fun e => JSString.eqb (fst e) k) m.

(** *** [parsePNGChunks] *)

Definition PNG_SIGNATURE : Buffer :=
  [x89; x50; x4e; x47; x0d; x0a; x1a; x0a]%byte.

(** The variables the chunk loop updates. *)
Record ChunkState := mkChunkState {
  chunks : StringMap;
  textContent : option jsstring
}.

(** [if (chunkText) textContent = chunkText] *)
Definition noteText (chunkText : option jsstring) (st : ChunkState) : ChunkState :=
  match chunkText with
  | Some t => if truthy t then mkChunkState (chunks st) (Some t) else st
  | None => st
  end.

(** The body run for a tEXt, zTXt or iTXt chunk.  Nothing in it can
    throw, so its handler is not represented. *)
Definition textChunk (type : jsstring) (chunkData : Buffer) (st : ChunkState)
  : ChunkState :=
  if JSString.eqb type (js "iTXt") then
    let nullIdx1 := indexOf chunkData x00 0 in
    let nullIdx2 := indexOf chunkData x00 (nullIdx1 + 1) in
    let nullIdx3 := indexOf chunkData x00 (nullIdx2 + 1) in
    let chunkText :=
      if (0 <? nullIdx3)%Z
      then Some (toString_utf8 (subarrayFrom chunkData (Z.to_N (nullIdx3 + 1))))
      else None in
    noteText chunkText st
  else if JSString.eqb type (js "zTXt") then
    let nullIdx := indexOf chunkData x00 0 in
    let chunkText :=
      if (0 <? nullIdx)%Z
      then Some (toString_utf8 (subarrayFrom chunkData (Z.to_N (nullIdx + 1))))
      else None in
    noteText chunkText st
  else
    let nullIdx := indexOf chunkData x00 0 in
    if (0 <? nullIdx)%Z then
      let keyword := toString_ascii (subarray chunkData 0 (Z.to_N nullIdx)) in
      let chunkText := toString_latin1 (subarrayFrom chunkData (Z.to_N (nullIdx + 1))) in
      let st := mkChunkState (map_set (toLowerCase keyword) chunkText (chunks st))
                             (textContent st) in
      noteText (Some chunkText) st
    else noteText None st.

Definition isTextType (type : jsstring) : bool :=
  JSString.eqb type (js "tEXt") || JSString.eqb type (js "zTXt")
  || JSString.eqb type (js "iTXt").

(** The [while (offset + 8 <= buffer.length)] loop.  Every turn moves
    [offset] forward by at least 12, so [fuel] turns are enough once
    [fuel] exceeds the length of the buffer; [None] reports that the
    fuel ran out. *)
Fixpoint chunkLoop (fuel : nat) (buffer : Buffer) (offset : N) (st : ChunkState)
  : option (Completion ChunkState) :=
  match fuel with
  | O => None
  | S fuel =>
      if negb (offset + 8 <=? byteLength buffer)%N then Some (Normal st)
      else
        match readUInt32BE buffer offset with
        | Throw e => Some (Throw e)
        | Normal length =>
            let type := toString_ascii (subarray buffer (offset + 4) (offset + 8)) in
            let chunkData := subarray buffer (offset + 8) (offset + 8 + length) in
            match readUInt32BE buffer (offset + 8 + length) with
            | Throw e => Some (Throw e)
            | Normal crc =>
                let st := if isTextType type then textChunk type chunkData st else st in
                if JSString.eqb type (js "IEND") then Some (Normal st)
                else chunkLoop fuel buffer (offset + 12 + length) st
            end
        end
  end.

(** [parsePNGChunks(buffer)] *)
Definition parsePNGChunks (buffer : Buffer) : Completion StringMap :=
  let chunks := [] in
  let signature := subarray buffer 0 8 in
  if negb (equals signature PNG_SIGNATURE) then Normal chunks
  else
    match chunkLoop (S (List.length buffer)) buffer 8 (mkChunkState chunks None) with
    | Some (Normal st) =>
        match textContent st with
        | Some t =>
            if truthy t then Normal (map_set (js "tEXt") t (Utils.chunks st))
            else Normal (Utils.chunks st)
        | None => Normal (Utils.chunks st)
        end
    | Some (Throw e) => Throw e
    | None => Normal chunks
    end.

(** *** [hasC2PAMetadata] *)

Definition APP13_MARKER : N := 65517.   (* 0xFFED *)
Definition JUMBF_BOX : Buffer := list_byte_of_string "jumb".

(** The [while (offset + 2 < buffer.length)] loop; [offset] grows by at
    least one every turn. *)
Fixpoint c2paLoop (fuel : nat) (buffer : Buffer) (offset : N)
  : option (Completion bool) :=
  match fuel with
  | O => None
  | S fuel =>
      if negb (offset + 2 <? byteLength buffer)%N then Some (Normal false)
      else
        let isMarker :=
          match byteAt buffer offset, byteAt buffer (offset + 1) with
          | Some b0, Some b1 => (b0 =? 255)%N && (b1 =? APP13_MARKER)%N
          | _, _ => false
          end in
        if isMarker then
          match readUInt16BE buffer (offset + 2) with
          | Throw e => Some (Throw e)
          | Normal length =>
              if (byteLength buffer <? offset + 4 + length)%N then Some (Normal false)
              else
                let markerData := subarray buffer (offset + 4) (offset + 4 + length) in
                if bufIncludes markerData JUMBF_BOX then Some (Normal true)
                else c2paLoop fuel buffer (offset + 4 + length)
          end
        else c2paLoop fuel buffer (offset + 1)
  end.

(** [hasC2PAMetadata(buffer)] *)
Definition hasC2PAMetadata (buffer : Buffer) : Completion bool :=
  match c2paLoop (S (List.length buffer)) buffer 2 with
  | Some r => r
  | None => Normal false
  end.

End Utils.

(* ================================================================= *)
(** ** constants/ai-tools.ts *)

Module AiTools.

Definition DIFFUSION : list jsstring :=
  [js "stable diffusion"; js "automatic1111"; js "comfyui"; js "swarmui";
   js "forge"; js "webui"; js "sdxl"; js "stablecascade"; js "automatic 1111";
   js "a1111"; js "invokeai"; js "invoke ai"; js "sd-webui"; js "kohya";
   js "diffusers"; js "flux"; js "fooocus"; js "sd1.5"; js "sd2.0"; js "sd2.1";
   js "sdxl1.0"; js "stable-diffusion"; js "dreamshaper"; js "deliberate";
   js "realistic vision"; js "cyberrealistic"; js "juggernaut"].

Definition GENERATIVE : list jsstring :=
  [js "dall-e"; js "dalle"; js "dall e"; (js "dall" ++ [183%N] ++ js "e");
   js "openai"; js "chatgpt"; js "midjourney"; js "mid journey"; js "mj";
   js "leonardo ai"; js "leonardo.ai"; js "leonardo"; js "ideogram";
   js "ideogram.ai"; js "playground ai"; js "playground"; js "adobe firefly";
   js "firefly"; js "bing image creator"; js "microsoft designer";
   js "copilot"; js "gemini image"; js "google imagen"; js "imagen";
   js "stability ai"; js "stability.ai"; js "nightcafe"; js "artbreeder";
   js "craiyon"; js "dream"; js "deep dream"; js "neural.love"; js "starryai";
   js "jasper art"; js "pixlr ai"; js "fotor ai"; js "picsart ai";
   js "runwayml"; js "runway"; js "kaiber"; js "synthesia"; js "d-id";
   js "heygen"; js "luma ai"; js "pika labs"; js "pika"; js "kling ai";
   js "sora"; js "gen-2"; js "gen-3"; js "suno"; js "udio"].

Definition EDITING : list jsstring :=
  [js "adobe photoshop"; js "photoshop"; js "adobe lightroom"; js "lightroom";
   js "adobe after effects"; js "after effects"; js "adobe premiere";
   js "gimp"; js "gnu image manipulation"; js "canva"; js "affinity photo";
   js "affinity designer"; js "skylum luminar"; js "luminar"; js "capture one";
   js "dxo photolab"; js "photolab"; js "darktable"; js "rawtherapee";
   js "on1"; js "corel painter"; js "pixelmator"; js "procreate";
   js "clip studio"; js "krita"; js "photopea"].

Definition EXPORT_TOOLS : list jsstring :=
  [js "screenshot"; js "snipping tool"; js "screen capture"; js "grab";
   js "preview"; js "paint"; js "mspaint"; js "chrome"; js "safari";
   js "firefox"; js "edge"; js "figma"; js "sketch"; js "adobe xd";
   js "design tool"; js "windows photo"; js "photos"; js "image viewer";
   js "snagit"; js "greenshot"; js "lightshot"; js "sharex"; js "gyazo"].

Definition AI_MARKERS : list jsstring :=
  [js "ai-generated"; js "ai generated"; js "ai_generated";
   js "artificial intelligence"; js "machine learning"; js "neural network";
   js "diffusion model"; js "generative adversarial"; js "gan";
   js "text-to-image"; js "text to image"; js "t2i"; js "image generation";
   js "image synthesis"; js "stable diffusion"; js "synthid"; js "c2pa";
   js "contentcredentials"; js "content credentials"; js "parameters:";
   js "negative prompt:"; js "negative_prompt"; js "steps:"; js "cfg scale:";
   js "cfg_scale"; js "seed:"; js "model:"; js "sampler:"; js "scheduler:";
   js "denoising strength:"; js "denoising_strength"; js "clip skip:";
   js "clip_skip"; js "batch size:"; js "batch_size"; js "hires fix";
   js "hires. fix"; js "upscale"; js "upscaler"; js "lora:"; js "lora_";
   js "<lora:"; js "lyco:"; js "embedding:"; js "ti:"; js "hypernetwork";
   js "hypernet"; js "controlnet"; js "inpaint"; js "img2img"; js "txt2img";
   js "latent"; js "vae"; js "version:"; js "aspect ratio:"; js "--ar";
   js "--v"; js "--quality"; js "--q"; js "--stylize"; js "--s"; js "--chaos";
   js "--c"; js "--weird"; js "--w"; js "--niji"; js "--style"; js "--tile";
   js "--repeat"; js "--no"; js "--iw"; js "workflow"; js "node_";
   js "ksampler"; js "checkpoint"; js "positive_conditioning";
   js "negative_conditioning"].

Definition PNG_AI_CHUNK_KEYWORDS : list jsstring :=
  [js "parameters"; js "prompt"; js "negative prompt"; js "negative_prompt";
   js "positive prompt"; js "workflow"; js "comfyui"; js "automatic1111";
   js "stable diffusion"; js "steps:"; js "cfg scale:"; js "cfg_scale";
   js "seed:"; js "sampler:"; js "scheduler:"; js "model:"; js "checkpoint";
   js "lora"; js "lyco"; js "hypernetwork"; js "hires fix"; js "denoising";
   js "inpaint"; js "controlnet"; js "adetailer"; js "upscale"; js "latent";
   js "vae:"; js "clip skip"; js "midjourney"; js "version:";
   js "aspect ratio:"; js "chaos:"; js "stylize:"; js "weird:"; js "quality:";
   js "--ar"; js "--v "; js "--q "; js "--s "; js "dall-e"; js "dalle";
   js "openai"; js "ksampler"; js "checkpoint_loader"; js "clip_text_encode";
   js "empty_latent"; js "vae_decode"; js "save_image"; js "leonardo";
   js "alchemy"; js "photoreal"; js "phoenix"; js "ai generated";
   js "generated by"; js "created with"].

Definition C2PA_AI_ASSERTIONS : list jsstring :=
  [js "c2pa"; js "c2pa.ai"; js "contentcredentials"; js "content credentials";
   js "jumbf"; js "adobe"; js "provenance"; js "claim"; js "assertion";
   js "training-mining"; js "ai_generated"; js "ai_training";
   js "generativeai"; js "synthid"].

(** [AI_TOOLS_SIGNATURES], in the order [Object.entries] lists its keys. *)
Definition AI_TOOLS_SIGNATURES : list (jsstring * list jsstring) :=
  [(js "DIFFUSION", DIFFUSION);
   (js "GENERATIVE", GENERATIVE);
   (js "EDITING", EDITING);
   (js "EXPORT_TOOLS", EXPORT_TOOLS);
   (js "AI_MARKERS", AI_MARKERS)].

(** The object [detectAITool] returns. *)
Module Detection.
Record t := mk {
  detected : bool;
  tool : option jsstring;
  type : option jsstring;
  confidence : option number
}.
End Detection.

Definition notDetected : Detection.t := Detection.mk false None None None.

(** The confidence attached to a category key. *)
Definition categoryConfidence (category : jsstring) : number :=
  if JSString.eqb category (js "DIFFUSION") || JSString.eqb category (js "GENERATIVE")
  then 95
  else if JSString.eqb category (js "AI_MARKERS") then 90
  else if JSString.eqb category (js "EDITING") then 40
  else 30.

(** The inner loop: does one of [tools] occur in [lowerSoftware]? *)
Definition matchesAny (lowerSoftware : jsstring) (tools : list jsstring) : bool :=
  existsb (fun tool => includes lowerSoftware tool) tools.

(** The outer loop over the categories; the first category with a
    matching tool decides. *)
Fixpoint scanCategories
  (software lowerSoftware : jsstring) (entries : list (jsstring * list jsstring))
  : Detection.t :=
  match entries with
  | [] => notDetected
  | (category, tools) :: rest =>
      if matchesAny lowerSoftware tools then
        Detection.mk true (Some software)
          (Some (toLowerCase (replace_first 95 (js " ") category)))
          (Some (categoryConfidence category))
      else scanCategories software lowerSoftware rest
  end.

(** [detectAITool(software)] *)
Definition detectAITool (software : jsstring) : Detection.t :=
  if negb (truthy software) then notDetected
  else
    let lowerSoftware := toLowerCase software in
    scanCategories software lowerSoftware AI_TOOLS_SIGNATURES.

(** [isExportTool(software)] *)
Definition isExportTool (software : jsstring) : bool :=
  if negb (truthy software) then false
  else
    let lowerSoftware := toLowerCase software in
    existsb (fun tool => includes lowerSoftware tool) EXPORT_TOOLS.

End AiTools.

(* ================================================================= *)
(** ** lib/metadata-analyzer.ts *)

Module MetadataAnalyzer.

Import Utils AiTools.

(** What [piexif.load] yields, reduced to the tags the analyzer reads.
    A rational is the pair of its numerator and denominator. *)
Module Exif.
Record t := mk {
  Make : option jsstring;
  Model : option jsstring;
  Software : option jsstring;
  LensModel : option jsstring;
  Orientation : option number;
  XResolution : option number;
  YResolution : option number;
  GPSLatitude : option (list (Z * Z));
  GPSLongitude : option (list (Z * Z));
  GPSLatitudeRef : option jsstring;
  GPSLongitudeRef : option jsstring;
  GPSAltitude : option (Z * Z)
}.
End Exif.

(** The image handed to [analyzeMetadata], after the steps that belong
    to libraries: the data URL either does not decode ([extractBase64]
    throws), or it decodes to a buffer; for a JPEG, [piexif.load] has
    either thrown or produced the tags, and [analyzeTimestamps] has
    produced its list of inconsistencies. *)
Inductive ImageData :=
| InvalidDataURL
| JPEG (buffer : Buffer) (exifObj : Completion Exif.t) (inconsistencies : list Finding.t)
| NotJPEG (buffer : Buffer).

(** [convertDMSToDecimal(dms, ref)]; [None] is [undefined].  The
    entries of [dms] are pairs, so nothing in the guarded block throws. *)
Definition convertDMSToDecimal (dms : option (list (Z * Z))) (ref : option jsstring)
  : option quotient :=
  match dms with
  | Some (d :: m :: s :: _) =>
      match divide (fst d) (snd d), divide (fst m) (snd m), divide (fst s) (snd s) with
      | Finite degrees, Finite minutes, Finite seconds =>
          let decimal := degrees + (minutes / 60) + (seconds / 3600) in
          let decimal :=
            match ref with
            | Some r =>
                if JSString.eqb r (js "S") || JSString.eqb r (js "W")
                then - decimal else decimal
            | None => decimal
            end in
          Some (Finite (Math_round (decimal * 1000000) / 1000000))
      | _, _, _ => Some NonFinite
      end
  | _ => None
  end.

(** The variables [analyzeMetadata] updates. *)
Record State := mkState {
  findings : list Finding.t;
  aiSignatures : list AISignature.t;
  cameraInfo : option CameraInfo.t;
  gpsInfo : option GPSInfo.t;
  timestamps : option (list Finding.t);
  hasEXIF : bool;
  hasGPS : bool
}.

Definition state0 : State := mkState [] [] None None None false false.

Definition pushFinding (f : Finding.t) (st : State) : State :=
  mkState (findings st ++ [f]) (aiSignatures st) (cameraInfo st) (gpsInfo st)
          (timestamps st) (hasEXIF st) (hasGPS st).

Definition pushFindings (fs : list Finding.t) (st : State) : State :=
  mkState (findings st ++ fs) (aiSignatures st) (cameraInfo st) (gpsInfo st)
          (timestamps st) (hasEXIF st) (hasGPS st).

Definition pushSignature (sig : AISignature.t) (st : State) : State :=
  mkState (findings st) (aiSignatures st ++ [sig]) (cameraInfo st) (gpsInfo st)
          (timestamps st) (hasEXIF st) (hasGPS st).

(** The block [if (software) { ... }]: AI tools, then export tools. *)
Definition checkSoftware (software : option jsstring) (st : State) : State :=
  match software with
  | Some software =>
      if truthy software then
        let aiDetection := detectAITool software in
        let st :=
          if Detection.detected aiDetection then
            let signature :=
              AISignature.mk (Detection.tool aiDetection) (Detection.type aiDetection) 95
                [Txt (js "Software field contains: " ++ [34%N]); Txt software; Txt [34%N]] in
            let st := pushSignature signature st in
            pushFinding
              (Finding.mk critical 100 ai_signature
                 (js "AI generation software detected: "
                  ++ match Detection.tool aiDetection with
                     | Some t => t
                     | None => js "undefined"
                     end)
                 (Some [Txt (js "Software metadata field contains known AI tool signature")]))
              st
          else st in
        if isExportTool software then
          pushFinding
            (Finding.mk warning 50 metadata (js "Export tool detected")
               (Some [Txt (js "Image appears to be exported from: "); Txt software]))
            st
        else st
      else st
  | None => st
  end.

(** The block [if (!make) { ... }]. *)
Definition checkMake (make : option jsstring) (st : State) : State :=
  if negb (truthy_opt make) then
    pushFinding
      (Finding.mk warning 40 metadata (js "Missing camera manufacturer information")
         (Some [Txt (js "No hardware signature detected. Image may be a screenshot, export, or edited.")]))
      st
  else st.

(** GPS presence and coordinates. *)
Definition checkGPS (e : Exif.t) (st : State) : State :=
  match Exif.GPSLatitude e, Exif.GPSLongitude e with
  | Some gpsLatitude, Some gpsLongitude =>
      let lat := convertDMSToDecimal (Some gpsLatitude) (Exif.GPSLatitudeRef e) in
      let lng := convertDMSToDecimal (Some gpsLongitude) (Exif.GPSLongitudeRef e) in
      let info :=
        GPSInfo.mk lat lng
          (match Exif.GPSAltitude e with
           | Some a => Some (divide (fst a) (snd a))
           | None => None
           end)
          (Exif.GPSLatitudeRef e) (Exif.GPSLongitudeRef e) in
      mkState (findings st) (aiSignatures st) (cameraInfo st) (Some info)
              (timestamps st) (hasEXIF st) true
  | _, _ =>
      pushFinding
        (Finding.mk warning 30 metadata (js "Missing GPS location data")
           (Some [Txt (js "No geolocation information found in metadata")]))
        (mkState (findings st) (aiSignatures st) (cameraInfo st) (gpsInfo st)
                 (timestamps st) (hasEXIF st) false)
  end.

(** Result of [analyzeTimestamps]: kept only when it has inconsistencies. *)
Definition checkTimestamps (inconsistencies : list Finding.t) (st : State) : State :=
  match inconsistencies with
  | [] => st
  | _ :: _ =>
      pushFindings inconsistencies
        (mkState (findings st) (aiSignatures st) (cameraInfo st) (gpsInfo st)
                 (Some inconsistencies) (hasEXIF st) (hasGPS st))
  end.

(** The JPEG branch: the [try] around [piexif.load] and its handler. *)
Definition analyzeJPEG
  (exifObj : Completion Exif.t) (inconsistencies : list Finding.t) (st : State) : State :=
  match exifObj with
  | Normal e =>
      let st := mkState (findings st) (aiSignatures st)
                  (Some (CameraInfo.mk (Exif.Make e) (Exif.Model e) (Exif.Software e)
                           (Exif.LensModel e) (Exif.Orientation e)
                           (Exif.XResolution e) (Exif.YResolution e)))
                  (gpsInfo st) (timestamps st) true (hasGPS st) in
      let st := checkSoftware (Exif.Software e) st in
      let st := checkMake (Exif.Make e) st in
      let st := checkGPS e st in
      checkTimestamps inconsistencies st
  | Throw exifError =>
      pushFinding
        (Finding.mk warning 35 metadata (js "Unable to parse EXIF metadata")
           (Some [Txt (js "EXIF structure may be corrupted or missing")]))
        st
  end.

(** Body of the loop over the entries of the chunk map: the first
    keyword of [PNG_AI_CHUNK_KEYWORDS] found in the lower-cased content
    yields one finding and one signature, then the inner loop breaks. *)
Definition checkChunk (st : State) (entry : jsstring * jsstring) : State :=
  let '(keyword, content) := entry in
  let lowerContent := toLowerCase content in
  match find (fun aiKeyword => includes lowerContent aiKeyword) PNG_AI_CHUNK_KEYWORDS with
  | Some aiKeyword =>
      let st :=
        pushFinding
          (Finding.mk critical 100 ai_signature
             (js "AI generation parameters detected in PNG chunks")
             (Some [Txt (js "Found AI-related keyword " ++ [34%N]); Txt aiKeyword;
                    Txt ([34%N] ++ js " in "); Txt keyword; Txt (js " chunk")]))
          st in
      pushSignature
        (AISignature.mk (Some (js "Unknown PNG-based AI tool")) (Some (js "diffusion")) 90
           [Txt (js "PNG "); Txt keyword; Txt (js " chunk contains: "); Txt aiKeyword])
        st
  | None => st
  end.

(** The branch taken for every image that is not a JPEG. *)
Definition analyzePNG (buffer : Buffer) (st : State) : Completion State :=
  let st :=
    pushFinding
      (Finding.mk info 15 metadata (js "PNG format - limited EXIF support")
         (Some [Txt (js "PNG files may have embedded metadata in text chunks")]))
      st in
  match parsePNGChunks buffer with
  | Throw e => Throw e
  | Normal pngChunks =>
      let st := fold_left checkChunk pngChunks st in
      match hasC2PAMetadata buffer with
      | Throw e => Throw e
      | Normal c2pa =>
          let st :=
            if c2pa then
              pushFinding
                (Finding.mk warning 45 metadata (js "C2PA/JUMBF metadata detected")
                   (Some [Txt (js "Content Credentials present - may indicate AI generation or digital watermarking")]))
                st
            else st in
          let st :=
            if negb (hasEXIF st) then
              pushFinding
                (Finding.mk warning 35 metadata (js "No EXIF metadata found")
                   (Some [Txt (js "PNG has no embedded EXIF data. May be a screenshot or edited image")]))
                st
            else st in
          Normal st
      end
  end.

(** [f.type === 'critical' && f.category === 'ai-signature'] *)
Definition isCriticalAI (f : Finding.t) : bool :=
  FindingType_eqb (Finding.type f) critical
  && Category_eqb (Finding.category f) ai_signature.

(** The overall status and the returned object. *)
Definition finish (st : State) : MetadataAnalysisResult.t :=
  let hasCriticalAI := existsb isCriticalAI (findings st) in
  let hasWarnings := existsb (fun f => ge (Finding.severity f) 40) (findings st) in
  MetadataAnalysisResult.mk
    (if hasCriticalAI then failed else if hasWarnings then warning_status else passed)
    (findings st) (cameraInfo st) (timestamps st) (Some (aiSignatures st))
    (gpsInfo st) (hasEXIF st) (hasGPS st).

(** The object returned by the outer handler. *)
Definition analysisFailed (error : JSError) : MetadataAnalysisResult.t :=
  MetadataAnalysisResult.mk failed
    [Finding.mk critical 100 metadata (js "Metadata analysis failed")
       (Some [ErrTxt error])]
    None None None None false false.

(** [analyzeMetadata(imageData)] *)
Definition analyzeMetadata (imageData : ImageData) : MetadataAnalysisResult.t :=
  match imageData with
  | InvalidDataURL => analysisFailed (Error (js "Invalid data URL"))
  | JPEG buffer exifObj inconsistencies =>
      finish (analyzeJPEG exifObj inconsistencies state0)
  | NotJPEG buffer =>
      match analyzePNG buffer state0 with
      | Normal st => finish st
      | Throw e => analysisFailed e
      end
  end.

End MetadataAnalyzer.

(* ================================================================= *)
(** ** lib/forensics-analyzer.ts *)

Module ForensicsAnalyzer.

Import Utils AiTools.

(** The statistics the ELA loop gathers from the two rasters. *)
Module ELAMetrics.
Record t := mk {
  variance : number;
  meanDiff : number;
  maxDiff : number;
  hotspotCount : number;
  hotspotPercentage : number
}.
End ELAMetrics.

(** [hasManipulation] of [analyzeELA]. *)
Definition elaHasManipulation (variance hotspotPercentage : number) : bool :=
  (gt variance 15 && gt hotspotPercentage 5)
  || (lt variance 3 && lt hotspotPercentage (5 # 10)).

(** [severity] of [analyzeELA]. *)
Definition elaSeverity (variance : number) : number :=
  let severity := 0 in
  if gt variance 25 then 75
  else if gt variance 18 then 60
  else if gt variance 12 then 45
  else if lt variance 2 then 70
  else severity.

(** The object the handler of [analyzeELA] returns. *)
Definition elaNeutral : ELAAnalysis.t :=
  ELAAnalysis.mk 0 0 0 0 0 false 0.

(** [analyzeELA]: [pixels] is the outcome of the guarded decoding and
    difference loop, an exception or the gathered statistics. *)
Definition analyzeELA (pixels : Completion ELAMetrics.t) : ELAAnalysis.t :=
  match pixels with
  | Normal m =>
      let variance := ELAMetrics.variance m in
      let hotspotPercentage := ELAMetrics.hotspotPercentage m in
      let hasManipulation := elaHasManipulation variance hotspotPercentage in
      let severity := elaSeverity variance in
      ELAAnalysis.mk variance (ELAMetrics.meanDiff m) (ELAMetrics.maxDiff m)
                     (ELAMetrics.hotspotCount m) hotspotPercentage
                     hasManipulation severity
  | Throw error => elaNeutral
  end.

(** The objects the handlers of the other four analyses return. *)
Definition frequencyNeutral : FrequencyAnalysis.t :=
  FrequencyAnalysis.mk false (js "error") 0 false false 0.

Definition textureNeutral : TextureAnalysis.t :=
  TextureAnalysis.mk 50 0 0 (5 # 10) false 0.

Definition compressionNeutral : CompressionAnalysis.t :=
  CompressionAnalysis.mk false None false None false false false 0.

Definition artifactNeutral : AIArtifactAnalysis.t :=
  AIArtifactAnalysis.mk false [] 0 0 (js "Analysis error") 0.

(** [try { body } catch { return neutral }]: the shape of every
    sub-analysis.  [body] is the outcome of the guarded block. *)
Definition guarded {A : Type} (body : Completion A) (neutral : A) : A :=
  match body with
  | Normal r => r
  | Throw error => neutral
  end.

Definition analyzeFrequencyDomain (body : Completion FrequencyAnalysis.t) :=
  guarded body frequencyNeutral.

Definition analyzeTexturePatterns (body : Completion TextureAnalysis.t) :=
  guarded body textureNeutral.

Definition analyzeJPEGCompression (body : Completion CompressionAnalysis.t) :=
  guarded body compressionNeutral.

Definition detectAIArtifacts (body : Completion AIArtifactAnalysis.t) :=
  guarded body artifactNeutral.

(** [detectScreenshot(width, height, cameraMake, software)] *)
Definition commonScreenshotRatios : list number :=
  [16 / 9; 16 / 10; 4 / 3; 3 / 2; 25 / 16].
Definition commonWidths : list Z := [1920; 2560; 3840; 1366; 1440; 1536; 2880; 5120]%Z.
Definition commonHeights : list Z := [1080; 1440; 2160; 768; 900; 864; 1200; 1800; 2880]%Z.

Definition detectScreenshot
  (width height : Z) (cameraMake software : option jsstring) : bool * number :=
  let probability := 0 in
  (* a zero height makes the ratio NaN or infinite: no ratio is close *)
  let isCommonRatio :=
    if (height =? 0)%Z then false
    else
      let aspectRatio := inject_Z width / inject_Z height in
      existsb (fun r => lt (Math_abs (aspectRatio - r)) (5 # 100)) commonScreenshotRatios in
  let probability := if isCommonRatio then probability + 15 else probability in
  let probability :=
    if existsb (Z.eqb width) commonWidths then probability + 25 else probability in
  let probability :=
    if existsb (Z.eqb height) commonHeights then probability + 25 else probability in
  let probability := if negb (truthy_opt cameraMake) then probability + 15 else probability in
  let probability :=
    match software with
    | Some software =>
        if truthy software then
          let lower := toLowerCase software in
          if includes lower (js "screenshot") || includes lower (js "capture")
             || includes lower (js "grab") || includes lower (js "snip")
          then probability + 35 else probability
        else probability
    | None => probability
    end in
  (ge probability 55, Math_min 100 probability).

(** [analyzePNGSpecific(buffer)] *)
Definition aiKeywords : list jsstring :=
  [js "stable diffusion"; js "midjourney"; js "dall-e"; js "dalle"; js "prompt";
   js "negative prompt"; js "steps:"; js "cfg scale:"; js "sampler:"; js "seed:";
   js "model:"; js "lora"; js "controlnet"; js "comfyui"; js "automatic1111";
   js "parameters"; js "denoising"; js "hires fix"; js "upscale"; js "leonardo";
   js "firefly"; js "adobe firefly"; js "ideogram"; js "playground"].

Definition pngChunkFinding (fs : list Finding.t) (entry : jsstring * jsstring)
  : list Finding.t :=
  let '(keyword, content) := entry in
  if negb (truthy content) then fs
  else
    let lowerContent := toLowerCase content in
    match find (fun aiKeyword => includes lowerContent aiKeyword) aiKeywords with
    | Some aiKeyword =>
        fs ++ [Finding.mk critical 90 forensics
                 (js "AI generation signature in PNG metadata")
                 (Some [Txt (js "Found AI tool signature: " ++ [34%N]); Txt aiKeyword;
                        Txt ([34%N] ++ js " in "); Txt keyword; Txt (js " chunk")])]
    | None => fs
    end.

Definition analyzePNGSpecific (buffer : Buffer) : Completion (list Finding.t) :=
  match parsePNGChunks buffer with
  | Throw e => Throw e
  | Normal chunks =>
      let findings := fold_left pngChunkFinding chunks [] in
      let findings :=
        if negb (map_has (js "IHDR") chunks) then
          findings ++ [Finding.mk warning 50 forensics (js "PNG missing IHDR chunk")
                         (Some [Txt (js "Critical PNG header chunk is missing - file may be corrupted or tampered")])]
        else findings in
      Normal findings
  end.

(** What [sharp(buffer).metadata()] reports. *)
Module Decoded.
Record t := mk {
  buffer : Buffer;
  width : Z;
  height : Z;
  format : option jsstring
}.
End Decoded.

(** Outcomes of the guarded blocks of the five sub-analyses. *)
Module Stages.
Record t := mk {
  ela : Completion ELAMetrics.t;
  frequency : Completion FrequencyAnalysis.t;
  texture : Completion TextureAnalysis.t;
  compression : Completion CompressionAnalysis.t;
  artifacts : Completion AIArtifactAnalysis.t
}.
End Stages.

(** The findings each result contributes. *)
Definition elaFindings (elaResult : ELAAnalysis.t) : list Finding.t :=
  if ELAAnalysis.hasManipulation elaResult then
    [Finding.mk (if gt (ELAAnalysis.severity elaResult) 70 then critical else warning)
       (ELAAnalysis.severity elaResult) forensics
       (js "Error Level Analysis detected manipulation")
       (Some [Txt (js "ELA variance: "); Fixed (ELAAnalysis.variance elaResult) 2;
              Txt (js ". High variance regions indicate potential AI generation or editing.")])]
  else [].

Definition frequencyFindings (frequencyResult : FrequencyAnalysis.t) : list Finding.t :=
  if FrequencyAnalysis.hasAnomalies frequencyResult then
    [Finding.mk (if gt (FrequencyAnalysis.severity frequencyResult) 70
                 then critical else warning)
       (FrequencyAnalysis.severity frequencyResult) forensics
       (js "Frequency analysis detected AI generation patterns")
       (Some [Txt (js "Spectral anomalies detected: ");
              Txt (FrequencyAnalysis.anomalyType frequencyResult);
              Txt (js ". AI-generated images often show characteristic frequency signatures.")])]
  else [].

Definition textureFindings (textureResult : TextureAnalysis.t) : list Finding.t :=
  if TextureAnalysis.isArtificial textureResult then
    [Finding.mk (if gt (TextureAnalysis.severity textureResult) 70
                 then critical else warning)
       (TextureAnalysis.severity textureResult) forensics
       (js "Texture analysis detected synthetic patterns")
       (Some [Txt (js "Texture score: "); Fixed (TextureAnalysis.naturalness textureResult) 2;
              Txt (js ". AI images often exhibit unnatural texture homogeneity or repetition.")])]
  else [].

Definition compressionFindings (compressionResult : option CompressionAnalysis.t)
  : list Finding.t :=
  match compressionResult with
  | Some c =>
      if CompressionAnalysis.hasInconsistency c then
        [Finding.mk warning (CompressionAnalysis.severity c) forensics
           (js "JPEG compression inconsistencies detected")
           (Some [Txt (js "DCT analysis reveals ");
                  OptTxt (CompressionAnalysis.inconsistencyType c);
                  Txt (js ". This may indicate image manipulation or AI generation.")])]
      else []
  | None => []
  end.

Definition artifactFindings (aiArtifactResult : AIArtifactAnalysis.t) : list Finding.t :=
  if AIArtifactAnalysis.hasArtifacts aiArtifactResult then
    [Finding.mk (if gt (AIArtifactAnalysis.severity aiArtifactResult) 75
                 then critical else warning)
       (AIArtifactAnalysis.severity aiArtifactResult) forensics
       (js "AI generation artifacts detected")
       (Some [Txt (AIArtifactAnalysis.description aiArtifactResult)])]
  else [].

Definition screenshotFindings (screenshotResult : bool * number) : list Finding.t :=
  if fst screenshotResult then
    [Finding.mk warning 45 forensics (js "Screenshot detected")
       (Some [Txt (js "Image characteristics suggest it's a screenshot. Probability: ");
              Num (snd screenshotResult); Txt (js "%")])]
  else [].

(** [software && isExportTool(software)] *)
Definition exportToolIn (software : option jsstring) : bool :=
  match software with
  | Some s => truthy s && isExportTool s
  | None => false
  end.

Definition exportFindings (software : option jsstring) : list Finding.t :=
  if exportToolIn software then
    [Finding.mk warning 40 forensics (js "Export tool signature detected")
       (Some [Txt (js "Software field indicates export from: "); OptTxt software])]
  else [].

(** The object returned by the outer handler. *)
Definition forensicsFailed (error : JSError) : ForensicsAnalysisResult.t :=
  ForensicsAnalysisResult.mk failed
    [Finding.mk critical 100 forensics (js "Forensic analysis failed")
       (Some [ErrTxt error])]
    None None None None None None.

Definition isFormat (d : Decoded.t) (name : string) : bool :=
  match Decoded.format d with
  | Some f => JSString.eqb f (js name)
  | None => false
  end.

(** [analyzeForensics(imageData, cameraMake, software)]: [decoded] is the
    outcome of [extractBase64] and [sharp(buffer).metadata()]. *)
Definition analyzeForensics
  (decoded : Completion Decoded.t) (stages : Stages.t)
  (cameraMake software : option jsstring) : ForensicsAnalysisResult.t :=
  match decoded with
  | Throw error => forensicsFailed error
  | Normal d =>
      let elaResult := analyzeELA (Stages.ela stages) in
      let frequencyResult := analyzeFrequencyDomain (Stages.frequency stages) in
      let textureResult := analyzeTexturePatterns (Stages.texture stages) in
      let compressionResult :=
        if isFormat d "jpeg"
        then Some (analyzeJPEGCompression (Stages.compression stages)) else None in
      let aiArtifactResult := detectAIArtifacts (Stages.artifacts stages) in
      let screenshotResult :=
        detectScreenshot (Decoded.width d) (Decoded.height d) cameraMake software in
      match (if isFormat d "png" then analyzePNGSpecific (Decoded.buffer d)
             else Normal []) with
      | Throw error => forensicsFailed error
      | Normal pngResult =>
          let findings :=
            elaFindings elaResult ++ frequencyFindings frequencyResult
            ++ textureFindings textureResult ++ compressionFindings compressionResult
            ++ artifactFindings aiArtifactResult ++ screenshotFindings screenshotResult
            ++ exportFindings software ++ pngResult in
          let criticalFindings :=
            filter (fun f => FindingType_eqb (Finding.type f) critical) findings in
          let warningFindings :=
            filter (fun f => ge (Finding.severity f) 50) findings in
          let status :=
            if Nat.ltb 0 (List.length criticalFindings) then failed
            else if Nat.ltb 0 (List.length warningFindings) then warning_status
            else passed in
          ForensicsAnalysisResult.mk status findings
            (Some (ForensicAnalysis.mk
                     (fst screenshotResult) (snd screenshotResult)
                     (if exportToolIn software then software else None)
                     (match compressionResult with
                      | Some c => CompressionAnalysis.hasStandardQuantization c
                      | None => false
                      end)
                     (match compressionResult with
                      | Some c => CompressionAnalysis.estimatedQuality c
                      | None => None
                      end)
                     true true))
            (Some elaResult) (Some frequencyResult) (Some textureResult)
            compressionResult (Some aiArtifactResult)
      end
  end.

End ForensicsAnalyzer.

(* ================================================================= *)
(** ** lib/scoring-engine.ts *)

Module ScoringEngine.

Import MetadataAnalysisResult ForensicsAnalysisResult.

(** [metadata.aiSignatures && metadata.aiSignatures.length > 0] *)
Definition hasAISignatures (md : MetadataAnalysisResult.t) : bool :=
  match aiSignatures md with
  | Some (_ :: _) => true
  | _ => false
  end.

(** [metadata.cameraInfo?.make] as a condition. *)
Definition cameraMakeKnown (md : MetadataAnalysisResult.t) : bool :=
  match cameraInfo md with
  | Some ci => truthy_opt (CameraInfo.make ci)
  | None => false
  end.

Definition cameraModelKnown (md : MetadataAnalysisResult.t) : bool :=
  match cameraInfo md with
  | Some ci => truthy_opt (CameraInfo.model ci)
  | None => false
  end.

(** The constant table [weights] of [calculateRiskScore]. *)
Definition weights_forensics : number := 1.
Definition weights_aiSignature : number := 95 # 100.
Definition weights_metadata : number := 6 # 10.

(** Loop 3 of [calculateRiskScore], over [metadata.findings]. *)
Definition riskMetadataFinding (score : number) (finding : Finding.t) : number :=
  if FindingType_eqb (Finding.type finding) critical
     && Category_eqb (Finding.category finding) ai_signature
  then score + Finding.severity finding * weights_aiSignature
  else if FindingType_eqb (Finding.type finding) warning
  then score + Finding.severity finding * (4 # 10)
  else score.

(** Loop 4 of [calculateRiskScore], over [forensics.findings]. *)
Definition riskForensicsFinding (score : number) (finding : Finding.t) : number :=
  if FindingType_eqb (Finding.type finding) critical
  then score + Finding.severity finding * weights_forensics
  else if FindingType_eqb (Finding.type finding) warning
  then score + Finding.severity finding * (5 # 10)
  else score.

(** The sum before clamping, statement by statement. *)
Definition rawRiskScore
  (md : MetadataAnalysisResult.t) (fr : ForensicsAnalysisResult.t) : number :=
  let score := 0 in
  (* 1. forensic analysis signals *)
  let score :=
    match elaAnalysis fr with
    | Some e => if ELAAnalysis.hasManipulation e
                then score + ELAAnalysis.severity e * weights_forensics else score
    | None => score
    end in
  let score :=
    match frequencyAnalysis fr with
    | Some a => if FrequencyAnalysis.hasAnomalies a
                then score + FrequencyAnalysis.severity a * weights_forensics else score
    | None => score
    end in
  let score :=
    match textureAnalysis fr with
    | Some a => if TextureAnalysis.isArtificial a
                then score + TextureAnalysis.severity a * weights_forensics else score
    | None => score
    end in
  let score :=
    match compressionAnalysis fr with
    | Some a => if CompressionAnalysis.hasInconsistency a
                then score + CompressionAnalysis.severity a * weights_forensics * (8 # 10)
                else score
    | None => score
    end in
  let score :=
    match aiArtifactAnalysis fr with
    | Some a => if AIArtifactAnalysis.hasArtifacts a
                then score + AIArtifactAnalysis.severity a * weights_forensics * (13 # 10)
                else score
    | None => score
    end in
  (* 2. AI signatures in metadata *)
  let score := if hasAISignatures md then score + 85 * weights_aiSignature else score in
  (* 3. findings of the metadata analyzer *)
  let score := fold_left riskMetadataFinding (MetadataAnalysisResult.findings md) score in
  (* 4. findings of the forensics analyzer *)
  let score := fold_left riskForensicsFinding (ForensicsAnalysisResult.findings fr) score in
  (* 5. screenshot detection *)
  let score :=
    match forensics fr with
    | Some f => if ForensicAnalysis.isScreenshot f then score + 40 else score
    | None => score
    end in
  (* 6. export tool detection *)
  let score :=
    match forensics fr with
    | Some f => if truthy_opt (ForensicAnalysis.exportToolDetected f)
                then score + 35 else score
    | None => score
    end in
  (* positive factors *)
  let score := if hasEXIF md then score - 15 else score in
  let score := if hasGPS md then score - 15 else score in
  let score := if cameraMakeKnown md && cameraModelKnown md then score - 20 else score in
  let score :=
    match textureAnalysis fr with
    | Some a => if gt (TextureAnalysis.naturalness a) 70 then score - 15 else score
    | None => score
    end in
  let score :=
    match elaAnalysis fr with
    | Some e => if negb (ELAAnalysis.hasManipulation e) && lt (ELAAnalysis.variance e) 10
                then score - 10 else score
    | None => score
    end in
  score.

(** [calculateRiskScore(metadata, forensics)] *)
Definition calculateRiskScore
  (md : MetadataAnalysisResult.t) (fr : ForensicsAnalysisResult.t) : number :=
  Math_max 0 (Math_min 100 (rawRiskScore md fr)).

(** The four accumulators of [detectAIGeneration]. *)
Record Acc := mkAcc {
  detectionMethods : list jsstring;
  primaryIndicators : list template;
  totalScore : number;
  methodCount : nat
}.

Definition acc0 : Acc := mkAcc [] [] 0 0.

(** One detection method: push its name and indicators, add its score,
    count it once. *)
Definition recordMethod
  (name : string) (indicators : list template) (score : number) (a : Acc) : Acc :=
  mkAcc (detectionMethods a ++ [js name])
        (primaryIndicators a ++ indicators)
        (totalScore a + score)
        (S (methodCount a)).

(** Body of the loop over [metadata.aiSignatures]. *)
Definition recordSignature (a : Acc) (sig : AISignature.t) : Acc :=
  mkAcc (detectionMethods a)
        (primaryIndicators a ++ [[Txt (js "AI tool: "); OptTxt (AISignature.tool sig)]])
        (totalScore a + AISignature.confidence sig)
        (S (methodCount a)).

(** 1. metadata AI signatures *)
Definition stepSignatures (md : MetadataAnalysisResult.t) (a : Acc) : Acc :=
  match aiSignatures md with
  | Some (s :: sigs) =>
      let a := mkAcc (detectionMethods a ++ [js "metadata_signatures"])
                     (primaryIndicators a) (totalScore a) (methodCount a) in
      fold_left recordSignature (s :: sigs) a
  | _ => a
  end.

(** 2. ELA *)
Definition stepELA (fr : ForensicsAnalysisResult.t) (a : Acc) : Acc :=
  match elaAnalysis fr with
  | Some e =>
      if ELAAnalysis.hasManipulation e && ge (ELAAnalysis.severity e) 50
      then recordMethod "error_level_analysis"
             [[Txt (js "ELA variance: "); Fixed (ELAAnalysis.variance e) 1]]
             (ELAAnalysis.severity e) a
      else a
  | None => a
  end.

(** 3. frequency analysis *)
Definition stepFrequency (fr : ForensicsAnalysisResult.t) (a : Acc) : Acc :=
  match frequencyAnalysis fr with
  | Some x =>
      if FrequencyAnalysis.hasAnomalies x
      then recordMethod "frequency_analysis"
             [[Txt (js "Spectral anomaly: "); Txt (FrequencyAnalysis.anomalyType x)]]
             (FrequencyAnalysis.severity x) a
      else a
  | None => a
  end.

(** 4. texture analysis *)
Definition stepTexture (fr : ForensicsAnalysisResult.t) (a : Acc) : Acc :=
  match textureAnalysis fr with
  | Some x =>
      if TextureAnalysis.isArtificial x
      then recordMethod "texture_analysis"
             [[Txt (js "Texture naturalness: ");
               Fixed (TextureAnalysis.naturalness x) 1; Txt (js "%")]]
             (TextureAnalysis.severity x) a
      else a
  | None => a
  end.

(** 5. AI artifact detection *)
Definition stepArtifacts (fr : ForensicsAnalysisResult.t) (a : Acc) : Acc :=
  match aiArtifactAnalysis fr with
  | Some x =>
      if AIArtifactAnalysis.hasArtifacts x
      then recordMethod "artifact_detection"
             (List.map (fun artifact =>
                          [Txt (js "Artifact: "); Txt (replace_all 95 (js " ") artifact)])
                       (firstn 3 (AIArtifactAnalysis.artifactTypes x)))
             (AIArtifactAnalysis.severity x * (12 # 10)) a
      else a
  | None => a
  end.

(** 6. JPEG compression anomalies *)
Definition stepCompression (fr : ForensicsAnalysisResult.t) (a : Acc) : Acc :=
  match compressionAnalysis fr with
  | Some x =>
      if CompressionAnalysis.hasInconsistency x
      then recordMethod "compression_analysis"
             [[Txt (js "Compression issue: ");
               OptTxt (CompressionAnalysis.inconsistencyType x)]]
             (CompressionAnalysis.severity x) a
      else a
  | None => a
  end.

(** The accumulators after the six steps. *)
Definition collect
  (md : MetadataAnalysisResult.t) (fr : ForensicsAnalysisResult.t) : Acc :=
  stepCompression fr
    (stepArtifacts fr
      (stepTexture fr
        (stepFrequency fr
          (stepELA fr
            (stepSignatures md acc0))))).

(** [confidence = methodCount > 0 ? totalScore / methodCount : 0] *)
Definition rawConfidence (a : Acc) : number :=
  match methodCount a with
  | O => 0
  | S _ => totalScore a / of_nat (methodCount a)
  end.

(** [multiplier = 1 + Math.min(methodCount, 5) * 0.08] *)
Definition multiplier (a : Acc) : number :=
  1 + of_nat (Nat.min (methodCount a) 5) * (8 # 100).

(** [adjustedConfidence = Math.min(100, confidence * multiplier)] *)
Definition adjustedConfidence (a : Acc) : number :=
  Math_min 100 (rawConfidence a * multiplier a).

(** [detectAIGeneration(metadata, forensics)] *)
Definition detectAIGeneration
  (md : MetadataAnalysisResult.t) (fr : ForensicsAnalysisResult.t) : AIDetection.t :=
  let a := collect md fr in
  let adjusted := adjustedConfidence a in
  let isLikelyAI :=
    (Nat.leb 2 (methodCount a) && ge adjusted 55)
    || (Nat.leb 3 (methodCount a) && ge adjusted 45)
    || (hasAISignatures md && ge adjusted 70)
    || false in
  AIDetection.mk isLikelyAI (Math_round adjusted)
                 (detectionMethods a) (firstn 5 (primaryIndicators a)).

Definition isCritical (f : Finding.t) : bool := FindingType_eqb (Finding.type f) critical.
Definition isWarning (f : Finding.t) : bool := FindingType_eqb (Finding.type f) warning.
Definition isInfo (f : Finding.t) : bool := FindingType_eqb (Finding.type f) info.

(** [scoreResults(metadata, forensics)] *)
Definition scoreResults
  (md : MetadataAnalysisResult.t) (fr : ForensicsAnalysisResult.t)
  : DetailedVerificationResult.t :=
  let allFindings :=
    MetadataAnalysisResult.findings md ++ ForensicsAnalysisResult.findings fr in
  let criticalFindings := filter isCritical allFindings in
  let warningFindings := filter isWarning allFindings in
  let infoFindings := filter isInfo allFindings in
  let criticalCount := List.length criticalFindings in
  let warningCount := List.length warningFindings in
  let infoCount := List.length infoFindings in
  let riskScore := calculateRiskScore md fr in
  let aiDetection := detectAIGeneration md fr in
  let '(status, confidence) :=
    (* priority 1: high confidence AI detection *)
    if AIDetection.isLikelyAI aiDetection && ge (AIDetection.confidence aiDetection) 75
    then (REJECTED, AIDetection.confidence aiDetection)
    (* priority 2: critical findings in the ai-signature category *)
    else if Nat.ltb 0 criticalCount
            && existsb (fun f => Category_eqb (Finding.category f) ai_signature)
                       criticalFindings
    then (REJECTED, Utils.calculateConfidence 90 [10] [])
    (* priority 3: high risk score *)
    else if ge riskScore 70
    then (RISKY, Utils.calculateConfidence riskScore [15] [-(10)])
    (* priority 4: moderate risk or AI detection with lower confidence *)
    else if ge riskScore 45
            || (AIDetection.isLikelyAI aiDetection
                && ge (AIDetection.confidence aiDetection) 50)
    then (RISKY, Utils.calculateConfidence riskScore [10] [-(5)])
    (* default: verified *)
    else
      let positiveFactors := [] in
      let positiveFactors :=
        if hasGPS md then positiveFactors ++ [15] else positiveFactors in
      let positiveFactors :=
        if hasEXIF md then positiveFactors ++ [10] else positiveFactors in
      let positiveFactors :=
        if cameraMakeKnown md then positiveFactors ++ [10] else positiveFactors in
      (VERIFIED, Utils.calculateConfidence 30 positiveFactors []) in
  DetailedVerificationResult.mk
    status (Math_round confidence) (Math_round riskScore) 0
    md fr (List.length allFindings) criticalCount warningCount infoCount aiDetection.

End ScoringEngine.
(* ================================================================= *)
(** ** The specification's reading of the AI-likelihood rule *)

Module Claimed.

Import MetadataAnalysisResult ForensicsAnalysisResult.

(** The contributions of the flagged signals, in the order metadata
    signatures, ELA, frequency, texture, artifacts (weighted 1.2),
    compression.  [elaGuard] says when the ELA result counts: the
    specification counts it whenever it is flagged. *)
Definition contributions
  (elaGuard : ELAAnalysis.t -> bool)
  (md : MetadataAnalysisResult.t) (fr : ForensicsAnalysisResult.t) : list number :=
  List.map AISignature.confidence
    (match aiSignatures md with Some sigs => sigs | None => [] end)
  ++ match elaAnalysis fr with
     | Some e => if elaGuard e then [ELAAnalysis.severity e] else []
     | None => []
     end
  ++ match frequencyAnalysis fr with
     | Some x => if FrequencyAnalysis.hasAnomalies x then [FrequencyAnalysis.severity x] else []
     | None => []
     end
  ++ match textureAnalysis fr with
     | Some x => if TextureAnalysis.isArtificial x then [TextureAnalysis.severity x] else []
     | None => []
     end
  ++ match aiArtifactAnalysis fr with
     | Some x => if AIArtifactAnalysis.hasArtifacts x
                 then [AIArtifactAnalysis.severity x * (12 # 10)] else []
     | None => []
     end
  ++ match compressionAnalysis fr with
     | Some x => if CompressionAnalysis.hasInconsistency x
                 then [CompressionAnalysis.severity x] else []
     | None => []
     end.

Definition sum (l : list number) : number := fold_right Qplus 0 l.

(** [confidence = accumulated / methodCount] (0 without any method). *)
Definition confidence (scores : list number) : number :=
  match scores with
  | [] => 0
  | _ :: _ => sum scores / of_nat (List.length scores)
  end.

(** [adjustedConfidence = min(100, confidence x (1 + min(methodCount, 5) x 0.08))] *)
Definition adjusted (scores : list number) : number :=
  Math_min 100
    (confidence scores * (1 + of_nat (Nat.min (List.length scores) 5) * (8 # 100))).


Definition likelyRuleb (methods : nat) (hasSignature : bool) (c : number) : bool :=
  (Nat.leb 2 methods && ge c 55)
  || (Nat.leb 3 methods && ge c 45)
  || (hasSignature && ge c 70).

(** The rule as the specification words it: every flagged signal is
    counted, and the thresholds are read either on the confidence
    ([onAdjusted = false], the literal wording) or on the adjusted
    confidence ([onAdjusted = true]). *)
Definition isLikelyAI
  (onAdjusted : bool) (md : MetadataAnalysisResult.t) (fr : ForensicsAnalysisResult.t)
  : bool :=
  let scores := contributions ELAAnalysis.hasManipulation md fr in
  likelyRuleb (List.length scores) (ScoringEngine.hasAISignatures md)
    (if onAdjusted then adjusted scores else confidence scores).



End Claimed.

(* ================================================================= *)
(** ** Vocabulary of the statements about dates and coordinates *)

Module Shapes.


(** The number a string of decimal digits denotes. *)
Definition decimal (s : jsstring) : N :=
  fold_left (fun acc c => acc * 10 + (c - 48))%N s 0%N.




End Shapes.

(* ================================================================= *)
(** ** Concrete inputs used by the examples below *)

(** *** A likely-AI result with a low risk score *)

(** Analysis results, written out field by field, in which one metadata
    signature of confidence 74 gives an AI-detection confidence of 80
    while the risk score stays below 45. *)
Definition rejectedAtLowRisk_md : MetadataAnalysisResult.t :=
  MetadataAnalysisResult.mk warning_status []
    (Some (CameraInfo.mk (Some (js "Canon")) (Some (js "EOS")) None None None None None))
    None
    (Some [AISignature.mk (Some (js "tool")) (Some (js "diffusion")) 74 []])
    None true true.

Definition rejectedAtLowRisk_fr : ForensicsAnalysisResult.t :=
  ForensicsAnalysisResult.mk passed [] None None None None None None.

(** *** Failing sub-analyses *)

(** A JPEG of 800 x 600 pixels all of whose five guarded blocks throw. *)
Definition failingStages_decoded : ForensicsAnalyzer.Decoded.t :=
  ForensicsAnalyzer.Decoded.mk [] 800 600 (Some (js "jpeg")).

Definition failingStages : ForensicsAnalyzer.Stages.t :=
  let e := Error (js "Input buffer contains unsupported image format") in
  ForensicsAnalyzer.Stages.mk (Throw e) (Throw e) (Throw e) (Throw e) (Throw e).

(** *** PNG files *)

(** A 32-bit big-endian field. *)
Definition uint32be (n : N) : Utils.Buffer :=
  List.map (fun k => match Byte.of_N (N.land (N.shiftr n (8 * k)) 255) with
                     | Some b => b
                     | None => x00
                     end)
           [3; 2; 1; 0]%N.

(** A chunk: length, type, data, CRC. *)
Definition pngChunk (type : string) (data : Utils.Buffer) (crc : N) : Utils.Buffer :=
  uint32be (N.of_nat (List.length data)) ++ list_byte_of_string type
  ++ data ++ uint32be crc.

(** Header and pixel data of a 1 x 1 greyscale image. *)
Definition ihdrChunk : Utils.Buffer :=
  pngChunk "IHDR" [x00; x00; x00; x01; x00; x00; x00; x01; x08; x00; x00; x00; x00]
           981375829.

Definition idatChunk : Utils.Buffer :=
  pngChunk "IDAT" [x78; x9c; x63; x60; x00; x00; x00; x02; x00; x01] 1219470449.

Definition iendChunk : Utils.Buffer := pngChunk "IEND" [] 2923585666.

Definition generationText : string := "Steps: 20, Sampler: Euler".

(** The image with its generation parameters in a tEXt chunk keyed
    "parameters". *)
Definition parametersPNG : Utils.Buffer :=
  Utils.PNG_SIGNATURE ++ ihdrChunk
  ++ pngChunk "tEXt"
       (list_byte_of_string "parameters" ++ [x00] ++ list_byte_of_string generationText)
       3325723859
  ++ idatChunk ++ iendChunk.

(** The same text in an iTXt chunk (uncompressed, no language tag, no
    translated keyword). *)
Definition parametersPNG_iTXt : Utils.Buffer :=
  Utils.PNG_SIGNATURE ++ ihdrChunk
  ++ pngChunk "iTXt"
       (list_byte_of_string "parameters" ++ [x00; x00; x00; x00; x00]
        ++ list_byte_of_string generationText)
       267165176
  ++ idatChunk ++ iendChunk.

(** The message of the finding raised on AI keywords in a chunk. *)
Definition pngParametersMessage : jsstring :=
  js "AI generation parameters detected in PNG chunks".

(** The critical findings that carry a given message. *)
Definition criticalWithMessage (message : jsstring) (fs : list Finding.t)
  : list Finding.t :=
  filter (fun f => FindingType_eqb (Finding.type f) critical
                   && JSString.eqb (Finding.message f) message) fs.

(** *** Software fields *)

(** Tags of a camera JPEG whose Software field is [software]. *)
Definition exifWithSoftware (software : string) : MetadataAnalyzer.Exif.t :=
  MetadataAnalyzer.Exif.mk
    (Some (js "Canon")) (Some (js "Canon EOS 80D")) (Some (js software)) None
    (Some 1) (Some 72) (Some 72)
    (Some [(40, 1); (26, 1); (4600, 100)]%Z) (Some [(79, 1); (58, 1); (5600, 100)]%Z)
    (Some (js "N")) (Some (js "W")) None.

Definition jpegWithSoftware (software : string) : MetadataAnalyzer.ImageData :=
  MetadataAnalyzer.JPEG [] (Normal (exifWithSoftware software)) [].

(** Kind, severity and category of every finding. *)
Definition findingKinds (fs : list Finding.t) : list (FindingType * number * Category) :=
  List.map (fun f => (Finding.type f, Finding.severity f, Finding.category f)) fs.

(** Tool type and confidence of every signature. *)
Definition signatureKinds (sigs : list AISignature.t) : list (option jsstring * number) :=
  List.map (fun s => (AISignature.toolType s, AISignature.confidence s)) sigs.

(** *** A flagged ELA result of severity 45 *)

(** ELA statistics with variance 16 and 6 percent of hotspots: flagged,
    with severity 45. *)
Definition uncountedELA : ELAAnalysis.t :=
  ForensicsAnalyzer.analyzeELA
    (Normal (ForensicsAnalyzer.ELAMetrics.mk 16 4 60 28800 6)).

(** A camera JPEG without Software field. *)
Definition uncountedELA_md : MetadataAnalysisResult.t :=
  MetadataAnalyzer.analyzeMetadata (jpegWithSoftware "").

(* ================================================================= *)
(** ** lib/forensics-analyzer.ts, inside the guarded blocks *)

(** The parts of the sub-analyses that follow the decoding of the
    raster: what each one derives from the statistics its pixel loops
    have gathered, and the whole of the JPEG structure walk, which
    reads the file itself. *)

Module FrequencyBody.

(** What the block loop of [analyzeFrequencyDomain] gathers: the two
    gradient sums and the mean brightness of every 8 x 8 block. *)
Module Stats.
Record t := mk {
  hGradSum : number;
  vGradSum : number;
  blockScores : list number
}.
End Stats.

Definition size : number := 256.

(** The loop that counts near-equal block means four blocks apart. *)
Definition patternRepetitions (blockScores : list number) : nat :=
  List.length
    (filter (fun i =>
               Nat.eqb (i mod 4) 0
               && Nat.ltb (i + 4) (List.length blockScores)
               && lt (Math_abs (nth i blockScores 0 - nth (i + 4) blockScores 0)) 5)
            (seq 0 (List.length blockScores - 1))).

(** [(patternRepetitions / (blockScores.length / 4)) * 100] *)
Definition gridArtifactScore (blockScores : list number) : number :=
  (of_nat (patternRepetitions blockScores)
   / (of_nat (List.length blockScores) / 4)) * 100.

(** [Math.abs(hGradSum - vGradSum) / (totalGradient + 1)] *)
Definition gradientBalance (s : Stats.t) : number :=
  Math_abs (Stats.hGradSum s - Stats.vGradSum s)
  / (Stats.hGradSum s + Stats.vGradSum s + 1).

(** The object built at the end of the guarded block. *)
Definition decide (s : Stats.t) : FrequencyAnalysis.t :=
  let blockScores := Stats.blockScores s in
  let patternRepetitions := patternRepetitions blockScores in
  let gridArtifactScore := gridArtifactScore blockScores in
  let totalGradient := Stats.hGradSum s + Stats.vGradSum s in
  let gradientBalance := gradientBalance s in
  let hasAnomalies := gt gridArtifactScore 40 || gt gradientBalance (3 # 10) in
  let anomalyType :=
    if gt gridArtifactScore 50 then js "grid_artifacts"
    else if gt gradientBalance (35 # 100) then js "gradient_imbalance"
    else if gt (of_nat patternRepetitions)
               (of_nat (List.length blockScores) * (3 # 10))
    then js "periodic_patterns"
    else js "none" in
  let severity :=
    if hasAnomalies
    then Math_min 80 (Math_max gridArtifactScore (gradientBalance * 100 + 20))
    else 0 in
  FrequencyAnalysis.mk hasAnomalies anomalyType (totalGradient / size)
    (gt gridArtifactScore 30) (Nat.ltb 10 patternRepetitions) severity.

(** [analyzeFrequencyDomain] on the outcome of its pixel loops. *)
Definition analyze (pixels : Completion Stats.t) : FrequencyAnalysis.t :=
  ForensicsAnalyzer.analyzeFrequencyDomain
    (match pixels with
     | Normal s => Normal (decide s)
     | Throw e => Throw e
     end).

End FrequencyBody.

Module TextureBody.

(** What the pixel loops of [analyzeTexturePatterns] gather: the
    256-bin histogram of local binary patterns and the number of
    window pairs that repeat. *)
Module Stats.
Record t := mk {
  lbpHistogram : list nat;
  repetitionScore : nat
}.
End Stats.

(** [(size - 2) * (size - 2)] *)
Definition totalSamples : nat := 254 * 254.

(** [(code >> i) & 1] *)
Definition bit (code i : nat) : bool := Nat.testbit code i.

(** [isUniform(code)]: at most two transitions around the 8 bits. *)
Definition isUniform (code : nat) : bool :=
  let transitions :=
    List.length
      (filter (fun i => negb (Bool.eqb (bit code i) (bit code ((i + 1) mod 8))))
              (seq 0 8)) in
  Nat.leb transitions 2.

(** The three counters of the loop over the bins. *)
Record Bins := mkBins {
  nonEmptyBins : nat;
  maxBinValue : nat;
  uniformPatterns : nat
}.

Definition binStep (hist : list nat) (b : Bins) (i : nat) : Bins :=
  let v := nth i hist 0%nat in
  if Nat.ltb 0 v then
    mkBins (S (nonEmptyBins b)) (Nat.max (maxBinValue b) v)
           (if isUniform i then (uniformPatterns b + v)%nat else uniformPatterns b)
  else b.

Definition scanBins (hist : list nat) : Bins :=
  fold_left (binStep hist) (seq 0 256) (mkBins 0 0 0).

(** [((size / (windowSize / 2)) ** 2) / 2] *)
Definition maxPossibleRepetitions : number := 512.

Definition textureRichness (hist : list nat) : number :=
  of_nat (nonEmptyBins (scanBins hist)) / 256.

Definition uniformRatio (hist : list nat) : number :=
  of_nat (uniformPatterns (scanBins hist)) / of_nat totalSamples.

Definition dominance (hist : list nat) : number :=
  of_nat (maxBinValue (scanBins hist)) / of_nat totalSamples.

Definition normalizedRepetition (s : Stats.t) : number :=
  of_nat (Stats.repetitionScore s) / maxPossibleRepetitions.

Definition naturalness (hist : list nat) : number :=
  (textureRichness hist * (3 # 10) + uniformRatio hist * (4 # 10)
   + (1 - dominance hist) * (3 # 10)) * 100.

(** The object built at the end of the guarded block. *)
Definition decide (s : Stats.t) : TextureAnalysis.t :=
  let hist := Stats.lbpHistogram s in
  let textureRichness := textureRichness hist in
  let dominance := dominance hist in
  let normalizedRepetition := normalizedRepetition s in
  let naturalness := naturalness hist in
  let isArtificial :=
    lt naturalness 40 || gt normalizedRepetition (3 # 10) || gt dominance (15 # 100) in
  let severity :=
    if isArtificial then
      if gt normalizedRepetition (4 # 10) then 75
      else if lt naturalness 30 then 70
      else if gt dominance (2 # 10) then 60
      else 50
    else 0 in
  TextureAnalysis.mk naturalness (normalizedRepetition * 100) (dominance * 100)
    textureRichness isArtificial severity.

(** [analyzeTexturePatterns] on the outcome of its pixel loops. *)
Definition analyze (pixels : Completion Stats.t) : TextureAnalysis.t :=
  ForensicsAnalyzer.analyzeTexturePatterns
    (match pixels with
     | Normal s => Normal (decide s)
     | Throw e => Throw e
     end).

End TextureBody.

Module ArtifactBody.

(** What the pixel loops of [detectAIArtifacts] gather. *)
Module Stats.
Record t := mk {
  checkerboardRatio : number;
  bandingScore : number;
  blurVariance : number;
  blurMean : number;
  edgeMean : number;
  edgeRatio : number;
  reflectionRatio : number
}.
End Stats.

Definition size : number := 512.

(** The three variables the five rules update. *)
Record Acc := mkAcc {
  artifactTypes : list jsstring;
  ganFingerprint : number;
  diffusionMarkers : number
}.

Definition gan (name : string) (points : number) (a : Acc) : Acc :=
  mkAcc (artifactTypes a ++ [js name]) (ganFingerprint a + points) (diffusionMarkers a).

Definition diffusion (name : string) (points : number) (a : Acc) : Acc :=
  mkAcc (artifactTypes a ++ [js name]) (ganFingerprint a) (diffusionMarkers a + points).

(** The conditions of the five rules. *)
Definition checkerboardRule (s : Stats.t) : bool :=
  gt (Stats.checkerboardRatio s) (5 # 100).
Definition bandingRule (s : Stats.t) : bool :=
  gt (Stats.bandingScore s) (size * (1 # 10)).
Definition blurRule (s : Stats.t) : bool :=
  gt (Stats.blurVariance s) (Stats.blurMean s * (15 # 10)).
Definition edgeRule (s : Stats.t) : bool :=
  lt (Stats.edgeMean s) 5 || gt (Stats.edgeMean s) 50 || gt (Stats.edgeRatio s) 5.
Definition reflectionRule (s : Stats.t) : bool :=
  gt (Stats.reflectionRatio s) (4 # 10) && lt (Stats.reflectionRatio s) (8 # 10).

Definition applyRules (s : Stats.t) : Acc :=
  let a := mkAcc [] 0 0 in
  let a := if checkerboardRule s then gan "checkerboard_artifacts" 30 a else a in
  let a := if bandingRule s then diffusion "color_banding" 20 a else a in
  let a := if blurRule s then diffusion "blur_inconsistency" 25 a else a in
  let a := if edgeRule s then diffusion "unnatural_edges" 20 a else a in
  let a := if reflectionRule s then diffusion "suspicious_reflections" 15 a else a in
  a.

(** [artifactTypes.join(', ')] *)
Fixpoint join (sep : jsstring) (l : list jsstring) : jsstring :=
  match l with
  | [] => []
  | [x] => x
  | x :: rest => x ++ sep ++ join sep rest
  end.

(** The object built at the end of the guarded block. *)
Definition decide (s : Stats.t) : AIArtifactAnalysis.t :=
  let a := applyRules s in
  let hasArtifacts := Nat.ltb 0 (List.length (artifactTypes a)) in
  let totalScore := ganFingerprint a + diffusionMarkers a in
  let severity :=
    if hasArtifacts then
      if ge totalScore 60 then 85
      else if ge totalScore 40 then 70
      else if ge totalScore 25 then 55
      else 40
    else 0 in
  let description :=
    if hasArtifacts then
      js "Detected AI artifacts: " ++ join (js ", ") (artifactTypes a) ++ js ". "
      ++ (if gt (ganFingerprint a) (diffusionMarkers a)
          then js "Pattern suggests GAN-based generation."
          else if gt (diffusionMarkers a) (ganFingerprint a)
          then js "Pattern suggests diffusion model generation."
          else [])
    else js "No AI artifacts detected" in
  AIArtifactAnalysis.mk hasArtifacts (artifactTypes a) (ganFingerprint a)
    (diffusionMarkers a) description severity.

(** [detectAIArtifacts] on the outcome of its pixel loops. *)
Definition analyze (pixels : Completion Stats.t) : AIArtifactAnalysis.t :=
  ForensicsAnalyzer.detectAIArtifacts
    (match pixels with
     | Normal s => Normal (decide s)
     | Throw e => Throw e
     end).

End ArtifactBody.

Module JpegCompression.

Import Utils.

Definition JPEG_SOI : N := 65496.   (* 0xFFD8 *)
Definition JPEG_DQT : N := 65499.   (* 0xFFDB *)
Definition JPEG_DHT : N := 65476.   (* 0xFFC4 *)
Definition JPEG_SOF0 : N := 65472.  (* 0xFFC0 *)
Definition JPEG_SOF2 : N := 65474.  (* 0xFFC2 *)
Definition JPEG_SOS : N := 65498.   (* 0xFFDA *)

(** The variables of the marker walk.  An entry of a quantization
    table is [None] when it was read past the end of the buffer
    ([undefined]). *)
Record Walk := mkWalk {
  offset : N;
  dqtCount : nat;
  dhtCount : nat;
  sofCount : nat;
  quantTables : list (list (option N));
  estimatedQuality : number
}.

(** The 64 values [buffer[offset + 5 + i]]. *)
Definition readTable (buffer : Buffer) (offset : N) : list (option N) :=
  List.map (fun i => byteAt buffer (offset + 5 + N.of_nat i)) (seq 0 64).

(** The quality bands on the first value of a table; every comparison
    with [undefined] is false. *)
Definition qualityOf (firstVal : option N) : number :=
  match firstVal with
  | Some v =>
      if (v <=? 2)%N then 95
      else if (v <=? 5)%N then 90
      else if (v <=? 10)%N then 80
      else if (v <=? 20)%N then 70
      else if (v <=? 40)%N then 50
      else 30
  | None => 30
  end.

Definition moveTo (w : Walk) (offset : N) : Walk :=
  mkWalk offset (dqtCount w) (dhtCount w) (sofCount w) (quantTables w)
         (estimatedQuality w).

(** The [while (offset < buffer.length - 2)] loop.  Every turn moves
    [offset] forward by at least one; [None] reports that the fuel ran
    out. *)
Fixpoint walk (fuel : nat) (buffer : Buffer) (w : Walk) : option (Completion Walk) :=
  match fuel with
  | O => None
  | S fuel =>
      if negb (offset w + 2 <? byteLength buffer)%N then Some (Normal w)
      else
        match readUInt16BE buffer (offset w) with
        | Throw e => Some (Throw e)
        | Normal marker =>
            if (marker =? JPEG_DQT)%N then
              match readUInt16BE buffer (offset w + 2) with
              | Throw e => Some (Throw e)
              | Normal length =>
                  let w :=
                    if (67 <=? length)%N then
                      let table := readTable buffer (offset w) in
                      mkWalk (offset w) (S (dqtCount w)) (dhtCount w) (sofCount w)
                             (quantTables w ++ [table])
                             (qualityOf (nth 0 table None))
                    else
                      mkWalk (offset w) (S (dqtCount w)) (dhtCount w) (sofCount w)
                             (quantTables w) (estimatedQuality w) in
                  walk fuel buffer (moveTo w (offset w + 2 + length))
              end
            else if (marker =? JPEG_DHT)%N then
              match readUInt16BE buffer (offset w + 2) with
              | Throw e => Some (Throw e)
              | Normal length =>
                  walk fuel buffer
                    (mkWalk (offset w + 2 + length) (dqtCount w) (S (dhtCount w))
                            (sofCount w) (quantTables w) (estimatedQuality w))
              end
            else if ((marker =? JPEG_SOF0) || (marker =? JPEG_SOF2))%N then
              match readUInt16BE buffer (offset w + 2) with
              | Throw e => Some (Throw e)
              | Normal length =>
                  walk fuel buffer
                    (mkWalk (offset w + 2 + length) (dqtCount w) (dhtCount w)
                            (S (sofCount w)) (quantTables w) (estimatedQuality w))
              end
            else if (marker =? JPEG_SOS)%N then Some (Normal w)
            else if (N.land marker 65280 =? 65280)%N then
              if (offset w + 3 <? byteLength buffer)%N then
                match readUInt16BE buffer (offset w + 2) with
                | Throw e => Some (Throw e)
                | Normal length => walk fuel buffer (moveTo w (offset w + 2 + length))
                end
              else Some (Normal w)
            else walk fuel buffer (moveTo w (offset w + 1))
        end
  end.

(** [table.slice(from, from + 16).reduce((a, b) => a + b, 0)]; [None]
    is NaN, the sum over an [undefined] entry. *)
Definition sliceSum (table : list (option N)) (from : nat) : option N :=
  fold_left (fun acc v =>
               match acc, v with
               | Some a, Some x => Some (a + x)%N
               | _, _ => None
               end)
            (firstn 16 (skipn from table)) (Some 0%N).

(** [highFreqSum > lowFreqSum * 3] *)
Definition blockArtifactsIn (table : list (option N)) : bool :=
  match sliceSum table 48, sliceSum table 0 with
  | Some high, Some low => (low * 3 <? high)%N
  | _, _ => false
  end.

(** The number of positions where two tables differ by less than 3. *)
Definition similarity (table1 table2 : list (option N)) : nat :=
  List.length
    (filter (fun p =>
               match p with
               | (Some a, Some b) => (Z.abs (Z.of_N a - Z.of_N b) <? 3)%Z
               | _ => false
               end)
            (combine table1 table2)).

(** [inconsistencyType || name] *)
Definition orElse (inconsistencyType : jsstring) (name : string) : jsstring :=
  if truthy inconsistencyType then inconsistencyType else js name.

(** The analysis that follows the walk. *)
Definition analysis (w : Walk) : CompressionAnalysis.t :=
  let tables := quantTables w in
  let multiple := Nat.ltb 2 (List.length tables) in
  let hasInconsistency := multiple in
  let inconsistencyType :=
    if multiple then js "multiple_quantization_tables" else [] in
  let hasStandardQuantization :=
    Nat.leb 2 (dqtCount w) && ge (estimatedQuality w) 70 in
  let blockArtifacts :=
    match tables with
    | table :: _ => blockArtifactsIn table
    | [] => false
    end in
  let inconsistencyType :=
    if blockArtifacts then orElse inconsistencyType "block_artifacts"
    else inconsistencyType in
  let hasInconsistency := hasInconsistency || blockArtifacts in
  let ghostingDetected :=
    match tables with
    | table1 :: table2 :: _ => Nat.ltb 50 (similarity table1 table2)
    | _ => false
    end in
  let inconsistencyType :=
    if ghostingDetected then orElse inconsistencyType "double_compression"
    else inconsistencyType in
  let hasInconsistency := hasInconsistency || ghostingDetected in
  let qualityMismatch := false in
  let severity :=
    if hasInconsistency then
      if ghostingDetected then 55
      else if blockArtifacts then 45
      else 40
    else 0 in
  CompressionAnalysis.mk hasInconsistency (Some inconsistencyType)
    hasStandardQuantization (Some (estimatedQuality w))
    blockArtifacts ghostingDetected qualityMismatch severity.

(** The object returned for a buffer that does not start with the
    start-of-image marker. *)
Definition notJPEG : CompressionAnalysis.t :=
  CompressionAnalysis.mk false None false None false false false 0.

(** The guarded block of [analyzeJPEGCompression]. *)
Definition body (buffer : Buffer) : Completion CompressionAnalysis.t :=
  match readUInt16BE buffer 0 with
  | Throw e => Throw e
  | Normal soi =>
      if negb (soi =? JPEG_SOI)%N then Normal notJPEG
      else
        match walk (S (List.length buffer)) buffer (mkWalk 2 0 0 0 [] 75) with
        | Some (Normal w) => Normal (analysis w)
        | Some (Throw e) => Throw e
        | None => Normal notJPEG
        end
  end.

(** [analyzeJPEGCompression(buffer)] *)
Definition analyze (buffer : Buffer) : CompressionAnalysis.t :=
  ForensicsAnalyzer.analyzeJPEGCompression (body buffer).

End JpegCompression.

(* ================================================================= *)
(** ** constants/ai-tools.ts, the remaining helpers *)

Module Markers.

Import AiTools.

Definition COMMON_CAMERA_MAKES : list jsstring :=
  [js "apple"; js "canon"; js "nikon"; js "sony"; js "fujifilm"; js "fuji";
   js "olympus"; js "panasonic"; js "pentax"; js "leica"; js "samsung"; js "lg";
   js "xiaomi"; js "huawei"; js "oppo"; js "vivo"; js "oneplus"; js "google";
   js "motorola"; js "asus"; js "realme"; js "honor"; js "nokia"; js "htc";
   js "zte"; js "blackberry"; js "gopro"; js "dji"; js "insta360"; js "ricoh";
   js "sigma"; js "hasselblad"; js "phase one"; js "mamiya"; js "kodak"].

(** [isKnownCameraMake(make)] *)
Definition isKnownCameraMake (make : jsstring) : bool :=
  if negb (truthy make) then false
  else existsb (fun m => includes (toLowerCase make) (toLowerCase m)) COMMON_CAMERA_MAKES.

(** The object [containsAIMarkers] returns. *)
Module Found.
Record t := mk {
  found : bool;
  markers : list jsstring;
  confidence : number
}.
End Found.

(** [foundMarkers.includes(marker)] *)
Definition listed (marker : jsstring) (foundMarkers : list jsstring) : bool :=
  existsb (JSString.eqb marker) foundMarkers.

(** The second loop: markers of [AI_MARKERS] not yet listed. *)
Definition addMarker (lowerText : jsstring) (foundMarkers : list jsstring)
  (marker : jsstring) : list jsstring :=
  if includes lowerText (toLowerCase marker) then
    if negb (listed marker foundMarkers) then foundMarkers ++ [marker]
    else foundMarkers
  else foundMarkers.

Definition highConfMarkers : list jsstring :=
  [js "parameters:"; js "negative prompt"; js "cfg scale"; js "stable diffusion";
   js "midjourney"].

(** [containsAIMarkers(text)] *)
Definition containsAIMarkers (text : jsstring) : Found.t :=
  if negb (truthy text) then Found.mk false [] 0
  else
    let lowerText := toLowerCase text in
    let foundMarkers :=
      filter (fun keyword => includes lowerText (toLowerCase keyword))
             PNG_AI_CHUNK_KEYWORDS in
    let foundMarkers := fold_left (addMarker lowerText) AI_MARKERS foundMarkers in
    let confidence :=
      if Nat.ltb 0 (List.length foundMarkers) then
        let confidence :=
          Math_min 100 (50 + of_nat (List.length foundMarkers) * 15) in
        if existsb (fun marker =>
                      existsb (fun hc => includes (toLowerCase marker) hc)
                              highConfMarkers)
                   foundMarkers
        then Math_min 100 (confidence + 20)
        else confidence
      else 0 in
    Found.mk (Nat.ltb 0 (List.length foundMarkers)) foundMarkers confidence.

End Markers.

(* ================================================================= *)
(** ** lib/metadata-analyzer.ts, the timestamps *)

Module Timestamps.

Import Utils.

(** What the runtime's [Date] contributes: the time value of a date in
    milliseconds ([None] is NaN, the value of an Invalid Date), the
    current time and the ISO printing. *)
Module Clock.
Record t := mk {
  getTime : JSDate.t -> option Z;
  now : Z;
  toISOString : JSDate.t -> jsstring
}.
End Clock.

(** The date and time tags the analyzer reads. *)
Module Tags.
Record t := mk {
  DateTimeOriginal : option jsstring;
  DateTimeDigitized : option jsstring;
  DateTime : option jsstring;
  GPSDateStamp : option jsstring;
  GPSTimeStamp : option jsstring
}.
End Tags.

Module Analysis.
Record t := mk {
  exifDateTimeOriginal : option JSDate.t;
  exifDateTimeDigitized : option JSDate.t;
  exifDateTime : option JSDate.t;
  gpsTimestamp : option JSDate.t;
  inconsistencies : list Finding.t
}.
End Analysis.

(** [Math.abs(a.getTime() - b.getTime())]; [None] is NaN. *)
Definition absDiff (clock : Clock.t) (a b : JSDate.t) : option Z :=
  match Clock.getTime clock a, Clock.getTime clock b with
  | Some x, Some y => Some (Z.abs (x - y))
  | _, _ => None
  end.

(** [diff > limit], false on NaN. *)
Definition exceeds (diff : option Z) (limit : Z) : bool :=
  match diff with
  | Some d => (limit <? d)%Z
  | None => false
  end.

(** [Math.round(diff / 1000)] inside a text. *)
Definition seconds (diff : option Z) : Part :=
  match diff with
  | Some d => Num (Math_round (inject_Z d / 1000))
  | None => Txt (js "NaN")
  end.

(** [analyzeTimestamps(zeroTh, exif, gps)] *)
Definition analyzeTimestamps (clock : Clock.t) (tags : Tags.t) : Analysis.t :=
  let exifDateTimeOriginal := parseEXIFDate (Tags.DateTimeOriginal tags) in
  let exifDateTimeDigitized := parseEXIFDate (Tags.DateTimeDigitized tags) in
  let exifDateTime := parseEXIFDate (Tags.DateTime tags) in
  let gpsTimestamp := parseGPSTimestamp (Tags.GPSDateStamp tags) (Tags.GPSTimeStamp tags) in
  let inconsistencies := [] in
  let inconsistencies :=
    match exifDateTimeOriginal, exifDateTimeDigitized with
    | Some original, Some digitized =>
        let diff := absDiff clock original digitized in
        if exceeds diff 60000 then
          inconsistencies
          ++ [Finding.mk warning 25 metadata (js "Timestamp inconsistency detected")
                (Some [Txt (js "DateTimeOriginal and DateTimeDigitized differ by ");
                       seconds diff; Txt (js " seconds")])]
        else inconsistencies
    | _, _ => inconsistencies
    end in
  let inconsistencies :=
    match exifDateTimeOriginal with
    | Some original =>
        match Clock.getTime clock original with
        | Some t =>
            if (Clock.now clock <? t)%Z then
              inconsistencies
              ++ [Finding.mk warning 40 metadata (js "Future timestamp detected")
                    (Some [Txt (js "DateTimeOriginal is in the future: ");
                           Txt (Clock.toISOString clock original)])]
            else inconsistencies
        | None => inconsistencies
        end
    | None => inconsistencies
    end in
  let inconsistencies :=
    match gpsTimestamp, exifDateTimeOriginal with
    | Some gps, Some original =>
        let diff := absDiff clock gps original in
        if exceeds diff 30000 then
          inconsistencies
          ++ [Finding.mk warning 20 metadata (js "GPS timestamp mismatch")
                (Some [Txt (js "GPS timestamp differs from EXIF timestamp by ");
                       seconds diff; Txt (js " seconds")])]
        else inconsistencies
    | _, _ => inconsistencies
    end in
  Analysis.mk exifDateTimeOriginal exifDateTimeDigitized exifDateTime gpsTimestamp
    inconsistencies.

(** The image handed to [analyzeMetadata] when [piexif.load] has given
    the tags [loaded] (or thrown): the timestamps are analyzed from the
    date tags. *)
Definition jpegImage
  (clock : Clock.t) (buffer : Buffer)
  (loaded : Completion (MetadataAnalyzer.Exif.t * Tags.t)) : MetadataAnalyzer.ImageData :=
  match loaded with
  | Normal (exif, tags) =>
      MetadataAnalyzer.JPEG buffer (Normal exif)
        (Analysis.inconsistencies (analyzeTimestamps clock tags))
  | Throw e => MetadataAnalyzer.JPEG buffer (Throw e) []
  end.

End Timestamps.

(* ================================================================= *)
(** ** route.ts: the three stages in sequence *)

Module Route.

Import ForensicsAnalyzer.

(** What [sharp(buffer).metadata()] reports; a missing width or height
    is read as 0. *)
Module SharpMetadata.
Record t := mk {
  width : option Z;
  height : option Z;
  format : option jsstring
}.
End SharpMetadata.

(** Outcomes of the pixel loops of the four raster analyses. *)
Module PixelLoops.
Record t := mk {
  ela : Completion ELAMetrics.t;
  frequency : Completion FrequencyBody.Stats.t;
  texture : Completion TextureBody.Stats.t;
  artifacts : Completion ArtifactBody.Stats.t
}.
End PixelLoops.

Definition andThen {A B : Type} (f : A -> B) (c : Completion A) : Completion B :=
  match c with
  | Normal a => Normal (f a)
  | Throw e => Throw e
  end.

(** The outcomes of the five guarded blocks on a buffer. *)
Definition stagesOf (buffer : Utils.Buffer) (p : PixelLoops.t) : Stages.t :=
  Stages.mk (PixelLoops.ela p)
            (andThen FrequencyBody.decide (PixelLoops.frequency p))
            (andThen TextureBody.decide (PixelLoops.texture p))
            (JpegCompression.body buffer)
            (andThen ArtifactBody.decide (PixelLoops.artifacts p)).

(** [extractBase64(imageData)], as both analyzers call it. *)
Definition extractBase64 (image : MetadataAnalyzer.ImageData) : Completion Utils.Buffer :=
  match image with
  | MetadataAnalyzer.InvalidDataURL => Throw (Error (js "Invalid data URL"))
  | MetadataAnalyzer.JPEG buffer _ _ => Normal buffer
  | MetadataAnalyzer.NotJPEG buffer => Normal buffer
  end.

Definition orZero (x : option Z) : Z :=
  match x with Some v => v | None => 0%Z end.

(** The forensics call of the handler: the same image, with the camera
    make and software the metadata analysis found. *)
Definition forensicsOf
  (image : MetadataAnalyzer.ImageData) (imageMetadata : Completion SharpMetadata.t)
  (p : PixelLoops.t) (metadataAnalysis : MetadataAnalysisResult.t)
  : ForensicsAnalysisResult.t :=
  let cameraMake :=
    match MetadataAnalysisResult.cameraInfo metadataAnalysis with
    | Some ci => CameraInfo.make ci
    | None => None
    end in
  let software :=
    match MetadataAnalysisResult.cameraInfo metadataAnalysis with
    | Some ci => CameraInfo.software ci
    | None => None
    end in
  match extractBase64 image with
  | Throw e => analyzeForensics (Throw e) (stagesOf [] p) cameraMake software
  | Normal buffer =>
      analyzeForensics
        (andThen (fun m => Decoded.mk buffer (orZero (SharpMetadata.width m))
                             (orZero (SharpMetadata.height m)) (SharpMetadata.format m))
                 imageMetadata)
        (stagesOf buffer p) cameraMake software
  end.

(** The body of [POST] for a request that carries an image: metadata
    analysis, forensics analysis, scoring.  The handler then overwrites
    [processingTime] with the elapsed time and logs the outcome; the
    clock and the log are not represented, so the field keeps the 0
    that [scoreResults] gives it. *)
Definition checkAuthenticity
  (image : MetadataAnalyzer.ImageData) (imageMetadata : Completion SharpMetadata.t)
  (p : PixelLoops.t) : DetailedVerificationResult.t :=
  let metadataAnalysis := MetadataAnalyzer.analyzeMetadata image in
  let forensicsAnalysis := forensicsOf image imageMetadata p metadataAnalysis in
  ScoringEngine.scoreResults metadataAnalysis forensicsAnalysis.

End Route.

(* ================================================================= *)
(** ** Vocabulary of the further properties *)

(** *** Chunk maps *)

(** A code unit that is not an ASCII capital. *)
Definition notCapital (c : N) : Prop := (c < 65 \/ 90 < c)%N.

(** Every key of a map satisfies [P]. *)
Definition keysSatisfy (P : jsstring -> Prop) (m : Utils.StringMap) : Prop :=
  Forall (fun e => P (fst e)) m.

(** Keys the chunk loop files: lower-cased keywords. *)
Definition lowerKeys (m : Utils.StringMap) : Prop := keysSatisfy (Forall notCapital) m.

(** A key the loop files, or the key "tEXt" added after it. *)
Definition filedKey (k : jsstring) : Prop := k = js "tEXt" \/ Forall notCapital k.

(** *** Findings named in the statements *)

Definition missingIHDR : Finding.t :=
  Finding.mk warning 50 forensics (js "PNG missing IHDR chunk")
    (Some [Txt (js "Critical PNG header chunk is missing - file may be corrupted or tampered")]).

Definition c2paMessage : jsstring := js "C2PA/JUMBF metadata detected".

Definition pngFormatNote : Finding.t :=
  Finding.mk info 15 metadata (js "PNG format - limited EXIF support")
    (Some [Txt (js "PNG files may have embedded metadata in text chunks")]).

Definition noExifWarning : Finding.t :=
  Finding.mk warning 35 metadata (js "No EXIF metadata found")
    (Some [Txt (js "PNG has no embedded EXIF data. May be a screenshot or edited image")]).

(** The number of critical ai-signature findings. *)
Definition criticalAICount (fs : list Finding.t) : nat :=
  List.length (filter MetadataAnalyzer.isCriticalAI fs).

(** A state of the metadata analyzer in which signatures and critical
    ai-signature findings are paired. *)
Definition paired (st : MetadataAnalyzer.State) : Prop :=
  List.length (MetadataAnalyzer.aiSignatures st)
  = criticalAICount (MetadataAnalyzer.findings st).

(** *** The metadata status *)

(** [detectAITool(software).detected] on the Software tag, false when
    the tag is absent. *)
Definition softwareDetected (e : MetadataAnalyzer.Exif.t) : bool :=
  match MetadataAnalyzer.Exif.Software e with
  | Some software => AiTools.Detection.detected (AiTools.detectAITool software)
  | None => false
  end.

(** [findings.some(f => f.severity >= 40)] *)
Definition reachesWarning (fs : list Finding.t) : bool :=
  existsb (fun f => ge (Finding.severity f) 40) fs.

(** An entry of the chunk map whose text holds a keyword of
    [PNG_AI_CHUNK_KEYWORDS] when letter case is ignored. *)
Definition holdsAIKeyword (entry : jsstring * jsstring) : bool :=
  existsb (fun aiKeyword => includes (toLowerCase (snd entry)) aiKeyword)
          AiTools.PNG_AI_CHUNK_KEYWORDS.

(** *** The JPEG marker walk *)

(** The values [estimatedQuality] can take. *)
Definition qualityLevels : list number := [30; 50; 70; 75; 80; 90; 95].

(** What holds of the variables of the marker walk at every turn. *)
Definition walkInvariant (w : JpegCompression.Walk) : Prop :=
  In (JpegCompression.estimatedQuality w) qualityLevels
  /\ (List.length (JpegCompression.quantTables w) <= JpegCompression.dqtCount w)%nat
  /\ Forall (fun table => List.length table = 64%nat) (JpegCompression.quantTables w).

(** *** GPS tags *)

(** A zero denominator among the first three rationals. *)
Definition zeroDenominator (dms : list (Z * Z)) : bool :=
  existsb (fun r => (snd r =? 0)%Z) (firstn 3 dms).

(** *** Outcomes of the handler *)

(** Verdict RISKY with risk score 100 and confidence 100, on the two
    findings of the failure handlers. *)
Definition doubleFailure (r : DetailedVerificationResult.t) : Prop :=
  DetailedVerificationResult.status r = RISKY
  /\ DetailedVerificationResult.riskScore r = 100
  /\ DetailedVerificationResult.confidence r = 100
  /\ DetailedVerificationResult.totalFindings r = 2%nat
  /\ DetailedVerificationResult.criticalCount r = 2%nat
  /\ AIDetection.isLikelyAI (DetailedVerificationResult.aiDetection r) = false.


(** *** The risk score in parts *)

(** The four parts of [calculateRiskScore], each as a function of the
    score it starts from. *)
Definition riskSignals (fr : ForensicsAnalysisResult.t) (score : number) : number :=
  let score :=
    match ForensicsAnalysisResult.elaAnalysis fr with
    | Some e => if ELAAnalysis.hasManipulation e
                then score + ELAAnalysis.severity e * ScoringEngine.weights_forensics
                else score
    | None => score
    end in
  let score :=
    match ForensicsAnalysisResult.frequencyAnalysis fr with
    | Some a => if FrequencyAnalysis.hasAnomalies a
                then score + FrequencyAnalysis.severity a * ScoringEngine.weights_forensics
                else score
    | None => score
    end in
  let score :=
    match ForensicsAnalysisResult.textureAnalysis fr with
    | Some a => if TextureAnalysis.isArtificial a
                then score + TextureAnalysis.severity a * ScoringEngine.weights_forensics
                else score
    | None => score
    end in
  let score :=
    match ForensicsAnalysisResult.compressionAnalysis fr with
    | Some a => if CompressionAnalysis.hasInconsistency a
                then score + CompressionAnalysis.severity a
                             * ScoringEngine.weights_forensics * (8 # 10)
                else score
    | None => score
    end in
  let score :=
    match ForensicsAnalysisResult.aiArtifactAnalysis fr with
    | Some a => if AIArtifactAnalysis.hasArtifacts a
                then score + AIArtifactAnalysis.severity a
                             * ScoringEngine.weights_forensics * (13 # 10)
                else score
    | None => score
    end in
  score.

Definition riskFindings
  (md : MetadataAnalysisResult.t) (fr : ForensicsAnalysisResult.t) (score : number)
  : number :=
  let score := if ScoringEngine.hasAISignatures md
               then score + 85 * ScoringEngine.weights_aiSignature else score in
  let score := fold_left ScoringEngine.riskMetadataFinding
                         (MetadataAnalysisResult.findings md) score in
  let score := fold_left ScoringEngine.riskForensicsFinding
                         (ForensicsAnalysisResult.findings fr) score in
  score.

Definition riskIndicators (fr : ForensicsAnalysisResult.t) (score : number) : number :=
  let score :=
    match ForensicsAnalysisResult.forensics fr with
    | Some f => if ForensicAnalysis.isScreenshot f then score + 40 else score
    | None => score
    end in
  let score :=
    match ForensicsAnalysisResult.forensics fr with
    | Some f => if truthy_opt (ForensicAnalysis.exportToolDetected f)
                then score + 35 else score
    | None => score
    end in
  score.

Definition riskDiscounts
  (md : MetadataAnalysisResult.t) (fr : ForensicsAnalysisResult.t) (score : number)
  : number :=
  let score := if MetadataAnalysisResult.hasEXIF md then score - 15 else score in
  let score := if MetadataAnalysisResult.hasGPS md then score - 15 else score in
  let score := if ScoringEngine.cameraMakeKnown md && ScoringEngine.cameraModelKnown md
               then score - 20 else score in
  let score :=
    match ForensicsAnalysisResult.textureAnalysis fr with
    | Some a => if gt (TextureAnalysis.naturalness a) 70 then score - 15 else score
    | None => score
    end in
  let score :=
    match ForensicsAnalysisResult.elaAnalysis fr with
    | Some e => if negb (ELAAnalysis.hasManipulation e) && lt (ELAAnalysis.variance e) 10
                then score - 10 else score
    | None => score
    end in
  score.

(** Findings whose severities are not negative. *)
Definition nonnegative (fs : list Finding.t) : Prop :=
  Forall (fun f => 0 <= Finding.severity f) fs.

(** A forensic result none of whose severities is negative. *)
Definition soundForensics (fr : ForensicsAnalysisResult.t) : Prop :=
  match ForensicsAnalysisResult.elaAnalysis fr with
  | Some e => 0 <= ELAAnalysis.severity e | None => True end
  /\ match ForensicsAnalysisResult.frequencyAnalysis fr with
     | Some a => 0 <= FrequencyAnalysis.severity a | None => True end
  /\ match ForensicsAnalysisResult.textureAnalysis fr with
     | Some a => 0 <= TextureAnalysis.severity a | None => True end
  /\ match ForensicsAnalysisResult.compressionAnalysis fr with
     | Some a => 0 <= CompressionAnalysis.severity a | None => True end
  /\ match ForensicsAnalysisResult.aiArtifactAnalysis fr with
     | Some a => 0 <= AIArtifactAnalysis.severity a | None => True end
  /\ nonnegative (ForensicsAnalysisResult.findings fr).

(** The severity of the flagged result that comes with a critical
    finding of the four raster analyses, if there is one. *)
Definition flaggedAbove (fr : ForensicsAnalysisResult.t) (severity : number) : Prop :=
  (exists e, ForensicsAnalysisResult.elaAnalysis fr = Some e
             /\ ELAAnalysis.hasManipulation e = true /\ ELAAnalysis.severity e = severity)
  \/ (exists a, ForensicsAnalysisResult.frequencyAnalysis fr = Some a
                /\ FrequencyAnalysis.hasAnomalies a = true
                /\ FrequencyAnalysis.severity a = severity)
  \/ (exists a, ForensicsAnalysisResult.textureAnalysis fr = Some a
                /\ TextureAnalysis.isArtificial a = true
                /\ TextureAnalysis.severity a = severity)
  \/ (exists a, ForensicsAnalysisResult.aiArtifactAnalysis fr = Some a
                /\ AIArtifactAnalysis.hasArtifacts a = true
                /\ AIArtifactAnalysis.severity a = severity).

(** Stages whose four decided results have no negative severity. *)
Definition soundStages (stages : ForensicsAnalyzer.Stages.t) : Prop :=
  0 <= FrequencyAnalysis.severity
         (ForensicsAnalyzer.analyzeFrequencyDomain (ForensicsAnalyzer.Stages.frequency stages))
  /\ 0 <= TextureAnalysis.severity
            (ForensicsAnalyzer.analyzeTexturePatterns (ForensicsAnalyzer.Stages.texture stages))
  /\ 0 <= CompressionAnalysis.severity
            (ForensicsAnalyzer.analyzeJPEGCompression
               (ForensicsAnalyzer.Stages.compression stages))
  /\ 0 <= AIArtifactAnalysis.severity
            (ForensicsAnalyzer.detectAIArtifacts (ForensicsAnalyzer.Stages.artifacts stages)).

(** *** Further concrete inputs *)

(** A PNG cut off inside its IHDR chunk: the signature, a length field
    of 13, the type, and five bytes of data. *)
Definition truncatedPNG : Utils.Buffer :=
  Utils.PNG_SIGNATURE ++ uint32be 13 ++ list_byte_of_string "IHDR"
  ++ [x00; x00; x00; x01; x00].

(** What the decoder reports of a 1 x 1 PNG held in [buffer]. *)
Definition pngDecoded (buffer : Utils.Buffer) : ForensicsAnalyzer.Decoded.t :=
  ForensicsAnalyzer.Decoded.mk buffer 1 1 (Some (js "png")).

Definition pngReport : Route.SharpMetadata.t :=
  Route.SharpMetadata.mk (Some 1%Z) (Some 1%Z) (Some (js "png")).

(** The error of a decoder that cannot read the image. *)
Definition sharpFailure : JSError :=
  Error (js "Input buffer contains unsupported image format").

(** Pixel loops that all fail on that error. *)
Definition noPixels : Route.PixelLoops.t :=
  Route.PixelLoops.mk (Throw sharpFailure) (Throw sharpFailure) (Throw sharpFailure)
                      (Throw sharpFailure).

(** Block statistics with a strong horizontal gradient: 961 equal block
    means, gradient sums 900 and 100. *)
Definition gradientStats : FrequencyBody.Stats.t :=
  FrequencyBody.Stats.mk 900 100 (repeat 128 961).

(** The statistics of a raster of one grey level: every neighbour is
    at least the centre, so every pixel has the code 255, and every
    window repeats its neighbour. *)
Definition flatStats : TextureBody.Stats.t :=
  TextureBody.Stats.mk (repeat 0%nat 255 ++ [TextureBody.totalSamples]) 840.


(** Tags of a JPEG whose two GPS coordinate tags are present but hold
    no rational at all. *)
Definition exifWithEmptyGPS : MetadataAnalyzer.Exif.t :=
  MetadataAnalyzer.Exif.mk
    (Some (js "Canon")) (Some (js "Canon EOS 80D")) None None
    (Some 1) (Some 72) (Some 72)
    (Some []) (Some []) (Some (js "N")) (Some (js "W")) None.

(** Pixel loops in which the ELA finds strong differences while the other
    pixel loops fail. *)
Definition strongELA : Route.PixelLoops.t :=
  Route.PixelLoops.mk (Normal (ForensicsAnalyzer.ELAMetrics.mk 30 9 120 48000 10))
                      (Throw sharpFailure) (Throw sharpFailure) (Throw sharpFailure).

Definition jpegReport : Route.SharpMetadata.t :=
  Route.SharpMetadata.mk (Some 800%Z) (Some 600%Z) (Some (js "jpeg")).

(* ================================================================= *)
(** ** Facts about numbers *)

Lemma ge_iff (x y : number) : ge x y = true <-> y <= x.
Proof. unfold ge. apply Qle_bool_iff. Qed.

Lemma gt_iff (x y : number) : gt x y = true <-> y < x.
Proof.
  unfold gt. rewrite negb_true_iff, <- not_true_iff_false, Qle_bool_iff.
  split; [apply Qnot_le_lt | apply Qlt_not_le].
Qed.

Lemma lt_iff (x y : number) : lt x y = true <-> x < y.
Proof. unfold lt. apply (gt_iff y x). Qed.

Lemma ge_false_iff (x y : number) : ge x y = false <-> x < y.
Proof.
  rewrite <- not_true_iff_false, ge_iff.
  split; [apply Qnot_le_lt | apply Qlt_not_le].
Qed.

Lemma gt_false_iff (x y : number) : gt x y = false <-> x <= y.
Proof.
  rewrite <- not_true_iff_false, gt_iff.
  split; [apply Qnot_lt_le | apply Qle_not_lt].
Qed.

Lemma lt_false_iff (x y : number) : lt x y = false <-> y <= x.
Proof. unfold lt. apply (gt_false_iff y x). Qed.

Lemma Math_min_spec (a b : number) :
  (a <= b /\ Math_min a b = a) \/ (b < a /\ Math_min a b = b).
Proof.
  unfold Math_min. destruct (Qle_bool a b) eqn:E.
  - left. split; [now apply Qle_bool_iff | reflexivity].
  - right. split; [| reflexivity].
    apply Qnot_le_lt. rewrite <- Qle_bool_iff. congruence.
Qed.

Lemma Math_max_spec (a b : number) :
  (a <= b /\ Math_max a b = b) \/ (b < a /\ Math_max a b = a).
Proof.
  unfold Math_max. destruct (Qle_bool a b) eqn:E.
  - left. split; [now apply Qle_bool_iff | reflexivity].
  - right. split; [| reflexivity].
    apply Qnot_le_lt. rewrite <- Qle_bool_iff. congruence.
Qed.

(** The clamp [Math.max(0, Math.min(100, x))] lands in [0, 100]. *)
Lemma clamp_range (x : number) :
  0 <= Math_max 0 (Math_min 100 x) <= 100.
Proof.
  destruct (Math_min_spec 100 x) as [[H1 ->] | [H1 ->]];
  [destruct (Math_max_spec 0 100) as [[H2 ->] | [H2 ->]]
  | destruct (Math_max_spec 0 x) as [[H2 ->] | [H2 ->]]]; lra.
Qed.

(** [Math.round] does not cross an integer bound. *)
Lemma Math_round_ge (a : Z) (x : number) :
  inject_Z a <= x -> inject_Z a <= Math_round x.
Proof.
  intros Ha. unfold Math_round. rewrite <- Zle_Qle.
  rewrite <- (Qfloor_Z a). apply Qfloor_resp_le.
  revert Ha. generalize (inject_Z a). intros qa Ha. lra.
Qed.

Lemma Math_round_le (b : Z) (x : number) :
  x <= inject_Z b -> Math_round x <= inject_Z b.
Proof.
  intros Hb. unfold Math_round. rewrite <- Zle_Qle.
  assert (H : (Qfloor (x + (1 # 2)) < b + 1)%Z).
  { rewrite Zlt_Qlt. eapply Qle_lt_trans; [apply Qfloor_le |].
    rewrite inject_Z_plus. revert Hb. generalize (inject_Z b). intros qb Hb.
    change (inject_Z 1) with 1. lra. }
  lia.
Qed.

Lemma Math_round_range (a b : Z) (x : number) :
  inject_Z a <= x <= inject_Z b -> inject_Z a <= Math_round x <= inject_Z b.
Proof.
  intros [Ha Hb]. split; [now apply Math_round_ge | now apply Math_round_le].
Qed.

Lemma Math_round_0_100 (x : number) : 0 <= x <= 100 -> 0 <= Math_round x <= 100.
Proof. apply (Math_round_range 0 100). Qed.


(* ================================================================= *)
(** ** Facts about strings *)

Lemma jsstring_eqb_eq (a b : jsstring) : JSString.eqb a b = true <-> a = b.
Proof.
  revert b. induction a as [| x a IH]; intros [| y b]; cbn;
    try (split; [discriminate | discriminate]); try tauto.
  rewrite andb_true_iff, N.eqb_eq, IH.
  split; [intros [-> ->]; reflexivity | intros H; injection H; auto].
Qed.

Lemma jsstring_eqb_refl (a : jsstring) : JSString.eqb a a = true.
Proof. now apply jsstring_eqb_eq. Qed.

(* ================================================================= *)
(** ** The scoring engine *)

Section Scoring.

Import ScoringEngine.

Variable md : MetadataAnalysisResult.t.
Variable fr : ForensicsAnalysisResult.t.

Lemma calculateConfidence_range b p n :
  0 <= Utils.calculateConfidence b p n <= 100.
Proof. unfold Utils.calculateConfidence. apply clamp_range. Qed.

Lemma calculateRiskScore_range : 0 <= calculateRiskScore md fr <= 100.
Proof. unfold calculateRiskScore. apply clamp_range. Qed.

Lemma adjustedConfidence_le_100 a : adjustedConfidence a <= 100.
Proof.
  unfold adjustedConfidence.
  destruct (Math_min_spec 100 (rawConfidence a * multiplier a)) as [[H ->] | [H ->]]; lra.
Qed.

Lemma detected_confidence_le_100 :
  AIDetection.confidence (detectAIGeneration md fr) <= 100.
Proof.
  unfold detectAIGeneration. cbn [AIDetection.confidence].
  apply (Math_round_le 100), adjustedConfidence_le_100.
Qed.

Lemma critical_ai_filter (l : list Finding.t) :
  Nat.ltb 0 (List.length (filter isCritical l))
  && existsb (fun f => Category_eqb (Finding.category f) ai_signature)
       (filter isCritical l)
  = existsb MetadataAnalyzer.isCriticalAI l.
Proof.
  induction l as [| f l IH]; [reflexivity |].
  cbn [filter existsb]. unfold MetadataAnalyzer.isCriticalAI at 1.
  fold (isCritical f). destruct (isCritical f).
  - cbn [List.length existsb andb]. change (0 <? S _)%nat with true. cbn [andb].
    destruct (Category_eqb (Finding.category f) ai_signature); [reflexivity |].
    cbn [orb]. rewrite <- IH. destruct (filter isCritical l); reflexivity.
  - exact IH.
Qed.

(** The pair (status, confidence) chosen by the five branches. *)
Lemma scoreResults_status_confidence :
  let r := scoreResults md fr in
  let ai := detectAIGeneration md fr in
  let risk := calculateRiskScore md fr in
  let all := MetadataAnalysisResult.findings md ++ ForensicsAnalysisResult.findings fr in
  (DetailedVerificationResult.status r, DetailedVerificationResult.confidence r) =
  if AIDetection.isLikelyAI ai && ge (AIDetection.confidence ai) 75
  then (REJECTED, Math_round (AIDetection.confidence ai))
  else if existsb MetadataAnalyzer.isCriticalAI all
  then (REJECTED, Math_round (Utils.calculateConfidence 90 [10] []))
  else if ge risk 70
  then (RISKY, Math_round (Utils.calculateConfidence risk [15] [-(10)]))
  else if ge risk 45 || (AIDetection.isLikelyAI ai && ge (AIDetection.confidence ai) 50)
  then (RISKY, Math_round (Utils.calculateConfidence risk [10] [-(5)]))
  else (VERIFIED,
        Math_round (Utils.calculateConfidence 30
          ((if MetadataAnalysisResult.hasGPS md then [15] else [])
           ++ (if MetadataAnalysisResult.hasEXIF md then [10] else [])
           ++ (if cameraMakeKnown md then [10] else [])) [])).
Proof.
  cbv zeta. unfold scoreResults.
  set (ai := detectAIGeneration md fr).
  set (risk := calculateRiskScore md fr).
  set (all := _ ++ _).
  rewrite critical_ai_filter.
  destruct (AIDetection.isLikelyAI ai && ge (AIDetection.confidence ai) 75); [reflexivity |].
  destruct (existsb MetadataAnalyzer.isCriticalAI all); [reflexivity |].
  destruct (ge risk 70); [reflexivity |].
  destruct (ge risk 45 || _); [reflexivity |].
  destruct (MetadataAnalysisResult.hasGPS md), (MetadataAnalysisResult.hasEXIF md),
    (cameraMakeKnown md); reflexivity.
Qed.


Lemma existsb_isCriticalAI (l : list Finding.t) :
  existsb MetadataAnalyzer.isCriticalAI l = true <->
  exists f, In f l /\ Finding.type f = critical /\ Finding.category f = ai_signature.
Proof.
  rewrite existsb_exists. unfold MetadataAnalyzer.isCriticalAI.
  split; intros [f [Hin H]]; exists f; split; try exact Hin.
  - apply andb_true_iff in H as [Ht Hc].
    destruct (Finding.type f), (Finding.category f); try discriminate; now split.
  - destruct H as [-> ->]. reflexivity.
Qed.

(** C1.  The verdict follows the five rules in strict priority order:
    likely-AI with confidence at least 75 rejects whatever the risk
    score is; otherwise a critical ai-signature finding rejects;
    otherwise a risk score of at least 70 is risky; otherwise a risk
    score of at least 45, or likely-AI with confidence at least 50, is
    risky; otherwise the image is verified.  The AI-detection summary
    consulted is the one returned in the result. *)
Theorem verdict_priority_order :
  let r := scoreResults md fr in
  let ai := DetailedVerificationResult.aiDetection r in
  let risk := calculateRiskScore md fr in
  let status := DetailedVerificationResult.status r in
  let highAI := AIDetection.isLikelyAI ai = true /\ 75 <= AIDetection.confidence ai in
  let criticalSignature :=
    exists f,
      In f (MetadataAnalysisResult.findings md ++ ForensicsAnalysisResult.findings fr)
      /\ Finding.type f = critical /\ Finding.category f = ai_signature in
  let highRisk := 70 <= risk in
  let moderate :=
    45 <= risk \/ (AIDetection.isLikelyAI ai = true /\ 50 <= AIDetection.confidence ai) in
  ai = detectAIGeneration md fr
  /\ (highAI -> status = REJECTED)
  /\ (~ highAI -> criticalSignature -> status = REJECTED)
  /\ (~ highAI -> ~ criticalSignature -> highRisk -> status = RISKY)
  /\ (~ highAI -> ~ criticalSignature -> ~ highRisk -> moderate -> status = RISKY)
  /\ (~ highAI -> ~ criticalSignature -> ~ highRisk -> ~ moderate -> status = VERIFIED).
Proof.
  cbv zeta.
  assert (Hai : DetailedVerificationResult.aiDetection (scoreResults md fr)
                = detectAIGeneration md fr).
  { unfold scoreResults.
    repeat match goal with |- context [if ?c then _ else _] => destruct c end;
      reflexivity. }
  rewrite Hai.
  pose proof scoreResults_status_confidence as H. cbv zeta in H.
  apply (f_equal fst) in H. cbn [fst] in H.
  set (ai := detectAIGeneration md fr) in *.
  set (risk := calculateRiskScore md fr) in *.
  rewrite <- existsb_isCriticalAI.
  set (crit := existsb _ _) in *.
  assert (E1 : AIDetection.isLikelyAI ai && ge (AIDetection.confidence ai) 75 = true
               <-> AIDetection.isLikelyAI ai = true /\ 75 <= AIDetection.confidence ai).
  { now rewrite andb_true_iff, ge_iff. }
  assert (E4 : ge risk 45
               || (AIDetection.isLikelyAI ai && ge (AIDetection.confidence ai) 50) = true
               <-> 45 <= risk
                   \/ (AIDetection.isLikelyAI ai = true /\ 50 <= AIDetection.confidence ai)).
  { now rewrite orb_true_iff, andb_true_iff, !ge_iff. }
  pose proof (ge_iff risk 70) as E3.
  destruct (AIDetection.isLikelyAI ai && ge (AIDetection.confidence ai) 75);
    [| destruct crit; [| destruct (ge risk 70); [| destruct (ge risk 45 || _)]]];
    cbn [fst] in H; rewrite H; clear H;
    (split; [reflexivity |]);
    repeat split; intros; try reflexivity; exfalso;
    repeat match goal with
      | HN : ~ _ |- _ =>
          first [ apply HN; first [now apply E1 | now apply E3 | now apply E4 | reflexivity]
                | clear HN ]
      end;
    repeat match goal with
      | HP : _ |- _ =>
          first [ apply E1 in HP; discriminate HP
                | apply E3 in HP; discriminate HP
                | apply E4 in HP; discriminate HP
                | discriminate HP ]
      end.
Qed.

(** C10.  Whatever the two analysis results are, the risk score and the
    confidence of the returned result lie between 0 and 100. *)
Theorem scoreResults_ranges :
  0 <= DetailedVerificationResult.riskScore (scoreResults md fr) <= 100
  /\ 0 <= DetailedVerificationResult.confidence (scoreResults md fr) <= 100.
Proof.
  split.
  - unfold scoreResults.
    repeat match goal with |- context [if ?c then _ else _] => destruct c end;
      cbn [DetailedVerificationResult.riskScore];
      apply Math_round_0_100, calculateRiskScore_range.
  - pose proof scoreResults_status_confidence as H. cbv zeta in H.
    apply (f_equal snd) in H. cbn [snd] in H.
    destruct (AIDetection.isLikelyAI _ && ge _ 75) eqn:E1.
    + cbn [snd] in H. rewrite H.
      apply andb_true_iff in E1 as [_ E1]. apply ge_iff in E1.
      pose proof detected_confidence_le_100 as Hle.
      apply Math_round_0_100. lra.
    + repeat match type of H with context [if ?c then _ else _] => destruct c end;
        cbn [snd] in H; rewrite H;
        apply Math_round_0_100, calculateConfidence_range.
Qed.

End Scoring.

(** The first rule applied: AI confidence 80, risk score below 45,
    verdict REJECTED. *)
Lemma verdict_priority_order_witness :
  AIDetection.confidence
    (ScoringEngine.detectAIGeneration rejectedAtLowRisk_md rejectedAtLowRisk_fr) == 80
  /\ ScoringEngine.calculateRiskScore rejectedAtLowRisk_md rejectedAtLowRisk_fr < 45
  /\ DetailedVerificationResult.status
       (ScoringEngine.scoreResults rejectedAtLowRisk_md rejectedAtLowRisk_fr) = REJECTED.
Proof.
  split; [reflexivity |]. split; [reflexivity |].
  apply (proj1 (proj2 (verdict_priority_order rejectedAtLowRisk_md rejectedAtLowRisk_fr))).
  split; [reflexivity |]. vm_compute. discriminate.
Defined.
(* ================================================================= *)
(** ** The AI-likelihood computation *)

Section Likelihood.

Import ScoringEngine Claimed.

Variable md : MetadataAnalysisResult.t.
Variable fr : ForensicsAnalysisResult.t.







Lemma round_eq (x y : number) : x == y -> Math_round x = Math_round y.
Proof.
  intros H. unfold Math_round. f_equal. apply Qfloor_comp. now rewrite H.
Qed.




End Likelihood.

(* ================================================================= *)
(** ** The forensics analyzer *)

Section Forensics.

Import ForensicsAnalyzer.

Lemma elaHasManipulation_iff (variance hotspotPercentage : number) :
  elaHasManipulation variance hotspotPercentage = true <->
  (15 < variance /\ 5 < hotspotPercentage)
  \/ (variance < 3 /\ hotspotPercentage < 1 # 2).
Proof.
  unfold elaHasManipulation.
  rewrite orb_true_iff, !andb_true_iff, !gt_iff, !lt_iff.
  assert (E : forall x, x < 5 # 10 <-> x < 1 # 2) by (intros x; split; lra).
  rewrite E. tauto.
Qed.

Lemma elaSeverity_bands (variance : number) :
  (25 < variance -> elaSeverity variance = 75)
  /\ (18 < variance <= 25 -> elaSeverity variance = 60)
  /\ (12 < variance <= 18 -> elaSeverity variance = 45)
  /\ (variance < 2 -> elaSeverity variance = 70)
  /\ (2 <= variance <= 12 -> elaSeverity variance = 0).
Proof.
  unfold elaSeverity.
  destruct (gt variance 25) eqn:E25;
    [apply gt_iff in E25 | apply gt_false_iff in E25];
  (destruct (gt variance 18) eqn:E18;
    [apply gt_iff in E18 | apply gt_false_iff in E18]);
  (destruct (gt variance 12) eqn:E12;
    [apply gt_iff in E12 | apply gt_false_iff in E12]);
  (destruct (lt variance 2) eqn:E2;
    [apply lt_iff in E2 | apply lt_false_iff in E2]);
  repeat split; intros; try reflexivity; exfalso; lra.
Qed.

(** C6.  On the statistics [m] gathered from the rasters, ELA flags
    manipulation exactly when (variance > 15 and hotspots > 5 percent) or
    (variance < 3 and hotspots < 0.5 percent); the severity is 75 above
    variance 25, 60 in (18, 25], 45 in (12, 18], 70 below 2 and 0
    otherwise; so the severities at variances 26, 20 and 15 are 75, 60
    and 45, strictly decreasing. *)
Theorem ela_flag_and_severity (m : ELAMetrics.t) :
  let variance := ELAMetrics.variance m in
  let hotspots := ELAMetrics.hotspotPercentage m in
  let r := analyzeELA (Normal m) in
  (ELAAnalysis.hasManipulation r = true <->
     (15 < variance /\ 5 < hotspots) \/ (variance < 3 /\ hotspots < 1 # 2))
  /\ (25 < variance -> ELAAnalysis.severity r = 75)
  /\ (18 < variance <= 25 -> ELAAnalysis.severity r = 60)
  /\ (12 < variance <= 18 -> ELAAnalysis.severity r = 45)
  /\ (variance < 2 -> ELAAnalysis.severity r = 70)
  /\ (2 <= variance <= 12 -> ELAAnalysis.severity r = 0)
  /\ (elaSeverity 26 = 75 /\ elaSeverity 20 = 60 /\ elaSeverity 15 = 45
      /\ elaSeverity 15 < elaSeverity 20 < elaSeverity 26).
Proof.
  cbv zeta. cbn [analyzeELA ELAAnalysis.hasManipulation ELAAnalysis.severity].
  split; [apply elaHasManipulation_iff |].
  pose proof (elaSeverity_bands (ELAMetrics.variance m)) as H.
  repeat (split; [apply H |]).
  repeat split; reflexivity.
Qed.

(** Every guarded sub-analysis answers an exception with its neutral
    result. *)
Lemma guarded_throw {A : Type} (neutral : A) (e : JSError) :
  guarded (Throw e) neutral = neutral.
Proof. reflexivity. Qed.

(** C8.  When the image decodes and the container scan completes, the
    forensics call returns all its sub-results whatever happens inside
    the five sub-analyses: each result is the one of its own guarded
    block, and the finding list is the concatenation of what each
    result contributes.  A sub-analysis whose guarded block throws
    yields a result that is not flagged, has severity 0 and contributes
    no finding. *)
Theorem subanalysis_failure_is_neutral
  (d : Decoded.t) (stages : Stages.t) (cameraMake software : option jsstring)
  (pngResult : list Finding.t) :
  (if isFormat d "png" then analyzePNGSpecific (Decoded.buffer d) else Normal [])
  = Normal pngResult ->
  let r := analyzeForensics (Normal d) stages cameraMake software in
  let elaResult := analyzeELA (Stages.ela stages) in
  let frequencyResult := analyzeFrequencyDomain (Stages.frequency stages) in
  let textureResult := analyzeTexturePatterns (Stages.texture stages) in
  let compressionResult := analyzeJPEGCompression (Stages.compression stages) in
  let aiArtifactResult := detectAIArtifacts (Stages.artifacts stages) in
  (ForensicsAnalysisResult.elaAnalysis r = Some elaResult
   /\ ForensicsAnalysisResult.frequencyAnalysis r = Some frequencyResult
   /\ ForensicsAnalysisResult.textureAnalysis r = Some textureResult
   /\ ForensicsAnalysisResult.compressionAnalysis r
      = (if isFormat d "jpeg" then Some compressionResult else None)
   /\ ForensicsAnalysisResult.aiArtifactAnalysis r = Some aiArtifactResult
   /\ ForensicsAnalysisResult.findings r
      = elaFindings elaResult ++ frequencyFindings frequencyResult
        ++ textureFindings textureResult
        ++ compressionFindings (ForensicsAnalysisResult.compressionAnalysis r)
        ++ artifactFindings aiArtifactResult
        ++ screenshotFindings
             (detectScreenshot (Decoded.width d) (Decoded.height d) cameraMake software)
        ++ exportFindings software ++ pngResult)
  /\ (forall e, Stages.ela stages = Throw e ->
        ELAAnalysis.hasManipulation elaResult = false
        /\ ELAAnalysis.severity elaResult = 0
        /\ elaFindings elaResult = [])
  /\ (forall e, Stages.frequency stages = Throw e ->
        FrequencyAnalysis.hasAnomalies frequencyResult = false
        /\ FrequencyAnalysis.severity frequencyResult = 0
        /\ frequencyFindings frequencyResult = [])
  /\ (forall e, Stages.texture stages = Throw e ->
        TextureAnalysis.isArtificial textureResult = false
        /\ TextureAnalysis.severity textureResult = 0
        /\ textureFindings textureResult = [])
  /\ (forall e, Stages.compression stages = Throw e ->
        CompressionAnalysis.hasInconsistency compressionResult = false
        /\ CompressionAnalysis.severity compressionResult = 0
        /\ compressionFindings (Some compressionResult) = [])
  /\ (forall e, Stages.artifacts stages = Throw e ->
        AIArtifactAnalysis.hasArtifacts aiArtifactResult = false
        /\ AIArtifactAnalysis.severity aiArtifactResult = 0
        /\ artifactFindings aiArtifactResult = []).
Proof.
  intros Hpng. cbv zeta. unfold analyzeForensics. rewrite Hpng.
  split.
  { cbn [ForensicsAnalysisResult.elaAnalysis ForensicsAnalysisResult.frequencyAnalysis
         ForensicsAnalysisResult.textureAnalysis ForensicsAnalysisResult.compressionAnalysis
         ForensicsAnalysisResult.aiArtifactAnalysis ForensicsAnalysisResult.findings].
    repeat split; reflexivity. }
  unfold analyzeFrequencyDomain, analyzeTexturePatterns, analyzeJPEGCompression,
    detectAIArtifacts.
  repeat split; rewrite H; reflexivity.
Qed.

End Forensics.

(** Variance 16 with 6 percent of hotspots: flagged, severity 45. *)
Lemma ela_flag_and_severity_witness :
  ELAAnalysis.severity uncountedELA = 45
  /\ ELAAnalysis.hasManipulation uncountedELA = true.
Proof.
  pose proof (ela_flag_and_severity (ForensicsAnalyzer.ELAMetrics.mk 16 4 60 28800 6)) as H.
  cbv zeta in H. destruct H as (Hflag & _ & _ & H45 & _).
  split.
  - apply H45. vm_compute. split; [reflexivity | discriminate].
  - apply Hflag. left. vm_compute. split; reflexivity.
Defined.

(** With all five guarded blocks throwing, the call returns a passed
    result without findings, holding the neutral ELA result. *)
Lemma subanalysis_failure_is_neutral_witness :
  let r := ForensicsAnalyzer.analyzeForensics
             (Normal failingStages_decoded) failingStages None None in
  ForensicsAnalysisResult.findings r = []
  /\ ForensicsAnalysisResult.status r = passed
  /\ ForensicsAnalysisResult.elaAnalysis r = Some ForensicsAnalyzer.elaNeutral.
Proof.
  destruct (subanalysis_failure_is_neutral failingStages_decoded failingStages None None []
              eq_refl) as [(Hela & _ & _ & _ & _ & Hf) _].
  cbv zeta. split; [| split].
  - rewrite Hf. reflexivity.
  - reflexivity.
  - rewrite Hela. reflexivity.
Defined.
(* ================================================================= *)
(** ** GPS coordinates *)

Section GPS.

Import MetadataAnalyzer Shapes.


End GPS.

(* ================================================================= *)
(** ** Splitting and reading numbers *)

Section Split.

Import Shapes.

Variable sep : N.









End Split.

Section Dates.

Import Utils Shapes.














End Dates.


(* ================================================================= *)
(** ** The chunk reader *)

Section Chunks.

Import Utils.

(** The fuel given to the chunk loop is never used up. *)
Lemma chunkLoop_fuel (fuel : nat) (buffer : Buffer) (offset : N) (st : ChunkState) :
  (byteLength buffer < offset + 8 + N.of_nat fuel)%N ->
  chunkLoop (S fuel) buffer offset st <> None.
Proof.
  revert offset st. induction fuel as [| fuel IH]; intros offset st H.
  - cbn [chunkLoop].
    destruct (N.leb_spec (offset + 8) (byteLength buffer)); [lia | discriminate].
  - change (chunkLoop (S (S fuel)) buffer offset st)
      with (if negb (offset + 8 <=? byteLength buffer)%N then Some (Normal st)
            else
              match readUInt32BE buffer offset with
              | Throw e => Some (Throw e)
              | Normal length =>
                  let type := toString_ascii (subarray buffer (offset + 4) (offset + 8)) in
                  let chunkData := subarray buffer (offset + 8) (offset + 8 + length) in
                  match readUInt32BE buffer (offset + 8 + length) with
                  | Throw e => Some (Throw e)
                  | Normal crc =>
                      let st := if isTextType type then textChunk type chunkData st
                                else st in
                      if JSString.eqb type (js "IEND") then Some (Normal st)
                      else chunkLoop (S fuel) buffer (offset + 12 + length) st
                  end
              end).
    destruct (negb _); [discriminate |].
    destruct (readUInt32BE buffer offset) as [length | e]; [| discriminate].
    cbv zeta.
    destruct (readUInt32BE buffer (offset + 8 + length)) as [crc | e]; [| discriminate].
    destruct (JSString.eqb _ (js "IEND")); [discriminate |].
    apply IH. lia.
Qed.

(** [parsePNGChunks] always runs its loop to the end. *)
Lemma parsePNGChunks_terminates (buffer : Buffer) (st : ChunkState) :
  chunkLoop (S (List.length buffer)) buffer 8 st <> None.
Proof. apply chunkLoop_fuel. unfold byteLength. lia. Qed.

Lemma c2paLoop_fuel (fuel : nat) (buffer : Buffer) (offset : N) :
  (byteLength buffer <= offset + 2 + N.of_nat fuel)%N ->
  c2paLoop (S fuel) buffer offset = Some (Normal false).
Proof.
  revert offset. induction fuel as [| fuel IH]; intros offset H.
  - cbn [c2paLoop].
    destruct (N.ltb_spec (offset + 2) (byteLength buffer)); [lia | reflexivity].
  - change (c2paLoop (S (S fuel)) buffer offset)
      with (if negb (offset + 2 <? byteLength buffer)%N then Some (Normal false)
            else
              let isMarker :=
                match byteAt buffer offset, byteAt buffer (offset + 1) with
                | Some b0, Some b1 => (b0 =? 255)%N && (b1 =? APP13_MARKER)%N
                | _, _ => false
                end in
              if isMarker then
                match readUInt16BE buffer (offset + 2) with
                | Throw e => Some (Throw e)
                | Normal length =>
                    if (byteLength buffer <? offset + 4 + length)%N
                    then Some (Normal false)
                    else
                      let markerData :=
                        subarray buffer (offset + 4) (offset + 4 + length) in
                      if bufIncludes markerData JUMBF_BOX then Some (Normal true)
                      else c2paLoop (S fuel) buffer (offset + 4 + length)
                end
              else c2paLoop (S fuel) buffer (offset + 1)).
    destruct (negb _); [reflexivity |].
    assert (Hm : match byteAt buffer offset, byteAt buffer (offset + 1) with
                 | Some b0, Some b1 => (b0 =? 255)%N && (b1 =? APP13_MARKER)%N
                 | _, _ => false
                 end = false).
    { destruct (byteAt buffer offset) as [b0 |]; [| reflexivity].
      unfold byteAt. destruct (nth_error buffer (N.to_nat (offset + 1))) as [x |];
        [| reflexivity].
      pose proof (Byte.to_N_bounded x) as Hx.
      destruct (N.eqb_spec (Byte.to_N x) APP13_MARKER) as [E | _];
        [unfold APP13_MARKER in E; lia | apply andb_false_r]. }
    cbv zeta. rewrite Hm. apply IH. lia.
Qed.

(** A byte never equals the two-byte marker it is compared with, so
    [hasC2PAMetadata] answers [false] on every buffer. *)
Lemma hasC2PAMetadata_false (buffer : Buffer) : hasC2PAMetadata buffer = Normal false.
Proof.
  unfold hasC2PAMetadata. rewrite c2paLoop_fuel; [reflexivity |].
  unfold byteLength. lia.
Qed.

Lemma indexOfFrom_first (keyword text : Buffer) (pos : Z) :
  ~ In x00 keyword ->
  indexOfFrom x00 (keyword ++ x00 :: text) pos = (pos + Z.of_nat (List.length keyword))%Z.
Proof.
  revert pos. induction keyword as [| b keyword IH]; intros pos Hk.
  - cbn. lia.
  - cbn [app indexOfFrom List.length].
    destruct (Byte.eqb b x00) eqn:E.
    + apply Byte.byte_dec_bl in E. exfalso. apply Hk. now left.
    + rewrite IH by (intros H; apply Hk; now right). lia.
Qed.

Lemma subarray_prefix (a b : Buffer) :
  subarray (a ++ b) 0 (N.of_nat (List.length a)) = a.
Proof.
  unfold subarray, byteLength. rewrite length_app.
  rewrite N.min_0_l, N.min_l by lia.
  destruct a as [| x a]; [reflexivity |].
  destruct (N.leb_spec (N.of_nat (List.length (x :: a))) 0) as [H | H];
    [cbn [List.length] in H; lia |].
  rewrite N.sub_0_r, Nat2N.id. cbn [N.to_nat skipn].
  now rewrite firstn_app, Nat.sub_diag, firstn_all, firstn_O, app_nil_r.
Qed.

Lemma subarrayFrom_suffix (a b : Buffer) :
  subarrayFrom (a ++ b) (N.of_nat (List.length a)) = b.
Proof.
  unfold subarrayFrom, subarray, byteLength. rewrite length_app.
  rewrite !N.min_l by lia.
  destruct b as [| y b].
  - rewrite Nat.add_0_r. destruct (N.leb_spec (N.of_nat (List.length a))
                                     (N.of_nat (List.length a))); [reflexivity | lia].
  - destruct (N.leb_spec (N.of_nat (List.length a + List.length (y :: b)))
                (N.of_nat (List.length a))) as [H | H];
      [cbn [List.length] in H; lia |].
    rewrite Nat2N.id, skipn_app, Nat.sub_diag, skipn_all. cbn [app skipn].
    replace (N.to_nat _) with (List.length (y :: b)) by lia.
    apply firstn_all.
Qed.

(** A tEXt chunk with a non-empty keyword and a non-empty text is filed
    under its lower-cased keyword and noted as the last text seen,
    which [parsePNGChunks] files again under "tEXt". *)
Lemma tEXt_chunk_is_noted (keyword text : Buffer) (st : ChunkState) :
  keyword <> [] -> ~ In x00 keyword -> text <> [] ->
  textChunk (js "tEXt") (keyword ++ x00 :: text) st
  = mkChunkState
      (map_set (toLowerCase (toString_ascii keyword)) (toString_latin1 text) (chunks st))
      (Some (toString_latin1 text)).
Proof.
  intros Hk H0 Ht. unfold textChunk.
  change (JSString.eqb (js "tEXt") (js "iTXt")) with false.
  change (JSString.eqb (js "tEXt") (js "zTXt")) with false.
  cbv iota. unfold indexOf. cbn [Z.to_nat skipn].
  rewrite indexOfFrom_first by exact H0. rewrite Z.add_0_l.
  assert (Hpos : (0 <? Z.of_nat (List.length keyword))%Z = true).
  { destruct keyword; [congruence |]. cbn [List.length]. apply Z.ltb_lt. lia. }
  rewrite Hpos.
  rewrite Z2N.inj_add, <- !nat_N_Z, !N2Z.id by lia.
  change (Z.to_N 1) with 1%N.
  rewrite subarray_prefix.
  replace (N.of_nat (List.length keyword) + 1)%N
    with (N.of_nat (List.length (keyword ++ [x00]))) by (rewrite length_app; cbn; lia).
  replace (keyword ++ x00 :: text) with ((keyword ++ [x00]) ++ text)
    by (now rewrite <- app_assoc).
  rewrite subarrayFrom_suffix.
  unfold noteText. cbn [textContent chunks].
  destruct text as [| t text]; [congruence |]. reflexivity.
Qed.

End Chunks.

(* ================================================================= *)
(** ** The metadata analyzer *)

Section Metadata.

Import Utils AiTools MetadataAnalyzer.

(** [detectAITool] attaches to a match the type and the confidence of
    the first category that matches. *)
Lemma detectAITool_by_category (software : jsstring) :
  Detection.detected (detectAITool software) = true ->
  In (Detection.type (detectAITool software), Detection.confidence (detectAITool software))
     [(Some (js "diffusion"), Some 95); (Some (js "generative"), Some 95);
      (Some (js "editing"), Some 40); (Some (js "export tools"), Some 30);
      (Some (js "ai markers"), Some 90)].
Proof.
  unfold detectAITool. destruct (truthy software); cbn [negb]; [| discriminate].
  unfold AI_TOOLS_SIGNATURES. cbn [scanCategories].
  generalize (toLowerCase software). intros lowerSoftware.
  destruct (matchesAny lowerSoftware DIFFUSION); [intros _; cbn; tauto |].
  destruct (matchesAny lowerSoftware GENERATIVE); [intros _; cbn; tauto |].
  destruct (matchesAny lowerSoftware EDITING); [intros _; cbn; tauto |].
  destruct (matchesAny lowerSoftware EXPORT_TOOLS); [intros _; cbn; tauto |].
  destruct (matchesAny lowerSoftware AI_MARKERS); [intros _; cbn; tauto |].
  discriminate.
Qed.

(** Whatever [detectAITool] returns, the signature recorded by
    [checkSoftware] has confidence 95. *)
Lemma checkSoftware_signature (software : option jsstring) (st : State) :
  aiSignatures (checkSoftware software st) = aiSignatures st
  \/ exists sig,
       aiSignatures (checkSoftware software st) = aiSignatures st ++ [sig]
       /\ AISignature.confidence sig = 95.
Proof.
  unfold checkSoftware. destruct software as [software |]; [| now left].
  destruct (truthy software); [| now left].
  destruct (Detection.detected (detectAITool software));
    [right | left]; destruct (isExportTool software); cbn [pushFinding pushSignature aiSignatures];
    try reflexivity; eexists; split; reflexivity.
Qed.

(** C3, at the Software field "Screenshot".  The field matches a keyword
    of the export category and of no other category; [detectAITool]
    reports it with type "export tools" and confidence 30; the software
    scan nevertheless emits a critical ai-signature finding of severity
    100 and an AISignature record, before the warning of severity 50,
    and the analysis of the image fails. *)
Theorem export_tool_is_reported_as_ai_signature :
  let software := js "Screenshot" in
  let st := checkSoftware (Some software) state0 in
  List.map (fun entry => matchesAny (toLowerCase software) (snd entry)) AI_TOOLS_SIGNATURES
  = [false; false; false; true; false]
  /\ isExportTool software = true
  /\ Detection.type (detectAITool software) = Some (js "export tools")
  /\ Detection.confidence (detectAITool software) = Some 30
  /\ findingKinds (findings st)
     = [(critical, 100, ai_signature); (warning, 50, metadata)]
  /\ signatureKinds (aiSignatures st) = [(Some (js "export tools"), 95)]
  /\ findingKinds (MetadataAnalysisResult.findings
                    (analyzeMetadata (jpegWithSoftware "Screenshot")))
     = [(critical, 100, ai_signature); (warning, 50, metadata)]
  /\ MetadataAnalysisResult.status (analyzeMetadata (jpegWithSoftware "Screenshot"))
     = failed.
Proof. vm_compute. repeat split. Qed.

(** C4, at the Software field "GIMP 2.10".  [detectAITool] reports the
    editing category with confidence 40, but the AISignature record
    carries confidence 95; so it does for a generic AI marker
    (90 reported) and an export tool (30 reported).  For every
    signature of the diffusion table taken as the whole Software field
    the scan emits one critical ai-signature finding of severity 100 and
    a signature of confidence 95. *)
Theorem signature_confidence_ignores_category :
  let recorded (software : string) :=
    signatureKinds (aiSignatures (checkSoftware (Some (js software)) state0)) in
  let reported (software : string) :=
    (Detection.type (detectAITool (js software)),
     Detection.confidence (detectAITool (js software))) in
  reported "GIMP 2.10"%string = (Some (js "editing"), Some 40)
  /\ recorded "GIMP 2.10"%string = [(Some (js "editing"), 95)]
  /\ reported "ai-generated"%string = (Some (js "ai markers"), Some 90)
  /\ recorded "ai-generated"%string = [(Some (js "ai markers"), 95)]
  /\ reported "Screenshot"%string = (Some (js "export tools"), Some 30)
  /\ recorded "Screenshot"%string = [(Some (js "export tools"), 95)]
  /\ Forall (fun tool =>
               let st := checkSoftware (Some tool) state0 in
               findingKinds (findings st) = [(critical, 100, ai_signature)]
               /\ signatureKinds (aiSignatures st) = [(Some (js "diffusion"), 95)])
            DIFFUSION.
Proof.
  cbv zeta. repeat (split; [vm_compute; reflexivity |]).
  unfold DIFFUSION. repeat (apply Forall_cons; [vm_compute; split; reflexivity |]).
  apply Forall_nil.
Qed.

(** Every entry of the chunk map whose lower-cased content holds a
    keyword yields exactly one critical finding and one signature. *)
Lemma checkChunk_hit (st : State) (keyword content : jsstring) :
  existsb (fun aiKeyword => includes (toLowerCase content) aiKeyword)
          PNG_AI_CHUNK_KEYWORDS = true ->
  exists f sig,
    findings (checkChunk st (keyword, content)) = findings st ++ [f]
    /\ aiSignatures (checkChunk st (keyword, content)) = aiSignatures st ++ [sig]
    /\ Finding.type f = critical /\ Finding.severity f = 100
    /\ Finding.category f = ai_signature
    /\ Finding.message f = pngParametersMessage
    /\ AISignature.confidence sig = 90.
Proof.
  intros H. unfold checkChunk.
  destruct (find _ PNG_AI_CHUNK_KEYWORDS) as [aiKeyword |] eqn:E.
  - do 2 eexists. cbn [pushFinding pushSignature findings aiSignatures].
    repeat split; reflexivity.
  - apply existsb_exists in H as (k & Hin & Hk).
    eapply find_none in E; [| exact Hin]. cbv beta in E. congruence.
Qed.

(** C5, on a PNG file whose tEXt chunk keyed "parameters" holds
    "Steps: 20, Sampler: Euler".  The chunk reader files the text twice,
    under the keyword and under "tEXt"; the analyzer raises the critical
    finding "AI generation parameters detected in PNG chunks" once per
    entry, so twice, and the status is failed.  With the same text in an
    iTXt chunk the map has the single entry "tEXt" and the finding is
    raised once. *)
Theorem parameters_chunk_is_reported_twice :
  let r := analyzeMetadata (NotJPEG parametersPNG) in
  let text := js generationText in
  parsePNGChunks parametersPNG = Normal [(js "parameters", text); (js "tEXt", text)]
  /\ findingKinds (MetadataAnalysisResult.findings r)
     = [(info, 15, metadata); (critical, 100, ai_signature);
        (critical, 100, ai_signature); (warning, 35, metadata)]
  /\ List.length (criticalWithMessage pngParametersMessage
                    (MetadataAnalysisResult.findings r)) = 2%nat
  /\ List.length (filter ScoringEngine.isCritical (MetadataAnalysisResult.findings r))
     = 2%nat
  /\ MetadataAnalysisResult.status r = failed
  /\ List.length (criticalWithMessage pngParametersMessage
                    (MetadataAnalysisResult.findings
                       (analyzeMetadata (NotJPEG parametersPNG_iTXt)))) = 1%nat.
Proof. vm_compute. repeat split. Qed.

End Metadata.
(* ================================================================= *)
(** ** Further facts on numbers and lists *)

Lemma of_nat_le (a b : nat) : (a <= b)%nat -> of_nat a <= of_nat b.
Proof. intros H. unfold of_nat. rewrite <- Zle_Qle. lia. Qed.

Lemma of_nat_nonneg (a : nat) : 0 <= of_nat a.
Proof. apply (of_nat_le 0 a). lia. Qed.

Lemma of_nat_mult4 (a : nat) : of_nat (4 * a) == 4 * of_nat a.
Proof.
  unfold of_nat. rewrite Nat2Z.inj_mul, inject_Z_mult. reflexivity.
Qed.

Lemma ratio_unit (a b : number) : 0 <= a <= b -> 0 < b -> 0 <= a / b <= 1.
Proof.
  intros [H0 H1] Hb. split.
  - apply Qle_shift_div_l; [exact Hb | lra].
  - apply Qle_shift_div_r; [exact Hb | lra].
Qed.

Lemma clamp_lower (a x : number) :
  a <= 100 -> a <= x -> a <= Math_max 0 (Math_min 100 x).
Proof.
  intros Ha Hx.
  destruct (Math_min_spec 100 x) as [[H1 ->] | [H1 ->]];
    [destruct (Math_max_spec 0 100) as [[H2 ->] | [H2 ->]]
    | destruct (Math_max_spec 0 x) as [[H2 ->] | [H2 ->]]]; lra.
Qed.

Lemma clamp_inside (x : number) :
  0 <= x <= 100 -> Math_max 0 (Math_min 100 x) == x.
Proof.
  intros Hx.
  destruct (Math_min_spec 100 x) as [[H1 H1'] | [H1 H1']]; rewrite H1';
    [destruct (Math_max_spec 0 100) as [[H2 ->] | [H2 ->]]
    | destruct (Math_max_spec 0 x) as [[H2 ->] | [H2 ->]]]; lra.
Qed.

Lemma filter_none {A} (f : A -> bool) (l : list A) :
  (forall x, In x l -> f x = false) -> filter f l = [].
Proof.
  induction l as [| x l IH]; intros H; [reflexivity |].
  cbn. rewrite (H x (or_introl eq_refl)). apply IH. intros y Hy. apply H. now right.
Qed.

(* ================================================================= *)
(** ** Lower case *)

Section LowerCase.


Lemma lower_unit_cases (c : N) :
  lower_unit c = [c] /\ ~ ((65 <= c <= 90)%N \/ (192 <= c <= 222 /\ c <> 215)%N
                           \/ In c [304; 376; 7838; 8490; 8491]%N)
  \/ lower_unit c = [(c + 32)%N] /\ ((65 <= c <= 90)%N \/ (192 <= c <= 222 /\ c <> 215)%N)
  \/ (c = 304%N /\ lower_unit c = [105; 775]%N)
  \/ (c = 376%N /\ lower_unit c = [255]%N)
  \/ (c = 7838%N /\ lower_unit c = [223]%N)
  \/ (c = 8490%N /\ lower_unit c = [107]%N)
  \/ (c = 8491%N /\ lower_unit c = [229]%N).
Proof.
  unfold lower_unit.
  destruct (N.leb_spec 65 c), (N.leb_spec c 90); cbn [andb negb];
    try (right; left; split; [reflexivity | lia]).
  all: destruct (N.leb_spec 192 c), (N.leb_spec c 222), (N.eqb_spec c 215);
    cbn [andb negb]; try (right; left; split; [reflexivity | lia]).
  all: destruct (N.eqb_spec c 304); [subst; tauto |].
  all: destruct (N.eqb_spec c 376); [subst; tauto |].
  all: destruct (N.eqb_spec c 7838); [subst; tauto |].
  all: destruct (N.eqb_spec c 8490); [subst; tauto |].
  all: destruct (N.eqb_spec c 8491); [subst; tauto |].
  all: left; split; [reflexivity |]; cbn [In]; lia.
Qed.

Lemma lower_unit_notCapital (c : N) : Forall notCapital (lower_unit c).
Proof.
  destruct (lower_unit_cases c)
    as [[-> H] | [[-> H] | [[_ ->] | [[_ ->] | [[_ ->] | [[_ ->] | [_ ->]]]]]]];
    repeat (apply Forall_cons; [unfold notCapital |]); try apply Forall_nil; try lia.
Qed.

Lemma toLowerCase_notCapital (s : jsstring) : Forall notCapital (toLowerCase s).
Proof.
  unfold toLowerCase. induction s as [| c s IH]; [constructor |].
  cbn [flat_map]. apply Forall_app. split; [apply lower_unit_notCapital | exact IH].
Qed.


End LowerCase.

(* ================================================================= *)
(** ** The chunk map *)

Section ChunkMap.

Import Utils.


Lemma map_set_keys (P : jsstring -> Prop) (k v : jsstring) (m : StringMap) :
  P k -> keysSatisfy P m -> keysSatisfy P (map_set k v m).
Proof.
  intros Hk. unfold keysSatisfy. induction m as [| [k' v'] m IH]; intros Hm.
  - repeat constructor. exact Hk.
  - cbn [map_set]. inversion Hm; subst.
    destruct (JSString.eqb k' k); constructor; auto.
Qed.

Lemma map_set_lowerKeys (k v : jsstring) (m : StringMap) :
  Forall notCapital k -> lowerKeys m -> lowerKeys (map_set k v m).
Proof. apply map_set_keys. Qed.

Lemma keysSatisfy_impl (P Q : jsstring -> Prop) (m : StringMap) :
  (forall k, P k -> Q k) -> keysSatisfy P m -> keysSatisfy Q m.
Proof. intros H. apply Forall_impl. intros e. apply H. Qed.

Lemma noteText_chunks (t : option jsstring) (st : ChunkState) :
  chunks (noteText t st) = chunks st.
Proof.
  unfold noteText. destruct t as [t |]; [| reflexivity].
  destruct (truthy t); reflexivity.
Qed.

Lemma textChunk_lowerKeys (type : jsstring) (chunkData : Buffer) (st : ChunkState) :
  lowerKeys (chunks st) -> lowerKeys (chunks (textChunk type chunkData st)).
Proof.
  intros H. unfold textChunk.
  destruct (JSString.eqb type (js "iTXt")); [now rewrite noteText_chunks |].
  destruct (JSString.eqb type (js "zTXt")); [now rewrite noteText_chunks |].
  destruct (0 <? indexOf chunkData x00 0)%Z; rewrite noteText_chunks; [| exact H].
  cbn [chunks]. apply map_set_lowerKeys; [apply toLowerCase_notCapital | exact H].
Qed.

(** What the chunk loop can end with: a state whose keys are
    lower-cased, or the range error of a read past the end. *)
Lemma chunkLoop_outcome (fuel : nat) (buffer : Buffer) (offset : N) (st : ChunkState) :
  lowerKeys (chunks st) ->
  match chunkLoop fuel buffer offset st with
  | Some (Normal st') => lowerKeys (chunks st')
  | Some (Throw e) =>
      exists at_, e = ERR_OUT_OF_RANGE at_ /\ (offset + 8 <= at_)%N
                  /\ (byteLength buffer < at_ + 4)%N
  | None => True
  end.
Proof.
  revert offset st. induction fuel as [| fuel IH]; intros offset st H; [exact I |].
  cbn [chunkLoop].
  destruct (N.leb_spec (offset + 8) (byteLength buffer)) as [Hloop | Hloop];
    cbn [negb]; [| exact H].
  unfold readUInt32BE at 1.
  destruct (N.leb_spec (offset + 4) (byteLength buffer)) as [H4 | H4].
  - cbv zeta.
    set (length := beValue (subarray buffer offset (offset + 4))).
    unfold readUInt32BE.
    destruct (N.leb_spec (offset + 8 + length + 4) (byteLength buffer)) as [H8 | H8].
    + set (st1 := if isTextType _ then _ else st).
      assert (H1 : lowerKeys (chunks st1)).
      { subst st1. destruct (isTextType _); [now apply textChunk_lowerKeys | exact H]. }
      destruct (JSString.eqb _ (js "IEND")); [exact H1 |].
      specialize (IH (offset + 12 + length)%N st1 H1).
      destruct (chunkLoop fuel buffer (offset + 12 + length) st1) as [[st' | e] |];
        try exact IH.
      destruct IH as (a & -> & Ha & Hb). exists a. repeat split; [lia | exact Hb].
    + exists (offset + 8 + length)%N. repeat split; lia.
  - lia.
Qed.


Lemma filedKey_not_IHDR (k : jsstring) : filedKey k -> JSString.eqb k (js "IHDR") = false.
Proof.
  intros [-> | H]; [reflexivity |].
  destruct (JSString.eqb k (js "IHDR")) eqn:E; [| reflexivity].
  apply jsstring_eqb_eq in E. subst k.
  inversion H as [| c l Hc _]; subst. unfold notCapital in Hc. lia.
Qed.

(** The outcomes of [parsePNGChunks]. *)
Lemma parsePNGChunks_outcome (buffer : Buffer) :
  match parsePNGChunks buffer with
  | Normal chunks => keysSatisfy filedKey chunks
  | Throw e =>
      equals (subarray buffer 0 8) PNG_SIGNATURE = true
      /\ exists at_, e = ERR_OUT_OF_RANGE at_ /\ (16 <= at_)%N
                     /\ (byteLength buffer < at_ + 4)%N
  end.
Proof.
  unfold parsePNGChunks.
  destruct (equals (subarray buffer 0 8) PNG_SIGNATURE); cbn [negb]; [| constructor].
  pose proof (chunkLoop_outcome (S (List.length buffer)) buffer 8 (mkChunkState [] None))
    as H.
  destruct (chunkLoop _ buffer 8 _) as [[st | e] |].
  - assert (Hk : keysSatisfy filedKey (chunks st)).
    { apply keysSatisfy_impl with (P := Forall notCapital); [now right |].
      apply H. constructor. }
    destruct (textContent st) as [t |]; [| exact Hk].
    destruct (truthy t); [| exact Hk].
    apply map_set_keys; [now left | exact Hk].
  - split; [reflexivity |]. destruct H as (a & -> & Ha & Hb); [constructor |].
    exists a. repeat split; [lia | exact Hb].
  - constructor.
Qed.

Lemma map_has_IHDR (chunks : StringMap) :
  keysSatisfy filedKey chunks -> map_has (js "IHDR") chunks = false.
Proof.
  unfold map_has, keysSatisfy. induction 1 as [| e m He _ IH]; [reflexivity |].
  cbn [existsb]. rewrite (filedKey_not_IHDR _ He). exact IH.
Qed.

End ChunkMap.

(* ================================================================= *)
(** ** PNG files in the two analyzers *)


Section PNGAnalyzers.

Import Utils MetadataAnalyzer ForensicsAnalyzer.

(** X1.  [parsePNGChunks] throws only the range error of a read past
    the end, at offset 16 or later of a buffer that starts with the
    PNG signature; the metadata analysis then returns only the
    analysis-failed finding and the chunk scan of the forensics
    analyzer throws the same error. *)
Theorem png_reader_throws_only_past_the_end (buffer : Buffer) (e : JSError) :
  parsePNGChunks buffer = Throw e ->
  equals (subarray buffer 0 8) PNG_SIGNATURE = true
  /\ (exists at_, e = ERR_OUT_OF_RANGE at_ /\ (16 <= at_)%N
                  /\ (byteLength buffer < at_ + 4)%N)
  /\ analyzeMetadata (NotJPEG buffer) = analysisFailed e
  /\ analyzePNGSpecific buffer = Throw e.
Proof.
  intros H. pose proof (parsePNGChunks_outcome buffer) as Ho. rewrite H in Ho.
  destruct Ho as [Hs Ha]. split; [exact Hs |]. split; [exact Ha |].
  unfold analyzeMetadata, analyzePNG, analyzePNGSpecific. rewrite H. split; reflexivity.
Qed.

Lemma png_reader_throws_only_past_the_end_witness :
  parsePNGChunks truncatedPNG = Throw (ERR_OUT_OF_RANGE 29)
  /\ MetadataAnalysisResult.status (analyzeMetadata (NotJPEG truncatedPNG)) = failed.
Proof.
  assert (H : parsePNGChunks truncatedPNG = Throw (ERR_OUT_OF_RANGE 29)) by reflexivity.
  split; [exact H |].
  destruct (png_reader_throws_only_past_the_end truncatedPNG _ H) as (_ & _ & -> & _).
  reflexivity.
Defined.

Lemma pngChunkFinding_hits (chunks : StringMap) (fs : list Finding.t) :
  exists hits,
    fold_left pngChunkFinding chunks fs = fs ++ hits
    /\ Forall (fun f => Finding.type f = critical /\ Finding.severity f = 90
                        /\ Finding.category f = forensics) hits.
Proof.
  revert fs. induction chunks as [| [keyword content] chunks IH]; intros fs.
  - exists []. split; [now rewrite app_nil_r | constructor].
  - cbn [fold_left]. unfold pngChunkFinding at 2.
    destruct (negb (truthy content)); [apply IH |].
    destruct (find _ aiKeywords) as [aiKeyword |]; [| apply IH].
    match goal with |- context [fold_left _ _ (fs ++ [?f])] => set (hit := f) end.
    destruct (IH (fs ++ [hit])) as (hits & -> & Hh).
    exists (hit :: hits). split; [now rewrite <- app_assoc |].
    constructor; [subst hit; cbn; auto | exact Hh].
Qed.

(** The chunk scan never finds the key "IHDR" in the map. *)
Lemma chunk_scan_reports_missing_IHDR (buffer : Buffer) (fs : list Finding.t) :
  analyzePNGSpecific buffer = Normal fs -> In missingIHDR fs.
Proof.
  unfold analyzePNGSpecific. pose proof (parsePNGChunks_outcome buffer) as Ho.
  destruct (parsePNGChunks buffer) as [chunks | e]; [| discriminate].
  rewrite (map_has_IHDR chunks Ho). cbn [negb]. intros H. injection H as <-.
  apply in_or_app. right. now left.
Qed.

(** X2.  Whenever the chunk scan of the forensics analyzer completes,
    its last finding is the warning that the IHDR chunk is missing:
    the chunk map only has lower-cased keywords and the key "tEXt".
    The findings before it are critical, of severity 90. *)
Theorem png_scan_always_misses_IHDR (buffer : Buffer) (fs : list Finding.t) :
  analyzePNGSpecific buffer = Normal fs ->
  exists hits,
    fs = hits ++ [missingIHDR]
    /\ Forall (fun f => Finding.type f = critical /\ Finding.severity f = 90
                        /\ Finding.category f = forensics) hits.
Proof.
  unfold analyzePNGSpecific. pose proof (parsePNGChunks_outcome buffer) as Ho.
  destruct (parsePNGChunks buffer) as [chunks | e]; [| discriminate].
  rewrite (map_has_IHDR chunks Ho). cbn [negb]. intros H. injection H as <-.
  destruct (pngChunkFinding_hits chunks []) as (hits & -> & Hh).
  exists hits. split; [reflexivity | exact Hh].
Qed.

Lemma png_scan_always_misses_IHDR_witness :
  exists hits,
    analyzePNGSpecific parametersPNG = Normal (hits ++ [missingIHDR])
    /\ List.length hits = 2%nat.
Proof.
  assert (H : analyzePNGSpecific parametersPNG
              = Normal (fold_left pngChunkFinding
                          [(js "parameters", js generationText);
                           (js "tEXt", js generationText)] [] ++ [missingIHDR]))
    by reflexivity.
  destruct (png_scan_always_misses_IHDR parametersPNG _ H) as (hits & E & _).
  apply app_inj_tail in E as [E _].
  exists hits. split; [rewrite H, E; reflexivity |].
  rewrite <- E. reflexivity.
Defined.

(** X3.  The forensics analysis of an image that the decoder reports as
    PNG never has status passed: either the chunk reader throws and
    the whole analysis fails, or the missing-IHDR warning of severity
    50 is among the findings. *)
Theorem png_forensics_is_never_passed
  (d : Decoded.t) (stages : Stages.t) (cameraMake software : option jsstring) :
  isFormat d "png" = true ->
  let r := analyzeForensics (Normal d) stages cameraMake software in
  ForensicsAnalysisResult.status r <> passed
  /\ (In missingIHDR (ForensicsAnalysisResult.findings r)
      \/ exists e, r = forensicsFailed e).
Proof.
  intros Hpng. cbv zeta. unfold analyzeForensics. rewrite Hpng.
  destruct (analyzePNGSpecific (Decoded.buffer d)) as [pngResult | e] eqn:E.
  - pose proof (chunk_scan_reports_missing_IHDR _ _ E) as Hpng'.
    cbn [ForensicsAnalysisResult.status ForensicsAnalysisResult.findings].
    set (fs := _ ++ _).
    assert (Hin : In missingIHDR fs).
    { subst fs. repeat (apply in_or_app; right). exact Hpng'. }
    split; [| now left].
    assert (Hw : In missingIHDR (filter (fun f => ge (Finding.severity f) 50) fs)).
    { apply filter_In. split; [exact Hin | reflexivity]. }
    destruct (Nat.ltb 0 _); [discriminate |].
    destruct (filter (fun f => ge (Finding.severity f) 50) fs); [contradiction |].
    discriminate.
  - split; [discriminate | right; now exists e].
Qed.

Lemma png_forensics_is_never_passed_witness :
  ForensicsAnalysisResult.status
    (analyzeForensics (Normal (pngDecoded parametersPNG)) failingStages None None)
  <> passed.
Proof.
  apply (png_forensics_is_never_passed (pngDecoded parametersPNG) failingStages None None).
  reflexivity.
Defined.

End PNGAnalyzers.

(* ================================================================= *)
(** ** The metadata analyzer: signatures, PNG status, timestamps, GPS *)


Section MetadataInvariants.

Import Utils AiTools MetadataAnalyzer.


Lemma criticalAICount_app (a b : list Finding.t) :
  criticalAICount (a ++ b) = (criticalAICount a + criticalAICount b)%nat.
Proof. unfold criticalAICount. now rewrite filter_app, length_app. Qed.

Lemma pushFinding_other (f : Finding.t) (st : State) :
  isCriticalAI f = false -> paired st -> paired (pushFinding f st).
Proof.
  unfold paired. intros Hf H. cbn [pushFinding findings aiSignatures].
  rewrite criticalAICount_app. unfold criticalAICount at 2. cbn [filter].
  rewrite Hf. cbn [List.length]. lia.
Qed.

Lemma pushBoth (f : Finding.t) (sig : AISignature.t) (st : State) :
  isCriticalAI f = true -> paired st -> paired (pushSignature sig (pushFinding f st)).
Proof.
  unfold paired. intros Hf H. cbn [pushFinding pushSignature findings aiSignatures].
  rewrite criticalAICount_app, length_app. unfold criticalAICount at 2. cbn [filter].
  rewrite Hf. cbn [List.length]. lia.
Qed.

Lemma checkChunk_paired (st : State) (entry : jsstring * jsstring) :
  paired st -> paired (checkChunk st entry).
Proof.
  intros H. unfold checkChunk. destruct entry as [keyword content].
  destruct (find _ PNG_AI_CHUNK_KEYWORDS); [| exact H].
  now apply pushBoth.
Qed.

Lemma checkChunks_paired (chunks : StringMap) (st : State) :
  paired st -> paired (fold_left checkChunk chunks st).
Proof.
  revert st. induction chunks as [| e chunks IH]; intros st H; [exact H |].
  cbn [fold_left]. apply IH. now apply checkChunk_paired.
Qed.

Lemma checkSoftware_paired (software : option jsstring) (st : State) :
  paired st -> paired (checkSoftware software st).
Proof.
  intros H. unfold checkSoftware. destruct software as [software |]; [| exact H].
  destruct (truthy software); [| exact H].
  destruct (Detection.detected (detectAITool software)).
  - assert (H1 : paired (pushFinding
                   (Finding.mk critical 100 ai_signature
                      (js "AI generation software detected: "
                       ++ match Detection.tool (detectAITool software) with
                          | Some t => t
                          | None => js "undefined"
                          end)
                      (Some [Txt (js "Software metadata field contains known AI tool signature")]))
                   (pushSignature
                      (AISignature.mk (Detection.tool (detectAITool software))
                         (Detection.type (detectAITool software)) 95
                         [Txt (js "Software field contains: " ++ [34%N]); Txt software;
                          Txt [34%N]]) st))).
    { unfold paired in *. cbn [pushFinding pushSignature findings aiSignatures].
      rewrite criticalAICount_app, length_app. cbn. lia. }
    destruct (isExportTool software); [| exact H1].
    now apply pushFinding_other.
  - destruct (isExportTool software); [| exact H].
    now apply pushFinding_other.
Qed.

Lemma checkMake_paired (make : option jsstring) (st : State) :
  paired st -> paired (checkMake make st).
Proof.
  intros H. unfold checkMake. destruct (negb _); [| exact H].
  now apply pushFinding_other.
Qed.

Lemma checkGPS_paired (e : Exif.t) (st : State) : paired st -> paired (checkGPS e st).
Proof.
  intros H. unfold checkGPS.
  destruct (Exif.GPSLatitude e), (Exif.GPSLongitude e); try exact H;
    apply pushFinding_other; try reflexivity; exact H.
Qed.

Lemma checkTimestamps_paired (inconsistencies : list Finding.t) (st : State) :
  existsb isCriticalAI inconsistencies = false ->
  paired st -> paired (checkTimestamps inconsistencies st).
Proof.
  intros Hi H. unfold checkTimestamps. destruct inconsistencies as [| f fs]; [exact H |].
  unfold paired in *. cbn [pushFindings findings aiSignatures].
  rewrite criticalAICount_app, H.
  assert (E : criticalAICount (f :: fs) = 0%nat).
  { unfold criticalAICount. generalize dependent (f :: fs). clear.
    induction l as [| x l IH]; [reflexivity |]. cbn [existsb filter].
    intros Hx. apply orb_false_iff in Hx as [Hx Hl]. rewrite Hx. now apply IH. }
  rewrite E. lia.
Qed.

Lemma analyzeJPEG_paired
  (exifObj : Completion Exif.t) (inconsistencies : list Finding.t) :
  existsb isCriticalAI inconsistencies = false ->
  paired (analyzeJPEG exifObj inconsistencies state0).
Proof.
  intros Hi. unfold analyzeJPEG. destruct exifObj as [e | err].
  - apply checkTimestamps_paired; [exact Hi |].
    apply checkGPS_paired, checkMake_paired, checkSoftware_paired. reflexivity.
  - reflexivity.
Qed.

Lemma analyzePNG_paired (buffer : Buffer) (st : State) :
  analyzePNG buffer state0 = Normal st -> paired st.
Proof.
  unfold analyzePNG. destruct (parsePNGChunks buffer) as [chunks | e]; [| discriminate].
  rewrite hasC2PAMetadata_false.
  set (st1 := fold_left checkChunk chunks _).
  assert (H1 : paired st1) by (subst st1; apply checkChunks_paired; reflexivity).
  destruct (negb (hasEXIF st1)); intros H; injection H as <-;
    [now apply pushFinding_other | exact H1].
Qed.

(** X4.  In every result of the metadata analysis that carries a list of
    AI signatures, there are as many signatures as critical
    ai-signature findings (for a JPEG, provided the timestamp
    inconsistencies hold no such finding), and the status is failed
    exactly when the list is not empty.  The only result without a list
    is the analysis-failed one. *)
Theorem signatures_pair_with_critical_findings (image : ImageData) :
  match image with
  | JPEG _ _ inconsistencies => existsb isCriticalAI inconsistencies = false
  | _ => True
  end ->
  let r := analyzeMetadata image in
  match MetadataAnalysisResult.aiSignatures r with
  | Some sigs =>
      List.length sigs = criticalAICount (MetadataAnalysisResult.findings r)
      /\ (MetadataAnalysisResult.status r = failed <-> sigs <> [])
  | None =>
      MetadataAnalysisResult.status r = failed
      /\ criticalAICount (MetadataAnalysisResult.findings r) = 0%nat
  end.
Proof.
  assert (Hfin : forall st, paired st ->
            List.length (aiSignatures st)
            = criticalAICount (MetadataAnalysisResult.findings (finish st))
            /\ (MetadataAnalysisResult.status (finish st) = failed
                <-> aiSignatures st <> [])).
  { intros st Hp. unfold finish.
    cbn [MetadataAnalysisResult.findings MetadataAnalysisResult.status].
    split; [exact Hp |].
    unfold paired, criticalAICount in Hp.
    assert (He : existsb isCriticalAI (findings st) = true <-> aiSignatures st <> []).
    { rewrite existsb_exists. split.
      - intros (f & Hin & Hf) E. rewrite E in Hp. cbn in Hp.
        assert (Hin' : In f (filter isCriticalAI (findings st)))
          by (apply filter_In; now split).
        destruct (filter isCriticalAI (findings st)); [contradiction | discriminate].
      - intros Hne. destruct (filter isCriticalAI (findings st)) as [| f l] eqn:E.
        + destruct (aiSignatures st); [congruence | discriminate].
        + exists f. apply filter_In. rewrite E. now left. }
    destruct (existsb isCriticalAI (findings st)).
    - split; [intros _; now apply He | reflexivity].
    - split; [| intros Hne; apply He in Hne; discriminate].
      destruct (existsb _ (findings st)); discriminate. }
  intros Hi. cbv zeta. unfold analyzeMetadata. destruct image as [| buffer exifObj incs | buffer].
  - split; reflexivity.
  - cbn [finish MetadataAnalysisResult.aiSignatures]. apply Hfin.
    now apply analyzeJPEG_paired.
  - destruct (analyzePNG buffer state0) as [st | e] eqn:E.
    + cbn [finish MetadataAnalysisResult.aiSignatures]. apply Hfin.
      now apply (analyzePNG_paired buffer).
    + split; reflexivity.
Qed.

Lemma signatures_pair_with_critical_findings_witness :
  MetadataAnalysisResult.status (analyzeMetadata (jpegWithSoftware "Screenshot")) = failed.
Proof.
  pose proof (signatures_pair_with_critical_findings (jpegWithSoftware "Screenshot")
                eq_refl) as H.
  cbv zeta in H.
  destruct (MetadataAnalysisResult.aiSignatures
              (analyzeMetadata (jpegWithSoftware "Screenshot"))) as [sigs |] eqn:E.
  - apply H. intros ->. discriminate E.
  - apply H.
Defined.

(** What the loop over the chunk map adds. *)
Lemma checkChunks_adds (chunks : StringMap) (st : State) :
  exists hits,
    findings (fold_left checkChunk chunks st) = findings st ++ hits
    /\ Forall (fun f => isCriticalAI f = true
                        /\ Finding.message f = pngParametersMessage) hits
    /\ hasEXIF (fold_left checkChunk chunks st) = hasEXIF st
    /\ hasGPS (fold_left checkChunk chunks st) = hasGPS st
    /\ cameraInfo (fold_left checkChunk chunks st) = cameraInfo st.
Proof.
  revert st. induction chunks as [| [keyword content] chunks IH]; intros st.
  - exists []. rewrite app_nil_r. repeat split. constructor.
  - cbn [fold_left]. unfold checkChunk at 2 4 6 8.
    destruct (find _ PNG_AI_CHUNK_KEYWORDS) as [aiKeyword |]; [| apply IH].
    match goal with
    | |- context [fold_left checkChunk chunks ?s] =>
        destruct (IH s) as (hits & -> & Hh & -> & -> & ->)
    end.
    cbn [pushFinding pushSignature findings hasEXIF hasGPS cameraInfo].
    eexists (_ :: hits). rewrite <- app_assoc. split; [reflexivity |].
    repeat split. constructor; [split; reflexivity | exact Hh].
Qed.

(** X5.  For an image that is not a JPEG the status of the metadata
    analysis is never "warning": it is failed when a chunk holds an AI
    keyword or the chunk reader throws, and passed otherwise.  No EXIF,
    GPS or camera information is ever reported, and the C2PA finding is
    never raised, because [hasC2PAMetadata] compares a byte with a
    two-byte marker and so answers false on every buffer. *)
Theorem png_metadata_is_passed_or_failed (buffer : Buffer) :
  let r := analyzeMetadata (NotJPEG buffer) in
  hasC2PAMetadata buffer = Normal false
  /\ MetadataAnalysisResult.status r <> warning_status
  /\ (MetadataAnalysisResult.status r = passed ->
      MetadataAnalysisResult.findings r = [pngFormatNote; noExifWarning])
  /\ MetadataAnalysisResult.hasEXIF r = false
  /\ MetadataAnalysisResult.hasGPS r = false
  /\ MetadataAnalysisResult.cameraInfo r = None
  /\ Forall (fun f => Finding.message f <> c2paMessage)
            (MetadataAnalysisResult.findings r).
Proof.
  cbv zeta. split; [apply hasC2PAMetadata_false |].
  unfold analyzeMetadata, analyzePNG. rewrite hasC2PAMetadata_false.
  destruct (parsePNGChunks buffer) as [chunks | e].
  2:{ cbn. repeat split; try discriminate. repeat constructor. discriminate. }
  match goal with
  | |- context [fold_left checkChunk chunks ?s] =>
      destruct (checkChunks_adds chunks s) as (hits & Hf & Hh & He & Hg & Hc);
      set (st1 := fold_left checkChunk chunks s) in *
  end.
  cbn [hasEXIF pushFinding state0] in He. rewrite He. cbn [negb].
  unfold finish.
  cbn [pushFinding findings MetadataAnalysisResult.status MetadataAnalysisResult.findings
       MetadataAnalysisResult.hasEXIF MetadataAnalysisResult.hasGPS
       MetadataAnalysisResult.cameraInfo hasEXIF hasGPS cameraInfo].
  rewrite Hf, He, Hg, Hc. cbn [pushFinding findings state0 app hasGPS cameraInfo].
  destruct hits as [| h hits].
  - cbn. repeat split; try discriminate. repeat constructor; discriminate.
  - inversion Hh as [| ? ? [Hcrit Hmsg] Hrest]; subst.
    cbn [app existsb]. change (isCriticalAI pngFormatNote) with false.
    rewrite Hcrit. cbn [orb].
    repeat split; try discriminate.
    constructor; [discriminate |].
    constructor; [rewrite Hmsg; discriminate |].
    apply Forall_app. split.
    + eapply Forall_impl; [| exact Hrest]. intros f [_ Hm]. rewrite Hm. discriminate.
    + repeat constructor. discriminate.
Qed.

End MetadataInvariants.


Section TimestampFindings.

Import Utils Timestamps.

(** X6.  [analyzeTimestamps] raises at most three findings, all of them
    warnings of the metadata category with severity 25, 40 or 20, so
    none of them is a critical AI signature.  Without a
    DateTimeOriginal that parses it raises none, and when
    DateTimeOriginal and DateTimeDigitized are the same string it does
    not raise the severity-25 inconsistency. *)
Theorem timestamp_findings (clock : Clock.t) (tags : Tags.t) :
  let a := analyzeTimestamps clock tags in
  (List.length (Analysis.inconsistencies a) <= 3)%nat
  /\ Forall (fun f => Finding.type f = warning
                      /\ Finding.category f = metadata
                      /\ In (Finding.severity f) [25; 40; 20])
            (Analysis.inconsistencies a)
  /\ existsb MetadataAnalyzer.isCriticalAI (Analysis.inconsistencies a) = false
  /\ (Analysis.exifDateTimeOriginal a = None -> Analysis.inconsistencies a = [])
  /\ (Tags.DateTimeOriginal tags = Tags.DateTimeDigitized tags ->
      Forall (fun f => Finding.severity f <> 25) (Analysis.inconsistencies a)).
Proof.
  cbv zeta. unfold analyzeTimestamps.
  cbn [Analysis.inconsistencies Analysis.exifDateTimeOriginal].
  destruct (parseEXIFDate (Tags.DateTimeOriginal tags)) as [original |] eqn:Eo.
  2:{ destruct (parseEXIFDate (Tags.DateTimeDigitized tags)),
        (parseGPSTimestamp (Tags.GPSDateStamp tags) (Tags.GPSTimeStamp tags));
        cbn; repeat split; auto. }
  assert (Hsame : Tags.DateTimeOriginal tags = Tags.DateTimeDigitized tags ->
                  match parseEXIFDate (Tags.DateTimeDigitized tags) with
                  | Some digitized => exceeds (absDiff clock original digitized) 60000 = false
                  | None => True
                  end).
  { intros H. rewrite <- H, Eo. unfold absDiff, exceeds.
    destruct (Clock.getTime clock original) as [t |]; [| reflexivity].
    rewrite Z.sub_diag. reflexivity. }
  destruct (parseEXIFDate (Tags.DateTimeDigitized tags)) as [digitized |].
  - destruct (exceeds (absDiff clock original digitized) 60000) eqn:E1;
      destruct (Clock.getTime clock original) as [t |];
      try destruct (Clock.now clock <? t)%Z;
      destruct (parseGPSTimestamp (Tags.GPSDateStamp tags) (Tags.GPSTimeStamp tags))
        as [gps |];
      try destruct (exceeds (absDiff clock gps original) 30000);
      cbn [app List.length existsb];
      (split; [lia |]);
      (split; [repeat constructor; cbn; tauto |]);
      (split; [reflexivity |]);
      (split; [discriminate |]);
      intros H; specialize (Hsame H); try discriminate Hsame;
      repeat constructor; cbn [Finding.severity]; intros Hq; vm_compute in Hq;
      discriminate Hq.
  - destruct (Clock.getTime clock original) as [t |];
      try destruct (Clock.now clock <? t)%Z;
      destruct (parseGPSTimestamp (Tags.GPSDateStamp tags) (Tags.GPSTimeStamp tags))
        as [gps |];
      try destruct (exceeds (absDiff clock gps original) 30000);
      cbn [app List.length existsb];
      (split; [lia |]);
      (split; [repeat constructor; cbn; tauto |]);
      (split; [reflexivity |]);
      (split; [discriminate |]);
      intros _;
      repeat constructor; cbn [Finding.severity]; intros Hq; vm_compute in Hq;
      discriminate Hq.
Qed.

End TimestampFindings.

Section GPSFlag.

Import Utils MetadataAnalyzer.

Lemma checkTimestamps_gps (inconsistencies : list Finding.t) (st : State) :
  hasGPS (checkTimestamps inconsistencies st) = hasGPS st
  /\ gpsInfo (checkTimestamps inconsistencies st) = gpsInfo st.
Proof. unfold checkTimestamps. destruct inconsistencies; split; reflexivity. Qed.

(** X7.  GPS counts as present as soon as both coordinate tags exist,
    whether or not a coordinate can be computed from them: with fewer
    than three rationals the coordinate is undefined, and with a zero
    denominator among the first three it is not a finite number; in
    both cases [hasGPS] is true. *)
Theorem gps_flag_without_coordinates
  (buffer : Buffer) (e : Exif.t) (inconsistencies : list Finding.t)
  (lat lng : list (Z * Z)) :
  Exif.GPSLatitude e = Some lat ->
  Exif.GPSLongitude e = Some lng ->
  let r := analyzeMetadata (JPEG buffer (Normal e) inconsistencies) in
  MetadataAnalysisResult.hasGPS r = true
  /\ exists info,
       MetadataAnalysisResult.gpsInfo r = Some info
       /\ ((List.length lat < 3)%nat -> GPSInfo.latitude info = None)
       /\ ((3 <= List.length lat)%nat -> zeroDenominator lat = true ->
           GPSInfo.latitude info = Some NonFinite)
       /\ ((List.length lng < 3)%nat -> GPSInfo.longitude info = None)
       /\ ((3 <= List.length lng)%nat -> zeroDenominator lng = true ->
           GPSInfo.longitude info = Some NonFinite).
Proof.
  intros Hlat Hlng. cbv zeta. unfold analyzeMetadata, finish, analyzeJPEG.
  cbn [MetadataAnalysisResult.hasGPS MetadataAnalysisResult.gpsInfo].
  match goal with
  | |- context [checkTimestamps inconsistencies ?s] =>
      destruct (checkTimestamps_gps inconsistencies s) as [-> ->]
  end.
  unfold checkGPS. rewrite Hlat, Hlng. cbn [hasGPS gpsInfo].
  split; [reflexivity |]. eexists. split; [reflexivity |].
  cbn [GPSInfo.latitude GPSInfo.longitude].
  assert (Hshort : forall (dms : list (Z * Z)) ref,
            (List.length dms < 3)%nat -> convertDMSToDecimal (Some dms) ref = None).
  { intros [| d [| m [| s rest]]] ref H; try reflexivity. cbn in H. lia. }
  assert (Hzero : forall (dms : list (Z * Z)) ref,
            (3 <= List.length dms)%nat -> zeroDenominator dms = true ->
            convertDMSToDecimal (Some dms) ref = Some NonFinite).
  { intros [| d [| m [| s rest]]] ref H Hz; try (cbn in H; lia).
    unfold zeroDenominator in Hz. cbn [firstn existsb] in Hz.
    unfold convertDMSToDecimal, divide.
    destruct (snd d =? 0)%Z; [reflexivity |].
    destruct (snd m =? 0)%Z; [reflexivity |].
    destruct (snd s =? 0)%Z; [reflexivity | discriminate Hz]. }
  repeat split; auto.
Qed.

Lemma gps_flag_without_coordinates_witness :
  let r := analyzeMetadata (JPEG [] (Normal exifWithEmptyGPS) []) in
  MetadataAnalysisResult.hasGPS r = true
  /\ exists info,
       MetadataAnalysisResult.gpsInfo r = Some info /\ GPSInfo.latitude info = None.
Proof.
  cbv zeta.
  destruct (gps_flag_without_coordinates [] exifWithEmptyGPS [] [] [] eq_refl eq_refl)
    as (H & info & Hinfo & Hlat & _).
  split; [exact H |]. exists info. split; [exact Hinfo |]. apply Hlat. cbn. lia.
Defined.

End GPSFlag.

Section JpegStatus.

Import Utils MetadataAnalyzer AiTools.

Lemma export_tool_has_a_category (software : jsstring) :
  isExportTool software = true -> Detection.detected (detectAITool software) = true.
Proof.
  unfold isExportTool, detectAITool.
  destruct (truthy software); cbn [negb]; [| discriminate].
  cbv zeta. generalize (toLowerCase software). intros lowerSoftware H.
  unfold AI_TOOLS_SIGNATURES. cbn [scanCategories].
  change (existsb (fun tool => includes lowerSoftware tool) EXPORT_TOOLS)
    with (matchesAny lowerSoftware EXPORT_TOOLS) in H.
  rewrite H.
  repeat match goal with
         | |- context [if matchesAny ?a ?b then _ else _] => destruct (matchesAny a b)
         end; reflexivity.
Qed.

(** The findings of the software block. *)
Lemma checkSoftware_findings (software : option jsstring) (st : State) :
  exists added,
    findings (checkSoftware software st) = findings st ++ added
    /\ existsb isCriticalAI added
       = match software with
         | Some s => Detection.detected (detectAITool s)
         | None => false
         end
    /\ reachesWarning added
       = match software with
         | Some s => Detection.detected (detectAITool s)
         | None => false
         end.
Proof.
  unfold checkSoftware. destruct software as [software |].
  2:{ exists []. rewrite app_nil_r. repeat split. }
  destruct (truthy software) eqn:Et.
  2:{ exists []. rewrite app_nil_r. destruct software; [| discriminate Et]. repeat split. }
  cbv zeta. destruct (Detection.detected (detectAITool software)) eqn:Ed.
  - destruct (isExportTool software); cbn [pushFinding pushSignature findings];
      rewrite <- ?app_assoc; eexists; (split; [reflexivity |]); split; reflexivity.
  - destruct (isExportTool software) eqn:Ee.
    + apply export_tool_has_a_category in Ee. congruence.
    + exists []. rewrite app_nil_r. repeat split.
Qed.

(** X25.  The status of the metadata analysis of a JPEG.  When the EXIF
    block cannot be read the status is passed.  Otherwise it is failed
    exactly when the Software tag names a tool that [detectAITool]
    knows, and passed exactly when it names none, a camera make is
    present and no timestamp inconsistency has a severity of 40 or
    more: missing GPS data (severity 30) never changes the status, and
    the export-tool warning is only ever raised next to the critical
    finding.  (The timestamp inconsistencies hold no critical
    ai-signature finding, as [analyzeTimestamps] guarantees.) *)
Theorem jpeg_metadata_status
  (buffer : Buffer) (e : Exif.t) (exifError : JSError) (inconsistencies : list Finding.t) :
  existsb isCriticalAI inconsistencies = false ->
  let r := analyzeMetadata (JPEG buffer (Normal e) inconsistencies) in
  MetadataAnalysisResult.status (analyzeMetadata (JPEG buffer (Throw exifError) inconsistencies))
  = passed
  /\ (MetadataAnalysisResult.status r = failed <-> softwareDetected e = true)
  /\ (MetadataAnalysisResult.status r = passed <->
      softwareDetected e = false /\ truthy_opt (Exif.Make e) = true
      /\ reachesWarning inconsistencies = false).
Proof.
  intros Hinc. cbv zeta. split; [reflexivity |].
  unfold analyzeMetadata, finish, analyzeJPEG. cbn [MetadataAnalysisResult.status].
  set (st0 := mkState _ _ _ _ _ _ _).
  destruct (checkSoftware_findings (Exif.Software e) st0) as (added & Hsw & Hcrit & Hwarn).
  fold (softwareDetected e) in Hcrit, Hwarn.
  set (st1 := checkSoftware (Exif.Software e) st0) in *.
  assert (Hfs : exists middle,
            findings (checkTimestamps inconsistencies (checkGPS e (checkMake (Exif.Make e) st1)))
            = added ++ middle ++ inconsistencies
            /\ existsb isCriticalAI middle = false
            /\ reachesWarning middle = negb (truthy_opt (Exif.Make e))).
  { change (findings st0) with (@nil Finding.t) in Hsw. cbn [app] in Hsw.
    exists (findings (checkMake (Exif.Make e) state0) ++ findings (checkGPS e state0)).
    unfold checkTimestamps, checkGPS, checkMake.
    destruct (truthy_opt (Exif.Make e)); cbn [negb];
      destruct (Exif.GPSLatitude e), (Exif.GPSLongitude e);
      destruct inconsistencies as [| i0 rest];
      cbn [pushFinding pushFindings findings state0 app]; rewrite Hsw;
      rewrite <- ?app_assoc; rewrite ?app_nil_r;
      (split; [reflexivity | split; reflexivity]). }
  destruct Hfs as (middle & -> & Hmc & Hmw).
  fold (reachesWarning (added ++ middle ++ inconsistencies)).
  unfold reachesWarning in *. rewrite !existsb_app, Hcrit, Hwarn, Hmc, Hmw, Hinc.
  destruct (softwareDetected e), (truthy_opt (Exif.Make e)),
    (existsb (fun f => ge (Finding.severity f) 40) inconsistencies); cbn [negb orb];
    (split; [split; intros H; try discriminate H; reflexivity |]);
    (split; [intros H; try discriminate H; repeat split
            | intros (H1 & H2 & H3);
              try discriminate H1; try discriminate H2; try discriminate H3; reflexivity]).
Qed.

Lemma jpeg_metadata_status_witness :
  MetadataAnalysisResult.status (analyzeMetadata (jpegWithSoftware "")) = passed.
Proof.
  apply (jpeg_metadata_status [] (exifWithSoftware "") (Error []) [] eq_refl).
  repeat split.
Defined.

End JpegStatus.

(* ================================================================= *)
(** ** The look-ups of constants/ai-tools.ts *)

Section Lookups.

Import Utils AiTools.
Local Open Scope N_scope.

Lemma lower_unit_idempotent (c : N) :
  flat_map lower_unit (lower_unit c) = lower_unit c.
Proof.
  unfold lower_unit.
  destruct ((65 <=? c) && (c <=? 90)) eqn:E1.
  { apply andb_true_iff in E1. destruct E1 as [H1 H2].
    apply N.leb_le in H1, H2. cbn [flat_map]. rewrite app_nil_r.
    replace (65 <=? c + 32) with true by (symmetry; apply N.leb_le; lia).
    replace (c + 32 <=? 90) with false by (symmetry; apply N.leb_gt; lia).
    replace (192 <=? c + 32) with false by (symmetry; apply N.leb_gt; lia).
    replace (c + 32 =? 304) with false by (symmetry; apply N.eqb_neq; lia).
    replace (c + 32 =? 376) with false by (symmetry; apply N.eqb_neq; lia).
    replace (c + 32 =? 7838) with false by (symmetry; apply N.eqb_neq; lia).
    replace (c + 32 =? 8490) with false by (symmetry; apply N.eqb_neq; lia).
    replace (c + 32 =? 8491) with false by (symmetry; apply N.eqb_neq; lia).
    reflexivity. }
  destruct ((192 <=? c) && (c <=? 222) && negb (c =? 215)) eqn:E2.
  { apply andb_true_iff in E2. destruct E2 as [E2 _].
    apply andb_true_iff in E2. destruct E2 as [H1 H2].
    apply N.leb_le in H1, H2. cbn [flat_map]. rewrite app_nil_r.
    replace (65 <=? c + 32) with true by (symmetry; apply N.leb_le; lia).
    replace (c + 32 <=? 90) with false by (symmetry; apply N.leb_gt; lia).
    replace (192 <=? c + 32) with true by (symmetry; apply N.leb_le; lia).
    replace (c + 32 <=? 222) with false by (symmetry; apply N.leb_gt; lia).
    replace (c + 32 =? 304) with false by (symmetry; apply N.eqb_neq; lia).
    replace (c + 32 =? 376) with false by (symmetry; apply N.eqb_neq; lia).
    replace (c + 32 =? 7838) with false by (symmetry; apply N.eqb_neq; lia).
    replace (c + 32 =? 8490) with false by (symmetry; apply N.eqb_neq; lia).
    replace (c + 32 =? 8491) with false by (symmetry; apply N.eqb_neq; lia).
    reflexivity. }
  destruct (c =? 304) eqn:E3; [reflexivity |].
  destruct (c =? 376) eqn:E4; [reflexivity |].
  destruct (c =? 7838) eqn:E5; [reflexivity |].
  destruct (c =? 8490) eqn:E6; [reflexivity |].
  destruct (c =? 8491) eqn:E7; [reflexivity |].
  cbn [flat_map]. rewrite app_nil_r. unfold lower_unit.
  rewrite E1, E2, E3, E4, E5, E6, E7. reflexivity.
Qed.

Lemma toLowerCase_idempotent (s : jsstring) :
  toLowerCase (toLowerCase s) = toLowerCase s.
Proof.
  unfold toLowerCase. induction s as [| c s IH]; [reflexivity |].
  cbn [flat_map]. rewrite flat_map_app, IH, lower_unit_idempotent. reflexivity.
Qed.

Lemma lower_unit_nonempty (c : N) : lower_unit c <> [].
Proof.
  unfold lower_unit.
  repeat match goal with |- context [if ?b then _ else _] => destruct b end;
    discriminate.
Qed.

Lemma truthy_toLowerCase (s : jsstring) : truthy (toLowerCase s) = truthy s.
Proof.
  destruct s as [| c s]; [reflexivity |].
  unfold toLowerCase. cbn [flat_map truthy].
  destruct (lower_unit c) eqn:E; [now apply lower_unit_nonempty in E | reflexivity].
Qed.

(** X8.  The look-ups of constants/ai-tools.ts do not depend on letter
    case: a string and its lower-case form get the same detection
    flag, tool type and confidence from [detectAITool], the same
    answer from [isExportTool] and from [isKnownCameraMake], and the
    same markers and confidence from [containsAIMarkers]. *)
Theorem detection_ignores_letter_case (software : jsstring) :
  let folded := detectAITool (toLowerCase software) in
  let plain := detectAITool software in
  Detection.detected folded = Detection.detected plain
  /\ Detection.type folded = Detection.type plain
  /\ Detection.confidence folded = Detection.confidence plain
  /\ isExportTool (toLowerCase software) = isExportTool software
  /\ Markers.isKnownCameraMake (toLowerCase software) = Markers.isKnownCameraMake software
  /\ Markers.containsAIMarkers (toLowerCase software) = Markers.containsAIMarkers software.
Proof.
  cbv zeta.
  unfold detectAITool, isExportTool, Markers.isKnownCameraMake, Markers.containsAIMarkers.
  rewrite truthy_toLowerCase, toLowerCase_idempotent.
  destruct (truthy software); cbn [negb]; [| repeat split].
  unfold AI_TOOLS_SIGNATURES. cbn [scanCategories].
  repeat match goal with |- context [matchesAny ?a ?b] => destruct (matchesAny a b) end;
    repeat split.
Qed.

(** X9.  Every string that [isExportTool] accepts is also detected by
    [detectAITool], which returns the string itself as the tool.  The
    type and confidence are those of the first category with a match,
    which is the export category or one listed before it: diffusion
    or generative (95), editing (40) or export tools (30), never the
    AI markers. *)
Theorem export_tools_are_detected (software : jsstring) :
  isExportTool software = true ->
  let d := detectAITool software in
  Detection.detected d = true
  /\ Detection.tool d = Some software
  /\ In (Detection.type d, Detection.confidence d)
        [(Some (js "diffusion"), Some 95%Q); (Some (js "generative"), Some 95%Q);
         (Some (js "editing"), Some 40%Q); (Some (js "export tools"), Some 30%Q)].
Proof.
  unfold isExportTool, detectAITool.
  destruct (truthy software); cbn [negb]; [| discriminate].
  cbv zeta. generalize (toLowerCase software). intros lowerSoftware H.
  unfold AI_TOOLS_SIGNATURES. cbn [scanCategories].
  change (existsb (fun tool => includes lowerSoftware tool) EXPORT_TOOLS)
    with (matchesAny lowerSoftware EXPORT_TOOLS) in H.
  rewrite H.
  repeat match goal with |- context [if matchesAny ?a ?b then _ else _] => destruct (matchesAny a b) end;
    (split; [reflexivity | split; [reflexivity | cbn; tauto]]).
Qed.

Lemma export_tools_are_detected_witness :
  let d := detectAITool (js "Stable Diffusion Screenshot") in
  isExportTool (js "Stable Diffusion Screenshot") = true
  /\ Detection.detected d = true
  /\ Detection.type d = Some (js "diffusion").
Proof.
  cbv zeta. split; [reflexivity |].
  destruct (export_tools_are_detected (js "Stable Diffusion Screenshot") eq_refl) as (H1 & _ & _).
  split; [exact H1 | reflexivity].
Defined.

End Lookups.

Section MarkerScan.

Import Utils AiTools Markers.

Lemma addMarker_invariant (lowerText : jsstring) (P : jsstring -> Prop)
  (candidates foundMarkers : list jsstring) :
  Forall P foundMarkers ->
  (forall m, In m candidates -> includes lowerText (toLowerCase m) = true -> P m) ->
  Forall P (fold_left (addMarker lowerText) candidates foundMarkers).
Proof.
  revert foundMarkers. induction candidates as [| c candidates IH]; intros foundMarkers Hf Hc.
  - exact Hf.
  - cbn [fold_left]. apply IH.
    + unfold addMarker. destruct (includes lowerText (toLowerCase c)) eqn:E; [| exact Hf].
      destruct (negb _); [| exact Hf].
      apply Forall_app. split; [exact Hf |]. constructor; [| constructor].
      apply Hc; [now left | exact E].
    + intros m Hm. apply Hc. now right.
Qed.


(** X10.  [containsAIMarkers]: every marker it lists is a keyword of one
    of the two tables and occurs in the text when letter case is
    ignored.  Without a marker the confidence is 0; with at least one
    it lies between 65 and 100, and from four markers on it is 100. *)
Theorem markers_and_confidence (text : jsstring) :
  let r := containsAIMarkers text in
  Forall (fun m => In m (PNG_AI_CHUNK_KEYWORDS ++ AI_MARKERS)
                   /\ includes (toLowerCase text) (toLowerCase m) = true)
         (Found.markers r)
  /\ (Found.found r = false <-> Found.markers r = [])
  /\ (Found.found r = false -> Found.confidence r = 0)
  /\ (Found.found r = true -> 65 <= Found.confidence r <= 100)
  /\ ((4 <= List.length (Found.markers r))%nat -> Found.confidence r = 100).
Proof.
  cbv zeta. unfold containsAIMarkers.
  destruct (truthy text); cbn [negb].
  2:{ cbn. repeat split; try constructor; try discriminate; try lia; auto. }
  cbn [Found.markers Found.found Found.confidence].
  set (lowerText := toLowerCase text).
  set (foundMarkers := fold_left (addMarker lowerText) AI_MARKERS _).
  split.
  { apply addMarker_invariant.
    - apply Forall_forall. intros m Hm. apply filter_In in Hm as [Hin Hinc].
      split; [apply in_or_app; now left | exact Hinc].
    - intros m Hm Hinc. split; [apply in_or_app; now right | exact Hinc]. }
  generalize foundMarkers. clear foundMarkers. intros foundMarkers.
  destruct foundMarkers as [| m1 rest].
  { cbn. repeat split; try discriminate; try lia; auto. }
  change (Nat.ltb 0 (List.length (m1 :: rest))) with true. cbv iota.
  set (n := List.length (m1 :: rest)).
  assert (Hn : 1 <= of_nat n).
  { apply (of_nat_le 1 n). unfold n. cbn. lia. }
  set (high := existsb _ (m1 :: rest)).
  split; [split; discriminate |]. split; [discriminate |].
  assert (Hbase : 65 <= Math_min 100 (50 + of_nat n * 15) <= 100).
  { destruct (Math_min_spec 100 (50 + of_nat n * 15)) as [[H1 ->] | [H1 ->]]; lra. }
  split.
  - intros _. destruct high; [| exact Hbase].
    destruct (Math_min_spec 100 (Math_min 100 (50 + of_nat n * 15) + 20))
      as [[H1 ->] | [H1 ->]]; lra.
  - intros H4.
    assert (Hn4 : 4 <= of_nat n) by (apply (of_nat_le 4 n); exact H4).
    assert (Hmin : Math_min 100 (50 + of_nat n * 15) = 100).
    { unfold Math_min.
      replace (Qle_bool 100 (50 + of_nat n * 15)) with true; [reflexivity |].
      symmetry. apply Qle_bool_iff. lra. }
    rewrite Hmin. destruct high; reflexivity.
Qed.

End MarkerScan.

(* ================================================================= *)
(** ** The forensic sub-analyses and their combination *)


Section Frequency.

Import Utils FrequencyBody.

(** Among the first [m] indices at most every fourth one is counted. *)
Lemma every_fourth (f : nat -> bool) (m : nat) :
  (forall i, f i = true -> i mod 4 = 0)%nat ->
  (List.length (filter f (seq 0 m)) <= (m + 3) / 4)%nat.
Proof.
  intros Hf. induction m as [| m IH]; [apply Nat.le_0_l |].
  rewrite seq_S, filter_app, length_app. change (0 + m)%nat with m. cbn [filter].
  assert (Hstep : ((m + 3) / 4 <= (S m + 3) / 4)%nat)
    by (apply Nat.Div0.div_le_mono; lia).
  destruct (f m) eqn:E; cbn [List.length]; [| lia].
  apply Hf in E.
  assert (Hm : (m = 4 * (m / 4))%nat).
  { pose proof (Nat.div_mod_eq m 4). lia. }
  assert (H1 : ((m + 3) / 4 = m / 4)%nat).
  { rewrite Hm at 1. replace (4 * (m / 4) + 3)%nat with (3 + (m / 4) * 4)%nat by lia.
    rewrite Nat.div_add by lia. reflexivity. }
  assert (H2 : ((S m + 3) / 4 = S (m / 4))%nat).
  { rewrite Hm at 1. replace (S (4 * (m / 4)) + 3)%nat with (0 + (S (m / 4)) * 4)%nat by lia.
    rewrite Nat.div_add by lia. reflexivity. }
  lia.
Qed.


(** The loop counts fewer than a quarter of the blocks. *)
Lemma patternRepetitions_quarter (blockScores : list number) :
  (4 * patternRepetitions blockScores <= List.length blockScores)%nat.
Proof.
  unfold patternRepetitions. set (n := List.length blockScores).
  set (f := fun i : nat => _).
  destruct (Nat.le_gt_cases n 4) as [Hn | Hn].
  - rewrite filter_none; [cbn; lia |].
    intros i _. unfold f.
    replace (Nat.ltb (i + 4) n) with false by (symmetry; apply Nat.ltb_ge; lia).
    now rewrite andb_false_r.
  - replace (n - 1)%nat with ((n - 4) + 3)%nat by lia.
    rewrite seq_app, filter_app, length_app.
    rewrite (filter_none f (seq (0 + (n - 4)) 3)).
    + cbn [List.length]. rewrite Nat.add_0_r.
      assert (H := every_fourth f (n - 4)).
      assert (Hf : (forall i, f i = true -> i mod 4 = 0)%nat).
      { intros i Hi. unfold f in Hi.
        apply andb_true_iff in Hi. destruct Hi as [Hi _].
        apply andb_true_iff in Hi. destruct Hi as [Hi _].
        now apply Nat.eqb_eq in Hi. }
      specialize (H Hf).
      pose proof (Nat.div_mod_eq (n - 4 + 3) 4). 
      pose proof (Nat.mod_upper_bound (n - 4 + 3) 4). lia.
    + intros i Hi. apply in_seq in Hi. unfold f.
      replace (Nat.ltb (i + 4) n) with false by (symmetry; apply Nat.ltb_ge; lia).
      now rewrite andb_false_r.
Qed.


Lemma periodic_branch_is_dead (blockScores : list number) :
  gt (of_nat (patternRepetitions blockScores))
     (of_nat (List.length blockScores) * (3 # 10)) = false.
Proof.
  apply gt_false_iff.
  assert (H := of_nat_le _ _ (patternRepetitions_quarter blockScores)).
  rewrite of_nat_mult4 in H.
  assert (H0 : 0 <= of_nat (patternRepetitions blockScores)).
  { unfold of_nat. change 0 with (inject_Z 0). rewrite <- Zle_Qle. lia. }
  revert H H0. generalize (of_nat (patternRepetitions blockScores)).
  generalize (of_nat (List.length blockScores)). intros n r H H0. lra.
Qed.

(** X11.  What [analyzeFrequencyDomain] decides from the statistics of
    its block loop (961 block means and two sums of absolute
    gradients).  The anomaly type "periodic_patterns" is never
    reported: the loop counts at most a quarter of the blocks, while
    the test asks for more than three tenths of them.  Every anomaly
    type other than "none" comes with [hasAnomalies], a flagged result
    has a severity above 40 and at most 80, and an unflagged one has
    severity 0.  The statement is made for what the block loop can
    produce, a non-empty list of block means and sums that are not
    negative, where none of the divisions is by zero. *)
Theorem frequency_decision (s : Stats.t) :
  Stats.blockScores s <> [] ->
  0 <= Stats.hGradSum s ->
  0 <= Stats.vGradSum s ->
  let r := analyze (Normal s) in
  FrequencyAnalysis.anomalyType r <> js "periodic_patterns"
  /\ (FrequencyAnalysis.anomalyType r <> js "none" ->
      FrequencyAnalysis.hasAnomalies r = true)
  /\ (FrequencyAnalysis.hasAnomalies r = true ->
      40 < FrequencyAnalysis.severity r <= 80)
  /\ (FrequencyAnalysis.hasAnomalies r = false ->
      FrequencyAnalysis.severity r = 0).
Proof.
  intros _ _ _. cbv zeta.
  unfold analyze, ForensicsAnalyzer.analyzeFrequencyDomain, ForensicsAnalyzer.guarded, decide.
  cbn [FrequencyAnalysis.anomalyType FrequencyAnalysis.hasAnomalies FrequencyAnalysis.severity].
  rewrite periodic_branch_is_dead.
  set (g := gridArtifactScore (Stats.blockScores s)).
  set (b := gradientBalance s).
  split; [| split; [| split]].
  - destruct (gt g 50); [intros H; vm_compute in H; discriminate H |].
    destruct (gt b (35 # 100)); intros H; vm_compute in H; discriminate H.
  - destruct (gt g 50) eqn:E1.
    + intros _. apply gt_iff in E1. apply orb_true_iff. left. apply gt_iff. lra.
    + destruct (gt b (35 # 100)) eqn:E2; [| intros H; now elim H].
      intros _. apply gt_iff in E2. apply orb_true_iff. right. apply gt_iff. lra.
  - intros H. rewrite H. apply orb_true_iff in H.
    destruct (Math_min_spec 80 (Math_max g (b * 100 + 20))) as [[H1 ->] | [H1 ->]]; [lra |].
    destruct (Math_max_spec g (b * 100 + 20)) as [[H2 H3] | [H2 H3]]; rewrite H3 in *;
      destruct H as [H | H]; apply gt_iff in H; lra.
  - intros H. now rewrite H.
Qed.

Lemma frequency_decision_witness :
  FrequencyAnalysis.hasAnomalies (analyze (Normal gradientStats)) = true
  /\ FrequencyAnalysis.anomalyType (analyze (Normal gradientStats))
     <> js "periodic_patterns".
Proof.
  assert (H1 : Stats.blockScores gradientStats <> []) by discriminate.
  assert (H2 : 0 <= Stats.hGradSum gradientStats) by (vm_compute; discriminate).
  assert (H3 : 0 <= Stats.vGradSum gradientStats) by (vm_compute; discriminate).
  split; [reflexivity |].
  exact (proj1 (frequency_decision gradientStats H1 H2 H3)).
Defined.

End Frequency.


Section Texture.

Import Utils TextureBody.

Lemma scanBins_bounds (hist : list nat) (idx : list nat) (b : Bins) :
  let r := fold_left (binStep hist) idx b in
  let total := list_sum (List.map (fun i => nth i hist 0%nat) idx) in
  (nonEmptyBins r <= nonEmptyBins b + List.length idx
   /\ maxBinValue r <= Nat.max (maxBinValue b) total
   /\ uniformPatterns r <= uniformPatterns b + total)%nat.
Proof.
  cbv zeta. revert b. induction idx as [| i idx IH]; intros b.
  - cbn. lia.
  - cbn [fold_left List.map list_sum List.length].
    assert (Hb : (nonEmptyBins (binStep hist b i) <= S (nonEmptyBins b)
                  /\ maxBinValue (binStep hist b i)
                     <= Nat.max (maxBinValue b) (nth i hist 0%nat)
                  /\ uniformPatterns (binStep hist b i)
                     <= uniformPatterns b + nth i hist 0%nat)%nat).
    { unfold binStep. destruct (Nat.ltb 0 (nth i hist 0%nat)); [| lia].
      cbn [nonEmptyBins maxBinValue uniformPatterns]. destruct (isUniform i); lia. }
    specialize (IH (binStep hist b i)).
    revert IH Hb. generalize (fold_left (binStep hist) idx (binStep hist b i)).
    generalize (binStep hist b i). intros b1 b2. unfold list_sum. cbn [fold_right]. lia.
Qed.

Lemma map_nth_seq (hist : list nat) :
  List.map (fun i => nth i hist 0%nat) (seq 0 (List.length hist)) = hist.
Proof.
  apply nth_ext with (d := 0%nat) (d' := 0%nat).
  - now rewrite length_map, length_seq.
  - intros n Hn. rewrite length_map, length_seq in Hn.
    rewrite (nth_indep _ 0%nat (nth 0%nat hist 0%nat)) by now rewrite length_map, length_seq.
    rewrite (map_nth (fun i => nth i hist 0%nat)). now rewrite seq_nth.
Qed.

Lemma histogram_bounds (hist : list nat) :
  List.length hist = 256%nat ->
  list_sum hist = totalSamples ->
  (nonEmptyBins (scanBins hist) <= 256
   /\ maxBinValue (scanBins hist) <= totalSamples
   /\ uniformPatterns (scanBins hist) <= totalSamples)%nat.
Proof.
  intros Hlen Hsum. unfold scanBins.
  pose proof (scanBins_bounds hist (seq 0 (List.length hist)) (mkBins 0 0 0)) as H.
  cbv zeta in H. rewrite map_nth_seq, length_seq, Hsum in H. rewrite Hlen in H.
  cbn [nonEmptyBins maxBinValue uniformPatterns] in H. lia.
Qed.


Lemma repetition_threshold (n : nat) :
  gt (of_nat n / maxPossibleRepetitions) (4 # 10) = Nat.leb 205 n.
Proof.
  unfold maxPossibleRepetitions.
  destruct (Nat.leb 205 n) eqn:E.
  - apply Nat.leb_le in E. apply gt_iff.
    apply Qlt_shift_div_l; [reflexivity |].
    apply Qlt_le_trans with (of_nat 205); [reflexivity | now apply of_nat_le].
  - apply Nat.leb_gt in E. apply gt_false_iff.
    apply Qle_shift_div_r; [reflexivity |].
    apply Qle_trans with (of_nat 204); [apply of_nat_le; lia | vm_compute; discriminate].
Qed.

(** X12.  What [analyzeTexturePatterns] decides from the histogram of
    local binary patterns (256 bins filled by the 254 x 254 inner
    pixels) and the count of repeating windows.  The naturalness lies
    between 0 and 100, the richness between 0 and 1, the micro-pattern
    score between 0 and 100; the severity is 0, 50, 60, 70 or 75, and
    0 exactly when the texture is not called artificial.  The finding
    raised for an artificial texture is critical only through
    repetition, when at least 205 window pairs repeat: a low
    naturalness alone gives severity 70, which stays a warning. *)
Theorem texture_decision (s : Stats.t) :
  List.length (Stats.lbpHistogram s) = 256%nat ->
  list_sum (Stats.lbpHistogram s) = totalSamples ->
  let r := analyze (Normal s) in
  0 <= TextureAnalysis.naturalness r <= 100
  /\ 0 <= TextureAnalysis.textureRichness r <= 1
  /\ 0 <= TextureAnalysis.microPatternScore r <= 100
  /\ In (TextureAnalysis.severity r) [0; 50; 60; 70; 75]
  /\ (TextureAnalysis.isArtificial r = false <-> TextureAnalysis.severity r = 0)
  /\ existsb (fun f => FindingType_eqb (Finding.type f) critical)
             (ForensicsAnalyzer.textureFindings r)
     = Nat.leb 205 (Stats.repetitionScore s).
Proof.
  intros Hlen Hsum. cbv zeta.
  destruct (histogram_bounds _ Hlen Hsum) as (Hn & Hm & Hu).
  unfold analyze, ForensicsAnalyzer.analyzeTexturePatterns, ForensicsAnalyzer.guarded, decide.
  unfold ForensicsAnalyzer.textureFindings.
  cbn [TextureAnalysis.naturalness TextureAnalysis.textureRichness
       TextureAnalysis.microPatternScore TextureAnalysis.severity
       TextureAnalysis.isArtificial].
  assert (Hr : 0 <= textureRichness (Stats.lbpHistogram s) <= 1).
  { unfold textureRichness. apply ratio_unit; [| reflexivity].
    split; [apply of_nat_nonneg | apply (of_nat_le _ 256 Hn)]. }
  assert (Hd : 0 <= dominance (Stats.lbpHistogram s) <= 1).
  { unfold dominance. apply ratio_unit; [| reflexivity].
    split; [apply of_nat_nonneg | now apply of_nat_le]. }
  assert (Hq : 0 <= uniformRatio (Stats.lbpHistogram s) <= 1).
  { unfold uniformRatio. apply ratio_unit; [| reflexivity].
    split; [apply of_nat_nonneg | now apply of_nat_le]. }
  unfold normalizedRepetition. rewrite repetition_threshold.
  set (rep := gt (of_nat (Stats.repetitionScore s) / maxPossibleRepetitions) (3 # 10)).
  assert (Hrep : Nat.leb 205 (Stats.repetitionScore s) = true -> rep = true).
  { intros H. rewrite <- repetition_threshold in H. apply gt_iff in H.
    apply gt_iff. lra. }
  unfold naturalness.
  revert Hr Hd Hq.
  generalize (textureRichness (Stats.lbpHistogram s)) (dominance (Stats.lbpHistogram s))
             (uniformRatio (Stats.lbpHistogram s)).
  intros t d u Hr Hd Hq.
  split; [lra |]. split; [exact Hr |]. split; [lra |].
  destruct (Nat.leb 205 (Stats.repetitionScore s)) eqn:E.
  - rewrite (Hrep eq_refl), orb_true_r. cbn [orb].
    split; [cbn; tauto |]. split; [split; discriminate |]. reflexivity.
  - clear Hrep.
    destruct (lt ((t * (3 # 10) + u * (4 # 10) + (1 - d) * (3 # 10)) * 100) 40 || rep
              || gt d (15 # 100)).
    + destruct (lt ((t * (3 # 10) + u * (4 # 10) + (1 - d) * (3 # 10)) * 100) 30);
        [| destruct (gt d (2 # 10))];
        (split; [cbn; tauto |]); (split; [split; discriminate |]); reflexivity.
    + split; [cbn; tauto |]. split; [split; reflexivity |]. reflexivity.
Qed.

Lemma texture_decision_witness :
  0 <= TextureAnalysis.naturalness (analyze (Normal flatStats)) <= 100
  /\ TextureAnalysis.severity (analyze (Normal flatStats)) = 75.
Proof.
  destruct (texture_decision flatStats eq_refl eq_refl) as (H & _).
  split; [exact H | reflexivity].
Defined.

End Texture.

Section Artifacts.

Import Utils ArtifactBody.

(** X13.  What [detectAIArtifacts] decides from the measurements of its
    pixel loops.  The GAN score is 0 or 30 and the diffusion score at
    most 80; the severity is 0, 40, 55, 70 or 85, and 0 exactly when no
    rule fired.  The finding is critical (severity above 75) only when
    at least three of the five rules fired, and always when four did:
    no two rules reach the total of 60. *)
Theorem artifact_decision (s : Stats.t) :
  let r := analyze (Normal s) in
  let isCritical := existsb (fun f => FindingType_eqb (Finding.type f) critical)
                            (ForensicsAnalyzer.artifactFindings r) in
  In (AIArtifactAnalysis.ganFingerprint r) [0; 30]
  /\ 0 <= AIArtifactAnalysis.diffusionMarkers r <= 80
  /\ In (AIArtifactAnalysis.severity r) [0; 40; 55; 70; 85]
  /\ (AIArtifactAnalysis.hasArtifacts r = false <-> AIArtifactAnalysis.severity r = 0)
  /\ (AIArtifactAnalysis.hasArtifacts r = false <-> AIArtifactAnalysis.artifactTypes r = [])
  /\ (isCritical = true -> (3 <= List.length (AIArtifactAnalysis.artifactTypes r))%nat)
  /\ ((4 <= List.length (AIArtifactAnalysis.artifactTypes r))%nat -> isCritical = true).
Proof.
  cbv zeta.
  unfold analyze, ForensicsAnalyzer.detectAIArtifacts, ForensicsAnalyzer.guarded, decide,
    ForensicsAnalyzer.artifactFindings.
  cbn [AIArtifactAnalysis.ganFingerprint AIArtifactAnalysis.diffusionMarkers
       AIArtifactAnalysis.severity AIArtifactAnalysis.hasArtifacts
       AIArtifactAnalysis.artifactTypes].
  remember (applyRules s) as a eqn:Ea. unfold applyRules in Ea.
  destruct (checkerboardRule s), (bandingRule s), (blurRule s), (edgeRule s),
    (reflectionRule s);
    subst a; vm_compute;
    repeat match goal with
           | |- _ /\ _ => split
           | |- _ <-> _ => split
           end;
    try tauto; try discriminate; try lia; try (intros; reflexivity);
    try (intros H; discriminate H).
Qed.

End Artifacts.


Section Jpeg.

Import Utils JpegCompression.

(** Every turn of the walk moves the offset forward, so a supply of
    turns that reaches the end of the buffer is never used up. *)
Lemma walk_fuel (buffer : Buffer) (fuel : nat) (w : Walk) :
  (0 < fuel)%nat ->
  (byteLength buffer <= offset w + 1 + N.of_nat fuel)%N ->
  exists outcome, walk fuel buffer w = Some outcome.
Proof.
  revert w. induction fuel as [| fuel IH]; intros w Hpos Hw; [lia |].
  cbn [walk].
  destruct (offset w + 2 <? byteLength buffer)%N eqn:Hloop; cbn [negb]; [| eauto].
  apply N.ltb_lt in Hloop.
  assert (Hfuel : (0 < fuel)%nat) by lia.
  destruct (readUInt16BE buffer (offset w)) as [marker | e]; [| eauto].
  destruct (marker =? JPEG_DQT)%N.
  { destruct (readUInt16BE buffer (offset w + 2)) as [length | e]; [| eauto].
    apply IH; [exact Hfuel |].
    destruct (67 <=? length)%N; cbn [moveTo offset]; lia. }
  destruct (marker =? JPEG_DHT)%N.
  { destruct (readUInt16BE buffer (offset w + 2)) as [length | e]; [| eauto].
    apply IH; [exact Hfuel |]. cbn [offset]. lia. }
  destruct ((marker =? JPEG_SOF0) || (marker =? JPEG_SOF2))%N.
  { destruct (readUInt16BE buffer (offset w + 2)) as [length | e]; [| eauto].
    apply IH; [exact Hfuel |]. cbn [offset]. lia. }
  destruct (marker =? JPEG_SOS)%N; [eauto |].
  destruct (N.land marker 65280 =? 65280)%N.
  { destruct (offset w + 3 <? byteLength buffer)%N; [| eauto].
    destruct (readUInt16BE buffer (offset w + 2)) as [length | e]; [| eauto].
    apply IH; [exact Hfuel |]. cbn [moveTo offset]. lia. }
  apply IH; [exact Hfuel |]. cbn [moveTo offset]. lia.
Qed.

Lemma qualityOf_level (firstVal : option N) : In (qualityOf firstVal) qualityLevels.
Proof.
  unfold qualityOf, qualityLevels. destruct firstVal as [v |]; [| cbn; tauto].
  repeat match goal with |- context [if ?b then _ else _] => destruct b end;
    cbn; tauto.
Qed.

Lemma readTable_length (buffer : Buffer) (offset : N) :
  List.length (readTable buffer offset) = 64%nat.
Proof. unfold readTable. now rewrite length_map, length_seq. Qed.

Lemma moveTo_invariant (w : Walk) (o : N) : walkInvariant w -> walkInvariant (moveTo w o).
Proof. intros H. exact H. Qed.

Lemma walk_invariant (buffer : Buffer) (fuel : nat) (w w' : Walk) :
  walkInvariant w ->
  walk fuel buffer w = Some (Normal w') ->
  walkInvariant w'.
Proof.
  revert w. induction fuel as [| fuel IH]; intros w Hw; [discriminate |].
  cbn [walk].
  destruct (negb (offset w + 2 <? byteLength buffer)%N); [congruence |].
  destruct (readUInt16BE buffer (offset w)) as [marker | e]; [| discriminate].
  destruct (marker =? JPEG_DQT)%N.
  { destruct (readUInt16BE buffer (offset w + 2)) as [length | e]; [| discriminate].
    apply IH. apply moveTo_invariant. destruct Hw as (Hq & Hc & Ht).
    destruct (67 <=? length)%N; unfold walkInvariant;
      cbn [estimatedQuality quantTables dqtCount].
    - split; [apply qualityOf_level |]. split.
      + rewrite length_app. cbn [List.length]. lia.
      + apply Forall_app. split; [exact Ht |].
        constructor; [apply readTable_length | constructor].
    - split; [exact Hq |]. split; [lia | exact Ht]. }
  destruct (marker =? JPEG_DHT)%N.
  { destruct (readUInt16BE buffer (offset w + 2)) as [length | e]; [| discriminate].
    apply IH. exact Hw. }
  destruct ((marker =? JPEG_SOF0) || (marker =? JPEG_SOF2))%N.
  { destruct (readUInt16BE buffer (offset w + 2)) as [length | e]; [| discriminate].
    apply IH. exact Hw. }
  destruct (marker =? JPEG_SOS)%N; [congruence |].
  destruct (N.land marker 65280 =? 65280)%N.
  { destruct (offset w + 3 <? byteLength buffer)%N; [| congruence].
    destruct (readUInt16BE buffer (offset w + 2)) as [length | e]; [| discriminate].
    apply IH. exact Hw. }
  apply IH. exact Hw.
Qed.

Lemma walk_ends (buffer : Buffer) :
  exists outcome,
    walk (S (List.length buffer)) buffer (mkWalk 2 0 0 0 [] 75) = Some outcome.
Proof.
  apply walk_fuel; [lia |]. unfold byteLength. cbn [offset]. lia.
Qed.

Lemma start_invariant : walkInvariant (mkWalk 2 0 0 0 [] 75).
Proof.
  unfold walkInvariant, qualityLevels. cbn. repeat split; auto. 
Qed.

(** X14.  [analyzeJPEGCompression] on any buffer.  The marker walk ends
    on every buffer, since each turn moves the offset forward.  A
    buffer that is too short or that does not start with the
    start-of-image marker gives the same object as the error handler.
    The severity is 0, 40, 45 or 55, and 0 exactly when no
    inconsistency is reported;
    [qualityMismatch] is never set; the estimated quality is one of
    seven levels, and standard quantization is reported only at 70 or
    more.  The finding is always a warning, and its severity reaches
    the status threshold of 50 only for double compression. *)
Theorem jpeg_compression_outcome (buffer : Buffer) :
  let r := analyze buffer in
  (exists outcome,
     walk (S (List.length buffer)) buffer (mkWalk 2 0 0 0 [] 75) = Some outcome)
  /\ (readUInt16BE buffer 0 <> Normal JPEG_SOI -> r = ForensicsAnalyzer.compressionNeutral)
  /\ In (CompressionAnalysis.severity r) [0; 40; 45; 55]
  /\ (CompressionAnalysis.hasInconsistency r = false <-> CompressionAnalysis.severity r = 0)
  /\ CompressionAnalysis.qualityMismatch r = false
  /\ match CompressionAnalysis.estimatedQuality r with
     | Some q =>
         In q qualityLevels
         /\ (CompressionAnalysis.hasStandardQuantization r = true -> 70 <= q)
     | None => CompressionAnalysis.hasStandardQuantization r = false
     end
  /\ Forall (fun f => Finding.type f = warning
                      /\ (50 <= Finding.severity f ->
                          CompressionAnalysis.ghostingDetected r = true))
            (ForensicsAnalyzer.compressionFindings (Some r)).
Proof.
  cbv zeta. split; [apply walk_ends |].
  unfold analyze, ForensicsAnalyzer.analyzeJPEGCompression, ForensicsAnalyzer.guarded, body.
  assert (Hneutral :
    let r := ForensicsAnalyzer.compressionNeutral in
    In (CompressionAnalysis.severity r) [0; 40; 45; 55]
    /\ (CompressionAnalysis.hasInconsistency r = false <-> CompressionAnalysis.severity r = 0)
    /\ CompressionAnalysis.qualityMismatch r = false
    /\ match CompressionAnalysis.estimatedQuality r with
       | Some q =>
           In q qualityLevels
           /\ (CompressionAnalysis.hasStandardQuantization r = true -> 70 <= q)
       | None => CompressionAnalysis.hasStandardQuantization r = false
       end
    /\ Forall (fun f => Finding.type f = warning
                        /\ (50 <= Finding.severity f ->
                            CompressionAnalysis.ghostingDetected r = true))
              (ForensicsAnalyzer.compressionFindings (Some r))).
  { cbn. repeat split; auto. }
  destruct (readUInt16BE buffer 0) as [soi | e]; [| split; [reflexivity | exact Hneutral]].
  destruct (soi =? JPEG_SOI)%N eqn:Hsoi; cbn [negb];
    [| split; [reflexivity | exact Hneutral]].
  apply N.eqb_eq in Hsoi. subst soi.
  split; [intros H; now elim H |].
  destruct (walk_ends buffer) as [outcome Hout]. rewrite Hout.
  destruct outcome as [w | e]; [| exact Hneutral].
  destruct (walk_invariant _ _ _ _ start_invariant Hout) as (Hq & Hc & Ht).
  clear Hneutral Hout.
  unfold analysis, ForensicsAnalyzer.compressionFindings.
  cbn [CompressionAnalysis.severity CompressionAnalysis.hasInconsistency
       CompressionAnalysis.qualityMismatch CompressionAnalysis.estimatedQuality
       CompressionAnalysis.hasStandardQuantization CompressionAnalysis.ghostingDetected
       CompressionAnalysis.inconsistencyType].
  set (multiple := Nat.ltb 2 (List.length (quantTables w))).
  set (blockArtifacts := match quantTables w with
                         | table :: _ => blockArtifactsIn table
                         | [] => false
                         end).
  set (ghosting := match quantTables w with
                   | table1 :: table2 :: _ => Nat.ltb 50 (similarity table1 table2)
                   | _ => false
                   end).
  assert (Hstd : Nat.leb 2 (dqtCount w) && ge (estimatedQuality w) 70 = true ->
                 70 <= estimatedQuality w).
  { intros H. apply andb_true_iff in H. now apply ge_iff. }
  split; [destruct multiple, blockArtifacts, ghosting; cbn; tauto |].
  split; [destruct multiple, blockArtifacts, ghosting; cbn; split; congruence |].
  split; [reflexivity |].
  split; [split; [exact Hq | exact Hstd] |].
  destruct multiple, blockArtifacts, ghosting; cbn [orb];
    repeat constructor; cbn [Finding.severity]; intros H; try reflexivity;
    exfalso; revert H; vm_compute; intros H; now apply H.
Qed.

End Jpeg.

Section ForensicsStatus.

Import Utils ForensicsAnalyzer.

Lemma screenshotFindings_uncounted (screenshotResult : bool * number) :
  filter (fun f => FindingType_eqb (Finding.type f) critical)
         (screenshotFindings screenshotResult) = []
  /\ filter (fun f => ge (Finding.severity f) 50) (screenshotFindings screenshotResult) = [].
Proof.
  unfold screenshotFindings. destruct (fst screenshotResult); split; reflexivity.
Qed.

Lemma exportFindings_uncounted (software : option jsstring) :
  filter (fun f => FindingType_eqb (Finding.type f) critical) (exportFindings software) = []
  /\ filter (fun f => ge (Finding.severity f) 50) (exportFindings software) = [].
Proof.
  unfold exportFindings. destruct (exportToolIn software); split; reflexivity.
Qed.

(** X15.  The status of the forensic analysis does not depend on the
    screenshot detection or on the export-tool check.  Their findings
    are warnings of severity 45 and 40, and the status counts only
    critical findings and findings of severity 50 or more: changing
    the image dimensions, the camera make or the software string
    changes the list of findings but never the status. *)
Theorem forensics_status_ignores_screenshot_and_export
  (d : Decoded.t) (stages : Stages.t)
  (width height : Z) (cameraMake software cameraMake' software' : option jsstring) :
  ForensicsAnalysisResult.status
    (analyzeForensics (Normal d) stages cameraMake software)
  = ForensicsAnalysisResult.status
      (analyzeForensics
         (Normal (Decoded.mk (Decoded.buffer d) width height (Decoded.format d)))
         stages cameraMake' software').
Proof.
  unfold analyzeForensics, isFormat. cbn [Decoded.buffer Decoded.format Decoded.width Decoded.height].
  destruct (if match Decoded.format d with
               | Some f => JSString.eqb f (js "png")
               | None => false
               end
            then analyzePNGSpecific (Decoded.buffer d) else Normal [])
    as [pngResult | error]; [| reflexivity].
  cbn [ForensicsAnalysisResult.status].
  repeat rewrite filter_app.
  destruct (screenshotFindings_uncounted
              (detectScreenshot (Decoded.width d) (Decoded.height d) cameraMake software))
    as [-> ->].
  destruct (screenshotFindings_uncounted (detectScreenshot width height cameraMake' software'))
    as [-> ->].
  destruct (exportFindings_uncounted software) as [-> ->].
  destruct (exportFindings_uncounted software') as [-> ->].
  reflexivity.
Qed.

End ForensicsStatus.

Section Screenshot.

Import Utils ForensicsAnalyzer.

(** X16.  [detectScreenshot]: the probability lies between 0 and 100
    and the flag is set exactly when it is 55 or more.  An image that
    carries a camera make and whose width and height are both outside
    the lists of display sizes is never called a screenshot, whatever
    its software field says: the ratio and the keyword give 50 at
    most.  An image of a listed width and a listed height that has no
    camera make is always called a screenshot: these three give 65. *)
Theorem screenshot_probability
  (width height : Z) (cameraMake software : option jsstring) :
  let r := detectScreenshot width height cameraMake software in
  0 <= snd r <= 100
  /\ (fst r = true <-> 55 <= snd r)
  /\ (truthy_opt cameraMake = true ->
      existsb (Z.eqb width) commonWidths = false ->
      existsb (Z.eqb height) commonHeights = false ->
      fst r = false)
  /\ (existsb (Z.eqb width) commonWidths = true ->
      existsb (Z.eqb height) commonHeights = true ->
      truthy_opt cameraMake = false ->
      fst r = true).
Proof.
  cbv zeta. unfold detectScreenshot.
  set (ratio := if (height =? 0)%Z then false else _).
  set (keyword := fun p : number =>
                    match software with
                    | Some software0 =>
                        if truthy software0
                        then if includes (toLowerCase software0) (js "screenshot")
                                || includes (toLowerCase software0) (js "capture")
                                || includes (toLowerCase software0) (js "grab")
                                || includes (toLowerCase software0) (js "snip")
                             then p + 35 else p
                        else p
                    | None => p
                    end).
  assert (Hk : forall p, keyword p = p \/ keyword p = p + 35).
  { intros p. unfold keyword. destruct software as [s |]; [| now left].
    destruct (truthy s); [| now left].
    destruct (_ || _); [now right | now left]. }
  change (match software with | Some _ => _ | None => _ end)
    with (keyword (let p := if ratio then 0 + 15 else 0 in
                   let p := if existsb (Z.eqb width) commonWidths then p + 25 else p in
                   let p := if existsb (Z.eqb height) commonHeights then p + 25 else p in
                   if negb (truthy_opt cameraMake) then p + 15 else p)).
  cbv zeta. cbn [fst snd].
  destruct ratio, (existsb (Z.eqb width) commonWidths),
    (existsb (Z.eqb height) commonHeights), (truthy_opt cameraMake); cbn [negb];
    match goal with |- context [keyword ?p] => destruct (Hk p) as [-> | ->] end;
    vm_compute;
    repeat match goal with
           | |- _ /\ _ => split
           | |- _ <-> _ => split
           end;
    intros; try reflexivity; try discriminate; try congruence;
    try match goal with H : _ = Gt |- _ => discriminate H end;
    try match goal with H : (?a = Gt -> False) |- _ => exfalso; apply H; reflexivity end.
Qed.

End Screenshot.


Section FailedELA.

Import Utils ForensicsAnalyzer ScoringEngine.




End FailedELA.

(* ================================================================= *)
(** ** The scoring engine: verdicts, failures, summary *)



Section Verdicts.

Import Utils ScoringEngine.

Variable md : MetadataAnalysisResult.t.
Variable fr : ForensicsAnalysisResult.t.

(** X18.  The confidence that goes with each verdict.  A rejection has
    a confidence of 75 or more.  A verdict of RISKY taken on a risk
    score of 70 or more has a confidence of 95 or more, since the
    negative factor -10 is subtracted and so adds 10 to the bonus of
    15; any other RISKY verdict has the confidence risk score + 15,
    rounded.  A verified image has a risk score below 45 and a
    confidence of 30, 40, 45, 50, 55 or 65. *)
Theorem confidence_by_verdict :
  let r := scoreResults md fr in
  let risk := calculateRiskScore md fr in
  let confidence := DetailedVerificationResult.confidence r in
  match DetailedVerificationResult.status r with
  | REJECTED => 75 <= confidence
  | RISKY =>
      (70 <= risk /\ 95 <= confidence)
      \/ (risk < 70 /\ confidence = Math_round (risk + 15))
  | VERIFIED => risk < 45 /\ In confidence [30; 40; 45; 50; 55; 65]
  end.
Proof.
  cbv zeta.
  pose proof (scoreResults_status_confidence md fr) as H. cbv zeta in H.
  pose proof (calculateRiskScore_range md fr) as Hrisk.
  set (risk := calculateRiskScore md fr) in *.
  destruct (AIDetection.isLikelyAI _ && ge _ 75) eqn:E1.
  { injection H as -> ->. apply andb_true_iff in E1 as [_ E1]. apply ge_iff in E1.
    now apply (Math_round_ge 75). }
  destruct (existsb MetadataAnalyzer.isCriticalAI _).
  { injection H as -> ->. vm_compute. discriminate. }
  destruct (ge risk 70) eqn:E3.
  { injection H as -> ->. left. apply ge_iff in E3. split; [exact E3 |].
    apply (Math_round_ge 95). unfold calculateConfidence. cbn [fold_left].
    apply clamp_lower; [discriminate |].
    change (inject_Z 95) with 95. lra. }
  apply ge_false_iff in E3.
  destruct (ge risk 45 || _) eqn:E4.
  { injection H as -> ->. right. split; [exact E3 |].
    apply round_eq. unfold calculateConfidence. cbn [fold_left].
    rewrite clamp_inside; lra. }
  apply orb_false_iff in E4 as [E4 _]. apply ge_false_iff in E4.
  destruct (MetadataAnalysisResult.hasGPS md), (MetadataAnalysisResult.hasEXIF md),
    (cameraMakeKnown md); injection H as -> ->; (split; [exact E4 |]);
    vm_compute; tauto.
Qed.

End Verdicts.

Section FailedForensics.

Import Utils ScoringEngine.

Lemma riskMetadataFinding_grows (l : list Finding.t) (score : number) :
  Forall (fun f => 0 <= Finding.severity f) l ->
  score <= fold_left riskMetadataFinding l score.
Proof.
  intros H. revert score. induction H as [| f l Hf _ IH]; intros score; [cbn; lra |].
  cbn [fold_left]. eapply Qle_trans; [| apply IH].
  unfold riskMetadataFinding, weights_aiSignature.
  destruct (_ && _); [| destruct (FindingType_eqb _ _)];
    revert Hf; generalize (Finding.severity f); intros s Hs; lra.
Qed.

(** X19.  When the forensic analysis fails as a whole (the image cannot
    be decoded, or the PNG reader throws), the verdict is never
    VERIFIED: the failure is a critical finding of severity 100, the
    positive factors take off 50 at most, so the risk score is at
    least 50. *)
Theorem failed_forensics_is_never_verified
  (md : MetadataAnalysisResult.t) (error : JSError) :
  Forall (fun f => 0 <= Finding.severity f) (MetadataAnalysisResult.findings md) ->
  let r := scoreResults md (ForensicsAnalyzer.forensicsFailed error) in
  DetailedVerificationResult.status r <> VERIFIED
  /\ 50 <= DetailedVerificationResult.riskScore r.
Proof.
  intros Hsev. cbv zeta.
  assert (Hrisk : 50 <= calculateRiskScore md (ForensicsAnalyzer.forensicsFailed error)).
  { unfold calculateRiskScore, rawRiskScore.
    cbn [ForensicsAnalyzer.forensicsFailed ForensicsAnalysisResult.elaAnalysis
         ForensicsAnalysisResult.frequencyAnalysis ForensicsAnalysisResult.textureAnalysis
         ForensicsAnalysisResult.compressionAnalysis ForensicsAnalysisResult.aiArtifactAnalysis
         ForensicsAnalysisResult.forensics ForensicsAnalysisResult.findings].
    set (s0 := if hasAISignatures md then 0 + 85 * weights_aiSignature else 0).
    assert (H0 : 0 <= s0) by (unfold s0, weights_aiSignature; destruct (hasAISignatures md); lra).
    pose proof (riskMetadataFinding_grows _ s0 Hsev) as H1.
    set (s1 := fold_left riskMetadataFinding _ s0) in *.
    cbn [fold_left]. unfold riskForensicsFinding.
    cbn [Finding.type Finding.severity FindingType_eqb]. unfold weights_forensics.
    destruct (MetadataAnalysisResult.hasEXIF md), (MetadataAnalysisResult.hasGPS md),
      (cameraMakeKnown md && cameraModelKnown md);
      apply clamp_lower; lra. }
  split.
  - pose proof (scoreResults_status_confidence md (ForensicsAnalyzer.forensicsFailed error)) as H.
    cbv zeta in H. apply (f_equal fst) in H. cbn [fst] in H.
    destruct (AIDetection.isLikelyAI _ && ge _ 75); [cbn [fst] in H; congruence |].
    destruct (existsb MetadataAnalyzer.isCriticalAI _); [cbn [fst] in H; congruence |].
    destruct (ge _ 70); [cbn [fst] in H; congruence |].
    replace (ge (calculateRiskScore md (ForensicsAnalyzer.forensicsFailed error)) 45)
      with true in H by (symmetry; apply ge_iff; lra).
    cbn [orb fst] in H. congruence.
  - unfold scoreResults.
    repeat match goal with |- context [if ?c then _ else _] => destruct c end;
      cbn [DetailedVerificationResult.riskScore]; now apply (Math_round_ge 50).
Qed.

Lemma failed_forensics_is_never_verified_witness :
  DetailedVerificationResult.status
    (scoreResults uncountedELA_md (ForensicsAnalyzer.forensicsFailed sharpFailure))
  <> VERIFIED.
Proof.
  assert (H : Forall (fun f => 0 <= Finding.severity f)
                     (MetadataAnalysisResult.findings uncountedELA_md)).
  { vm_compute. repeat constructor; discriminate. }
  exact (proj1 (failed_forensics_is_never_verified uncountedELA_md sharpFailure H)).
Defined.

End FailedForensics.

Section Summary.

Import Utils ScoringEngine.

Lemma findings_by_type (l : list Finding.t) :
  List.length l
  = (List.length (filter isCritical l) + List.length (filter isWarning l)
     + List.length (filter isInfo l))%nat.
Proof.
  induction l as [| f l IH]; [reflexivity |].
  cbn [filter]. unfold isCritical at 1, isWarning at 1, isInfo at 1.
  destruct (Finding.type f); cbn [FindingType_eqb List.length]; lia.
Qed.

(** X20.  The summary of the result counts every finding of both
    analyses exactly once: the total is the number of metadata
    findings plus the number of forensic findings, and it is the sum
    of the critical, warning and info counts.  The two analyses are
    returned unchanged and the processing time is left at 0 for the
    caller to set. *)
Theorem summary_counts_add_up
  (md : MetadataAnalysisResult.t) (fr : ForensicsAnalysisResult.t) :
  let r := scoreResults md fr in
  DetailedVerificationResult.totalFindings r
  = (List.length (MetadataAnalysisResult.findings md)
     + List.length (ForensicsAnalysisResult.findings fr))%nat
  /\ DetailedVerificationResult.totalFindings r
     = (DetailedVerificationResult.criticalCount r
        + DetailedVerificationResult.warningCount r
        + DetailedVerificationResult.infoCount r)%nat
  /\ DetailedVerificationResult.analysis_metadata r = md
  /\ DetailedVerificationResult.analysis_forensics r = fr
  /\ DetailedVerificationResult.processingTime r = 0.
Proof.
  cbv zeta. unfold scoreResults.
  match goal with
  | |- context [let '(status, confidence) := ?c in _] => destruct c as [status confidence]
  end.
  cbn [DetailedVerificationResult.totalFindings DetailedVerificationResult.criticalCount
       DetailedVerificationResult.warningCount DetailedVerificationResult.infoCount
       DetailedVerificationResult.analysis_metadata
       DetailedVerificationResult.analysis_forensics
       DetailedVerificationResult.processingTime].
  split; [apply length_app |]. split; [apply findings_by_type |].
  repeat split.
Qed.

End Summary.

(* ================================================================= *)
(** ** The handler: the three stages in sequence *)


Section Handler.

Import Utils MetadataAnalyzer AiTools ScoringEngine Route.

Lemma isCriticalAI_app (l1 l2 : list Finding.t) :
  existsb isCriticalAI l1 = true -> existsb isCriticalAI (l1 ++ l2) = true.
Proof. intros H. rewrite existsb_app, H. reflexivity. Qed.

Lemma checkSoftware_critical (software : jsstring) (st : State) :
  Detection.detected (detectAITool software) = true ->
  existsb isCriticalAI (findings (checkSoftware (Some software) st)) = true.
Proof.
  intros H. unfold checkSoftware.
  assert (Ht : truthy software = true).
  { destruct software; [discriminate H | reflexivity]. }
  rewrite Ht, H. cbv zeta.
  destruct (isExportTool software); cbn [pushFinding pushSignature findings];
    rewrite ?existsb_app; cbn [existsb]; 
    change (isCriticalAI (Finding.mk critical 100 ai_signature ?m ?d)) with true;
    rewrite ?orb_true_r; reflexivity.
Qed.

Lemma checkMake_keeps (make : option jsstring) (st : State) :
  existsb isCriticalAI (findings st) = true ->
  existsb isCriticalAI (findings (checkMake make st)) = true.
Proof.
  intros H. unfold checkMake. destruct (negb _); [| exact H].
  now apply isCriticalAI_app.
Qed.

Lemma checkGPS_keeps (e : Exif.t) (st : State) :
  existsb isCriticalAI (findings st) = true ->
  existsb isCriticalAI (findings (checkGPS e st)) = true.
Proof.
  intros H. unfold checkGPS.
  destruct (Exif.GPSLatitude e), (Exif.GPSLongitude e); try exact H;
    now apply isCriticalAI_app.
Qed.

Lemma checkTimestamps_keeps (inconsistencies : list Finding.t) (st : State) :
  existsb isCriticalAI (findings st) = true ->
  existsb isCriticalAI (findings (checkTimestamps inconsistencies st)) = true.
Proof.
  intros H. unfold checkTimestamps. destruct inconsistencies; [exact H |].
  now apply isCriticalAI_app.
Qed.

(** X21.  A JPEG whose Software tag names any tool that [detectAITool]
    knows (a generator, but also an editor such as Photoshop or an
    export tool such as a screenshot utility) is REJECTED with a
    confidence of 75 or more, whatever its other tags, its pixels and
    the outcome of the forensic analysis are. *)
Theorem detected_software_is_rejected
  (buffer : Buffer) (e : Exif.t) (inconsistencies : list Finding.t)
  (software : jsstring)
  (imageMetadata : Completion SharpMetadata.t) (p : PixelLoops.t) :
  Exif.Software e = Some software ->
  Detection.detected (detectAITool software) = true ->
  let r := checkAuthenticity (JPEG buffer (Normal e) inconsistencies) imageMetadata p in
  DetailedVerificationResult.status r = REJECTED
  /\ 75 <= DetailedVerificationResult.confidence r.
Proof.
  intros Hsw Hdet. cbv zeta. unfold checkAuthenticity.
  set (md := analyzeMetadata _).
  set (fr := forensicsOf _ _ _ _).
  assert (Hcrit : existsb isCriticalAI
                    (MetadataAnalysisResult.findings md
                     ++ ForensicsAnalysisResult.findings fr) = true).
  { apply isCriticalAI_app. unfold md, analyzeMetadata, finish, analyzeJPEG.
    cbn [MetadataAnalysisResult.findings]. rewrite Hsw.
    apply checkTimestamps_keeps, checkGPS_keeps, checkMake_keeps.
    now apply checkSoftware_critical. }
  pose proof (scoreResults_status_confidence md fr) as H. cbv zeta in H.
  rewrite Hcrit in H.
  destruct (AIDetection.isLikelyAI _ && ge _ 75) eqn:E1; injection H as -> ->.
  - split; [reflexivity |]. apply andb_true_iff in E1 as [_ E1]. apply ge_iff in E1.
    now apply (Math_round_ge 75).
  - split; [reflexivity |]. vm_compute. discriminate.
Qed.

Lemma detected_software_is_rejected_witness :
  DetailedVerificationResult.status
    (checkAuthenticity (jpegWithSoftware "Adobe Photoshop CC 2019")
                       (Throw sharpFailure)
                       noPixels)
  = REJECTED.
Proof.
  exact (proj1 (detected_software_is_rejected
                  [] (exifWithSoftware "Adobe Photoshop CC 2019") []
                  (js "Adobe Photoshop CC 2019")
                  (Throw sharpFailure)
                  noPixels eq_refl eq_refl)).
Defined.


(** X23.  A PNG on which the chunk reader throws (a chunk that claims
    more bytes than the file holds) gets the same answer: the metadata
    analysis and the forensic analysis both call the reader outside
    their inner handlers, so both fail as a whole. *)
Theorem unreadable_png_is_risky
  (buffer : Buffer) (error : JSError) (m : SharpMetadata.t) (p : PixelLoops.t) :
  parsePNGChunks buffer = Throw error ->
  SharpMetadata.format m = Some (js "png") ->
  doubleFailure (checkAuthenticity (NotJPEG buffer) (Normal m) p).
Proof.
  intros Hthrow Hpng.
  unfold doubleFailure, checkAuthenticity, forensicsOf.
  cbn [extractBase64 andThen].
  unfold analyzeMetadata, analyzePNG. rewrite Hthrow.
  unfold ForensicsAnalyzer.analyzeForensics, ForensicsAnalyzer.isFormat.
  cbn [ForensicsAnalyzer.Decoded.format ForensicsAnalyzer.Decoded.buffer].
  rewrite Hpng.
  change (JSString.eqb (js "png") (js "png")) with true. cbv iota.
  unfold ForensicsAnalyzer.analyzePNGSpecific. rewrite Hthrow.
  repeat split.
Qed.

Lemma unreadable_png_is_risky_witness :
  DetailedVerificationResult.status
    (checkAuthenticity (NotJPEG truncatedPNG) (Normal pngReport) noPixels)
  = RISKY.
Proof.
  exact (proj1 (unreadable_png_is_risky truncatedPNG (ERR_OUT_OF_RANGE 29) pngReport
                  noPixels eq_refl eq_refl)).
Defined.

End Handler.

Section PNGKeywords.

Import Utils MetadataAnalyzer AiTools ScoringEngine Route.

Lemma checkChunks_keep (chunks : StringMap) (st : State) :
  existsb isCriticalAI (findings st) = true ->
  existsb isCriticalAI (findings (fold_left checkChunk chunks st)) = true.
Proof.
  intros H. destruct (checkChunks_adds chunks st) as (hits & -> & _).
  rewrite existsb_app, H. reflexivity.
Qed.

Lemma checkChunks_hit (chunks : StringMap) (st : State) :
  existsb holdsAIKeyword chunks = true ->
  existsb isCriticalAI (findings (fold_left checkChunk chunks st)) = true.
Proof.
  revert st. induction chunks as [| [keyword content] chunks IH]; intros st H;
    [discriminate H |].
  cbn [existsb fold_left] in *. apply orb_true_iff in H as [H | H]; [| now apply IH].
  apply checkChunks_keep.
  destruct (checkChunk_hit st keyword content H) as (f & sig & -> & _ & Ht & _ & Hc & _).
  rewrite existsb_app. cbn [existsb]. unfold isCriticalAI at 2. rewrite Ht, Hc.
  cbn. now rewrite orb_true_r.
Qed.

(** X26.  An image that is not sent as JPEG and one of whose PNG text
    entries holds a keyword of [PNG_AI_CHUNK_KEYWORDS] (such as
    "prompt" or "parameters", but also "created with", "quality:" or
    "version:") is REJECTED with a confidence of 75 or more, whatever
    the decoder reports, whatever its pixels are and whatever the
    forensic analysis finds. *)
Theorem ai_keyword_in_png_is_rejected
  (buffer : Buffer) (chunks : StringMap)
  (imageMetadata : Completion SharpMetadata.t) (p : PixelLoops.t) :
  parsePNGChunks buffer = Normal chunks ->
  existsb holdsAIKeyword chunks = true ->
  let r := checkAuthenticity (NotJPEG buffer) imageMetadata p in
  DetailedVerificationResult.status r = REJECTED
  /\ 75 <= DetailedVerificationResult.confidence r.
Proof.
  intros Hchunks Hhit. cbv zeta. unfold checkAuthenticity.
  set (md := analyzeMetadata _).
  set (fr := forensicsOf _ _ _ _).
  assert (Hcrit : existsb isCriticalAI
                    (MetadataAnalysisResult.findings md
                     ++ ForensicsAnalysisResult.findings fr) = true).
  { rewrite existsb_app. apply orb_true_iff. left.
    unfold md, analyzeMetadata, analyzePNG. rewrite Hchunks, hasC2PAMetadata_false.
    unfold finish. cbn [MetadataAnalysisResult.findings].
    match goal with
    | |- context [fold_left checkChunk chunks ?s] =>
        pose proof (checkChunks_hit chunks s Hhit) as H;
        set (st1 := fold_left checkChunk chunks s) in *
    end.
    destruct (negb (hasEXIF st1)); [| exact H].
    cbn [pushFinding findings]. rewrite existsb_app, H. reflexivity. }
  pose proof (scoreResults_status_confidence md fr) as H. cbv zeta in H.
  rewrite Hcrit in H.
  destruct (AIDetection.isLikelyAI _ && ge _ 75) eqn:E1; injection H as -> ->.
  - split; [reflexivity |]. apply andb_true_iff in E1 as [_ E1]. apply ge_iff in E1.
    now apply (Math_round_ge 75).
  - split; [reflexivity |]. vm_compute. discriminate.
Qed.

Lemma ai_keyword_in_png_is_rejected_witness :
  DetailedVerificationResult.status
    (checkAuthenticity (NotJPEG parametersPNG) (Normal pngReport) noPixels)
  = REJECTED.
Proof.
  exact (proj1 (ai_keyword_in_png_is_rejected parametersPNG
                  [(js "parameters", js generationText); (js "tEXt", js generationText)]
                  (Normal pngReport) noPixels eq_refl eq_refl)).
Defined.

End PNGKeywords.

(* ================================================================= *)
(** ** Critical findings and the verdict *)

Lemma rawRiskScore_parts (md : MetadataAnalysisResult.t) (fr : ForensicsAnalysisResult.t) :
  ScoringEngine.rawRiskScore md fr
  = riskDiscounts md fr (riskIndicators fr (riskFindings md fr (riskSignals fr 0))).
Proof. reflexivity. Qed.

Section RiskBounds.

Import Utils ScoringEngine.

Variable md : MetadataAnalysisResult.t.
Variable fr : ForensicsAnalysisResult.t.

Lemma riskSignals_grows (score : number) :
  soundForensics fr -> score <= riskSignals fr score.
Proof.
  intros (He & Hf & Ht & Hc & Ha & _). unfold riskSignals, weights_forensics.
  destruct (ForensicsAnalysisResult.elaAnalysis fr) as [e |];
    destruct (ForensicsAnalysisResult.frequencyAnalysis fr) as [f |];
    destruct (ForensicsAnalysisResult.textureAnalysis fr) as [t |];
    destruct (ForensicsAnalysisResult.compressionAnalysis fr) as [c |];
    destruct (ForensicsAnalysisResult.aiArtifactAnalysis fr) as [a |];
    cbv zeta;
    repeat match goal with |- context [if ?b then _ else _] => destruct b end;
    lra.
Qed.

Lemma riskSignals_flagged (score severity : number) :
  soundForensics fr -> flaggedAbove fr severity ->
  score + severity <= riskSignals fr score.
Proof.
  intros Hsound Hflag. unfold soundForensics in Hsound.
  unfold riskSignals, weights_forensics.
  destruct Hflag as [(x & Heq & Hb & Hs) | [(x & Heq & Hb & Hs) | [(x & Heq & Hb & Hs)
                    | (x & Heq & Hb & Hs)]]];
    rewrite Heq in *; rewrite Hb; rewrite Hs in *;
    destruct Hsound as (He & Hf & Ht & Hc & Ha & _);
    destruct (ForensicsAnalysisResult.elaAnalysis fr) as [e' |];
    destruct (ForensicsAnalysisResult.frequencyAnalysis fr) as [f' |];
    destruct (ForensicsAnalysisResult.textureAnalysis fr) as [t' |];
    destruct (ForensicsAnalysisResult.compressionAnalysis fr) as [c' |];
    destruct (ForensicsAnalysisResult.aiArtifactAnalysis fr) as [a' |];
    cbv zeta;
    repeat match goal with |- context [if ?b then _ else _] => destruct b end;
    lra.
Qed.

Lemma riskForensicsFinding_grows (l : list Finding.t) (score : number) :
  nonnegative l -> score <= fold_left riskForensicsFinding l score.
Proof.
  intros H. revert score. induction H as [| f l Hf _ IH]; intros score; [cbn; lra |].
  cbn [fold_left]. eapply Qle_trans; [| apply IH].
  unfold riskForensicsFinding, weights_forensics.
  destruct (FindingType_eqb _ critical); [| destruct (FindingType_eqb _ warning)];
    revert Hf; generalize (Finding.severity f); intros s Hs; lra.
Qed.

Lemma riskForensicsFinding_critical (l : list Finding.t) (f : Finding.t) (score : number) :
  nonnegative l -> In f l -> Finding.type f = critical ->
  score + Finding.severity f <= fold_left riskForensicsFinding l score.
Proof.
  intros H. revert score. induction H as [| g l Hg Hl IH]; intros score Hin Hcrit;
    [contradiction |].
  cbn [fold_left]. destruct Hin as [-> | Hin].
  - eapply Qle_trans; [| apply riskForensicsFinding_grows; exact Hl].
    unfold riskForensicsFinding, weights_forensics. rewrite Hcrit. cbn [FindingType_eqb].
    lra.
  - eapply Qle_trans; [| apply IH; assumption].
    unfold riskForensicsFinding, weights_forensics.
    destruct (FindingType_eqb _ critical); [| destruct (FindingType_eqb _ warning)];
      revert Hg; generalize (Finding.severity g); intros s Hs; lra.
Qed.

Lemma riskFindings_grows (score : number) :
  nonnegative (MetadataAnalysisResult.findings md) ->
  nonnegative (ForensicsAnalysisResult.findings fr) ->
  score <= riskFindings md fr score.
Proof.
  intros Hm Hf. unfold riskFindings. cbv zeta.
  eapply Qle_trans; [| apply riskForensicsFinding_grows; exact Hf].
  eapply Qle_trans; [| apply riskMetadataFinding_grows; exact Hm].
  unfold weights_aiSignature. destruct (hasAISignatures md); lra.
Qed.

Lemma riskFindings_critical (f : Finding.t) (score : number) :
  nonnegative (MetadataAnalysisResult.findings md) ->
  nonnegative (ForensicsAnalysisResult.findings fr) ->
  In f (ForensicsAnalysisResult.findings fr) -> Finding.type f = critical ->
  score + Finding.severity f <= riskFindings md fr score.
Proof.
  intros Hm Hf Hin Hcrit. unfold riskFindings. cbv zeta.
  eapply Qle_trans; [| apply (riskForensicsFinding_critical _ f); assumption].
  apply Qplus_le_compat; [| apply Qle_refl].
  eapply Qle_trans; [| apply riskMetadataFinding_grows; exact Hm].
  unfold weights_aiSignature. destruct (hasAISignatures md); lra.
Qed.

Lemma riskIndicators_grows (score : number) : score <= riskIndicators fr score.
Proof.
  unfold riskIndicators. destruct (ForensicsAnalysisResult.forensics fr) as [f |];
    cbv zeta; [| lra].
  destruct (ForensicAnalysis.isScreenshot f), (truthy_opt _); lra.
Qed.

Lemma riskDiscounts_bound (score : number) : score - 75 <= riskDiscounts md fr score.
Proof.
  unfold riskDiscounts.
  destruct (ForensicsAnalysisResult.textureAnalysis fr) as [t |];
    destruct (ForensicsAnalysisResult.elaAnalysis fr) as [e |];
    cbv zeta;
    repeat match goal with |- context [if ?b then _ else _] => destruct b end;
    lra.
Qed.

(** Without EXIF, GPS and camera make only the two forensic discounts
    remain. *)
Lemma riskDiscounts_bare (score : number) :
  MetadataAnalysisResult.hasEXIF md = false ->
  MetadataAnalysisResult.hasGPS md = false ->
  cameraMakeKnown md = false ->
  score - 25 <= riskDiscounts md fr score.
Proof.
  intros He Hg Hc. unfold riskDiscounts. rewrite He, Hg, Hc. cbn [andb].
  destruct (ForensicsAnalysisResult.textureAnalysis fr) as [t |];
    destruct (ForensicsAnalysisResult.elaAnalysis fr) as [e |];
    cbv zeta;
    repeat match goal with |- context [if ?b then _ else _] => destruct b end;
    lra.
Qed.

(** A risk score of 45 or more excludes the verdict VERIFIED. *)
Lemma moderate_risk_is_not_verified :
  45 <= calculateRiskScore md fr ->
  DetailedVerificationResult.status (scoreResults md fr) <> VERIFIED.
Proof.
  intros Hrisk.
  pose proof (scoreResults_status_confidence md fr) as H.
  cbv zeta in H. apply (f_equal fst) in H. cbn [fst] in H.
  destruct (AIDetection.isLikelyAI _ && ge _ 75); [cbn [fst] in H; congruence |].
  destruct (existsb MetadataAnalyzer.isCriticalAI _); [cbn [fst] in H; congruence |].
  destruct (ge _ 70); [cbn [fst] in H; congruence |].
  replace (ge (calculateRiskScore md fr) 45) with true in H
    by (symmetry; now apply ge_iff).
  cbn [orb fst] in H. congruence.
Qed.

Lemma raw_risk_is_risk (bound : number) :
  bound <= 100 -> bound <= rawRiskScore md fr -> bound <= calculateRiskScore md fr.
Proof. intros Hb H. unfold calculateRiskScore. now apply clamp_lower. Qed.

End RiskBounds.

Section MetadataSeverities.

Import Utils MetadataAnalyzer AiTools.

Lemma nonnegative_app (a b : list Finding.t) :
  nonnegative a -> nonnegative b -> nonnegative (a ++ b).
Proof. intros Ha Hb. apply Forall_app. now split. Qed.

Lemma pushFinding_nonnegative (f : Finding.t) (st : State) :
  0 <= Finding.severity f -> nonnegative (findings st) ->
  nonnegative (findings (pushFinding f st)).
Proof.
  intros Hf H. cbn [pushFinding findings]. apply nonnegative_app; [exact H |].
  constructor; [exact Hf | constructor].
Qed.

Lemma checkSoftware_nonnegative (software : option jsstring) (st : State) :
  nonnegative (findings st) -> nonnegative (findings (checkSoftware software st)).
Proof.
  intros H. unfold checkSoftware. destruct software as [software |]; [| exact H].
  destruct (truthy software); [| exact H]. cbv zeta.
  destruct (Detection.detected (detectAITool software)), (isExportTool software);
    try exact H;
    repeat (apply pushFinding_nonnegative; [cbn; discriminate |]); exact H.
Qed.

Lemma checkMake_nonnegative (make : option jsstring) (st : State) :
  nonnegative (findings st) -> nonnegative (findings (checkMake make st)).
Proof.
  intros H. unfold checkMake. destruct (negb _); [| exact H].
  apply pushFinding_nonnegative; [cbn; discriminate | exact H].
Qed.

Lemma checkGPS_nonnegative (e : Exif.t) (st : State) :
  nonnegative (findings st) -> nonnegative (findings (checkGPS e st)).
Proof.
  intros H. unfold checkGPS.
  destruct (Exif.GPSLatitude e), (Exif.GPSLongitude e); try exact H;
    (apply pushFinding_nonnegative; [cbn; discriminate | exact H]).
Qed.

Lemma checkTimestamps_nonnegative (inconsistencies : list Finding.t) (st : State) :
  nonnegative inconsistencies -> nonnegative (findings st) ->
  nonnegative (findings (checkTimestamps inconsistencies st)).
Proof.
  intros Hi H. unfold checkTimestamps. destruct inconsistencies as [| f fs]; [exact H |].
  cbn [pushFindings findings]. now apply nonnegative_app.
Qed.

Lemma checkChunks_nonnegative (chunks : StringMap) (st : State) :
  nonnegative (findings st) -> nonnegative (findings (fold_left checkChunk chunks st)).
Proof.
  revert st. induction chunks as [| [keyword content] chunks IH]; intros st H; [exact H |].
  cbn [fold_left]. apply IH. unfold checkChunk.
  destruct (find _ PNG_AI_CHUNK_KEYWORDS); [| exact H].
  cbn [pushSignature findings]. apply pushFinding_nonnegative; [cbn; discriminate | exact H].
Qed.

(** Every finding of the metadata analysis has a severity of 0 or
    more, provided the timestamp inconsistencies have. *)
Lemma analyzeMetadata_nonnegative (image : ImageData) :
  match image with
  | JPEG _ _ inconsistencies => nonnegative inconsistencies
  | _ => True
  end ->
  nonnegative (MetadataAnalysisResult.findings (analyzeMetadata image)).
Proof.
  destruct image as [| buffer exifObj inconsistencies | buffer]; intros H.
  - cbn. constructor; [discriminate | constructor].
  - unfold analyzeMetadata, finish. cbn [MetadataAnalysisResult.findings].
    unfold analyzeJPEG. destruct exifObj as [e | exifError].
    + apply checkTimestamps_nonnegative; [exact H |].
      apply checkGPS_nonnegative, checkMake_nonnegative, checkSoftware_nonnegative.
      constructor.
    + apply pushFinding_nonnegative; [cbn; discriminate | constructor].
  - unfold analyzeMetadata, analyzePNG.
    destruct (parsePNGChunks buffer) as [chunks | e];
      [| cbn; constructor; [discriminate | constructor]].
    rewrite hasC2PAMetadata_false.
    unfold finish. cbn [MetadataAnalysisResult.findings].
    match goal with |- context [fold_left checkChunk chunks ?s] =>
      pose proof (checkChunks_nonnegative chunks s) as Hc;
      set (st1 := fold_left checkChunk chunks s) in *
    end.
    assert (H1 : nonnegative (findings st1)).
    { apply Hc. apply pushFinding_nonnegative; [cbn; discriminate | constructor]. }
    destruct (negb (hasEXIF st1)); [| exact H1].
    apply pushFinding_nonnegative; [cbn; discriminate | exact H1].
Qed.

(** An image that is not a JPEG earns none of the three metadata
    discounts. *)
Lemma notJPEG_flags (buffer : Buffer) :
  let md := analyzeMetadata (NotJPEG buffer) in
  MetadataAnalysisResult.hasEXIF md = false
  /\ MetadataAnalysisResult.hasGPS md = false
  /\ ScoringEngine.cameraMakeKnown md = false.
Proof.
  cbv zeta. unfold analyzeMetadata, analyzePNG, ScoringEngine.cameraMakeKnown.
  destruct (parsePNGChunks buffer) as [chunks | e]; [| repeat split].
  rewrite hasC2PAMetadata_false.
  match goal with
  | |- context [fold_left checkChunk chunks ?s] =>
      destruct (checkChunks_adds chunks s) as (hits & _ & _ & He & Hg & Hc);
      set (st1 := fold_left checkChunk chunks s) in *
  end.
  cbn [hasEXIF hasGPS cameraInfo pushFinding state0] in He, Hg, Hc.
  rewrite He. cbn [negb]. unfold finish.
  cbn [MetadataAnalysisResult.hasEXIF MetadataAnalysisResult.hasGPS
       MetadataAnalysisResult.cameraInfo pushFinding hasEXIF hasGPS cameraInfo].
  rewrite He, Hg, Hc. repeat split.
Qed.

End MetadataSeverities.

Section ForensicSeverities.

Import Utils ForensicsAnalyzer Route.

Lemma analyzeELA_nonnegative (pixels : Completion ELAMetrics.t) :
  0 <= ELAAnalysis.severity (analyzeELA pixels).
Proof.
  destruct pixels as [m | e]; [| cbn; lra].
  cbn [analyzeELA ELAAnalysis.severity]. unfold elaSeverity. cbv zeta.
  repeat match goal with |- context [if ?b then _ else _] => destruct b end; lra.
Qed.

Lemma frequency_nonnegative (pixels : Completion FrequencyBody.Stats.t) :
  0 <= FrequencyAnalysis.severity
         (analyzeFrequencyDomain (andThen FrequencyBody.decide pixels)).
Proof.
  destruct pixels as [s | e]; [| cbn; lra].
  unfold analyzeFrequencyDomain, guarded, andThen, FrequencyBody.decide.
  cbn [FrequencyAnalysis.severity].
  set (g := FrequencyBody.gridArtifactScore _). set (b := FrequencyBody.gradientBalance s).
  destruct (gt g 40 || gt b (3 # 10)) eqn:E; [| lra].
  apply orb_true_iff in E.
  destruct (Math_min_spec 80 (Math_max g (b * 100 + 20))) as [[H1 ->] | [H1 ->]]; [lra |].
  destruct (Math_max_spec g (b * 100 + 20)) as [[H2 H3] | [H2 H3]]; rewrite H3 in *;
    destruct E as [E | E]; apply gt_iff in E; lra.
Qed.

Lemma texture_nonnegative (pixels : Completion TextureBody.Stats.t) :
  0 <= TextureAnalysis.severity
         (analyzeTexturePatterns (andThen TextureBody.decide pixels)).
Proof.
  destruct pixels as [s | e]; [| cbn; lra].
  unfold analyzeTexturePatterns, guarded, andThen, TextureBody.decide.
  cbn [TextureAnalysis.severity].
  repeat match goal with |- context [if ?b then _ else _] => destruct b end; lra.
Qed.

Lemma artifacts_nonnegative (pixels : Completion ArtifactBody.Stats.t) :
  0 <= AIArtifactAnalysis.severity
         (detectAIArtifacts (andThen ArtifactBody.decide pixels)).
Proof.
  destruct pixels as [s | e]; [| cbn; lra].
  unfold detectAIArtifacts, guarded, andThen, ArtifactBody.decide.
  cbn [AIArtifactAnalysis.severity].
  generalize (ArtifactBody.applyRules s). intros a.
  repeat match goal with |- context [if ?b then _ else _] => destruct b end; lra.
Qed.

Lemma compression_nonnegative (buffer : Buffer) :
  0 <= CompressionAnalysis.severity
         (analyzeJPEGCompression (JpegCompression.body buffer)).
Proof.
  unfold analyzeJPEGCompression, guarded, JpegCompression.body.
  destruct (readUInt16BE buffer 0) as [soi | e]; [| cbn; lra].
  destruct (negb _); [cbn; lra |].
  destruct (JpegCompression.walk _ _ _) as [[w | e] |]; try (cbn; lra).
  unfold JpegCompression.analysis. cbn [CompressionAnalysis.severity].
  repeat match goal with |- context [if ?b then _ else _] => destruct b end; lra.
Qed.

Lemma stagesOf_sound (buffer : Buffer) (p : PixelLoops.t) :
  soundStages (stagesOf buffer p).
Proof.
  unfold soundStages, stagesOf.
  cbn [Stages.frequency Stages.texture Stages.compression Stages.artifacts].
  split; [apply frequency_nonnegative |]. split; [apply texture_nonnegative |].
  split; [apply compression_nonnegative | apply artifacts_nonnegative].
Qed.

End ForensicSeverities.

Section CriticalFindings.

Import Utils ForensicsAnalyzer Route MetadataAnalyzer.

Lemma pngResult_findings (buffer : Buffer) (fs : list Finding.t) :
  analyzePNGSpecific buffer = Normal fs ->
  Forall (fun f => 0 <= Finding.severity f
                   /\ (Finding.type f = critical -> Finding.severity f = 90)) fs.
Proof.
  unfold analyzePNGSpecific.
  destruct (parsePNGChunks buffer) as [chunks | e]; [| discriminate].
  intros H. injection H as <-.
  destruct (pngChunkFinding_hits chunks []) as (hits & -> & Hh). cbn [app].
  assert (Hhits : Forall (fun f => 0 <= Finding.severity f
                                   /\ (Finding.type f = critical -> Finding.severity f = 90))
                         hits).
  { eapply Forall_impl; [| exact Hh]. intros f (_ & Hs & _). rewrite Hs.
    split; [discriminate | reflexivity]. }
  destruct (negb _); [| exact Hhits].
  apply Forall_app. split; [exact Hhits |].
  constructor; [| constructor]. split; [discriminate | discriminate].
Qed.

(** The fields of a run of the forensic analysis that does not fail
    as a whole. *)
Lemma analyzeForensics_normal
  (d : Decoded.t) (stages : Stages.t) (cameraMake software : option jsstring)
  (pngResult : list Finding.t) :
  (if isFormat d "png" then analyzePNGSpecific (Decoded.buffer d) else Normal [])
  = Normal pngResult ->
  let fr := analyzeForensics (Normal d) stages cameraMake software in
  ForensicsAnalysisResult.findings fr
  = elaFindings (analyzeELA (Stages.ela stages))
    ++ frequencyFindings (analyzeFrequencyDomain (Stages.frequency stages))
    ++ textureFindings (analyzeTexturePatterns (Stages.texture stages))
    ++ compressionFindings
         (if isFormat d "jpeg"
          then Some (analyzeJPEGCompression (Stages.compression stages)) else None)
    ++ artifactFindings (detectAIArtifacts (Stages.artifacts stages))
    ++ screenshotFindings
         (detectScreenshot (Decoded.width d) (Decoded.height d) cameraMake software)
    ++ exportFindings software ++ pngResult
  /\ ForensicsAnalysisResult.elaAnalysis fr = Some (analyzeELA (Stages.ela stages))
  /\ ForensicsAnalysisResult.frequencyAnalysis fr
     = Some (analyzeFrequencyDomain (Stages.frequency stages))
  /\ ForensicsAnalysisResult.textureAnalysis fr
     = Some (analyzeTexturePatterns (Stages.texture stages))
  /\ ForensicsAnalysisResult.compressionAnalysis fr
     = (if isFormat d "jpeg"
        then Some (analyzeJPEGCompression (Stages.compression stages)) else None)
  /\ ForensicsAnalysisResult.aiArtifactAnalysis fr
     = Some (detectAIArtifacts (Stages.artifacts stages)).
Proof.
  intros H. cbv zeta. unfold analyzeForensics. rewrite H.
  split; [reflexivity |]. split; [reflexivity |]. split; [reflexivity |].
  split; [reflexivity |]. split; reflexivity.
Qed.

(** What a run of the forensic analysis that does not fail as a whole
    returns: no negative severity, and every critical finding either
    comes from a flagged raster analysis of severity above 70 or is a
    PNG finding of severity 90. *)
Lemma analyzeForensics_outcome
  (d : Decoded.t) (stages : Stages.t) (cameraMake software : option jsstring) :
  soundStages stages ->
  let fr := analyzeForensics (Normal d) stages cameraMake software in
  (exists e, fr = forensicsFailed e)
  \/ (soundForensics fr
      /\ forall f, In f (ForensicsAnalysisResult.findings fr) ->
                   Finding.type f = critical ->
                   (flaggedAbove fr (Finding.severity f) /\ 70 < Finding.severity f)
                   \/ (isFormat d "png" = true /\ Finding.severity f = 90)).
Proof.
  intros (Hfq & Htx & Hcp & Har). cbv zeta.
  destruct (if isFormat d "png" then analyzePNGSpecific (Decoded.buffer d) else Normal [])
    as [pngResult | e] eqn:Epng.
  2:{ left. exists e. unfold analyzeForensics. now rewrite Epng. }
  right.
  destruct (analyzeForensics_normal d stages cameraMake software pngResult Epng)
    as (Efs & Eela & Efq & Etx & Ecp & Ear).
  set (fr := analyzeForensics (Normal d) stages cameraMake software) in *.
  clearbody fr.
  assert (Hpng : Forall (fun f => 0 <= Finding.severity f
                                  /\ (Finding.type f = critical ->
                                      isFormat d "png" = true /\ Finding.severity f = 90))
                        pngResult).
  { destruct (isFormat d "png").
    - eapply Forall_impl; [| apply (pngResult_findings _ _ Epng)].
      intros f [H0 H1]. split; [exact H0 |]. intros Hc. split; [reflexivity | now apply H1].
    - injection Epng as <-. constructor. }
  pose proof (analyzeELA_nonnegative (Stages.ela stages)) as Hela.
  set (ela := analyzeELA (Stages.ela stages)) in *.
  set (fq := analyzeFrequencyDomain (Stages.frequency stages)) in *.
  set (tx := analyzeTexturePatterns (Stages.texture stages)) in *.
  set (cp := analyzeJPEGCompression (Stages.compression stages)) in *.
  set (ar := detectAIArtifacts (Stages.artifacts stages)) in *.
  set (ss := detectScreenshot _ _ _ _) in *.
  clearbody ela fq tx cp ar ss.
  unfold soundForensics, flaggedAbove.
  rewrite Efs, Eela, Efq, Etx, Ecp, Ear. clear Efs Eela Efq Etx Ecp Ear.
  assert (Hall : Forall
            (fun f => 0 <= Finding.severity f
               /\ (Finding.type f = critical ->
                   ((ELAAnalysis.hasManipulation ela = true
                     /\ ELAAnalysis.severity ela = Finding.severity f)
                    \/ (FrequencyAnalysis.hasAnomalies fq = true
                        /\ FrequencyAnalysis.severity fq = Finding.severity f)
                    \/ (TextureAnalysis.isArtificial tx = true
                        /\ TextureAnalysis.severity tx = Finding.severity f)
                    \/ (AIArtifactAnalysis.hasArtifacts ar = true
                        /\ AIArtifactAnalysis.severity ar = Finding.severity f))
                   /\ 70 < Finding.severity f
                   \/ (isFormat d "png" = true /\ Finding.severity f = 90)))
            (elaFindings ela ++ frequencyFindings fq ++ textureFindings tx
             ++ compressionFindings (if isFormat d "jpeg" then Some cp else None)
             ++ artifactFindings ar ++ screenshotFindings ss
             ++ exportFindings software ++ pngResult)).
  { apply Forall_app; split; [| apply Forall_app; split; [| apply Forall_app; split;
      [| apply Forall_app; split; [| apply Forall_app; split; [| apply Forall_app; split;
      [| apply Forall_app; split]]]]]].
    - unfold elaFindings. destruct (ELAAnalysis.hasManipulation ela) eqn:E; [| constructor].
      constructor; [| constructor]. cbn [Finding.severity Finding.type].
      split; [exact Hela |]. destruct (gt (ELAAnalysis.severity ela) 70) eqn:G;
        [| discriminate]. intros _. left. apply gt_iff in G. split; [| exact G].
      left. now split.
    - unfold frequencyFindings.
      destruct (FrequencyAnalysis.hasAnomalies fq) eqn:E; [| constructor].
      constructor; [| constructor]. cbn [Finding.severity Finding.type].
      split; [exact Hfq |]. destruct (gt (FrequencyAnalysis.severity fq) 70) eqn:G;
        [| discriminate]. intros _. left. apply gt_iff in G. split; [| exact G].
      right. left. now split.
    - unfold textureFindings.
      destruct (TextureAnalysis.isArtificial tx) eqn:E; [| constructor].
      constructor; [| constructor]. cbn [Finding.severity Finding.type].
      split; [exact Htx |]. destruct (gt (TextureAnalysis.severity tx) 70) eqn:G;
        [| discriminate]. intros _. left. apply gt_iff in G. split; [| exact G].
      right. right. left. now split.
    - unfold compressionFindings. destruct (isFormat d "jpeg"); [| constructor].
      destruct (CompressionAnalysis.hasInconsistency cp); [| constructor].
      constructor; [| constructor]. cbn [Finding.severity Finding.type].
      split; [exact Hcp | discriminate].
    - unfold artifactFindings.
      destruct (AIArtifactAnalysis.hasArtifacts ar) eqn:E; [| constructor].
      constructor; [| constructor]. cbn [Finding.severity Finding.type].
      split; [exact Har |]. destruct (gt (AIArtifactAnalysis.severity ar) 75) eqn:G;
        [| discriminate]. intros _. left. apply gt_iff in G. split; [| lra].
      right. right. right. now split.
    - unfold screenshotFindings. destruct (fst ss); [| constructor].
      constructor; [| constructor]. cbn [Finding.severity Finding.type].
      split; [discriminate | discriminate].
    - unfold exportFindings. destruct (exportToolIn software); [| constructor].
      constructor; [| constructor]. cbn [Finding.severity Finding.type].
      split; [discriminate | discriminate].
    - eapply Forall_impl; [| exact Hpng]. intros f [H0 H1]. split; [exact H0 |].
      intros Hc. right. now apply H1. }
  split.
  - split; [exact Hela |]. split; [exact Hfq |]. split; [exact Htx |].
    split; [destruct (isFormat d "jpeg"); [exact Hcp | exact I] |].
    split; [exact Har |].
    eapply Forall_impl; [| exact Hall]. intros f [H0 _]. exact H0.
  - intros f Hin Hcrit. rewrite Forall_forall in Hall.
    destruct (Hall f Hin) as [_ H]. destruct (H Hcrit) as [[Hflag Hsev] | Hpng'].
    + left. split; [| exact Hsev].
      destruct Hflag as [[H1 H2] | [[H1 H2] | [[H1 H2] | [H1 H2]]]].
      * left. exists ela. now repeat split.
      * right. left. exists fq. now repeat split.
      * right. right. left. exists tx. now repeat split.
      * right. right. right. exists ar. now repeat split.
    + right. exact Hpng'.
Qed.

End CriticalFindings.

Section NeverVerified.

Import Utils ForensicsAnalyzer Route MetadataAnalyzer ScoringEngine.

Lemma flagged_critical_risk
  (md : MetadataAnalysisResult.t) (fr : ForensicsAnalysisResult.t) (f : Finding.t) :
  nonnegative (MetadataAnalysisResult.findings md) ->
  soundForensics fr ->
  In f (ForensicsAnalysisResult.findings fr) -> Finding.type f = critical ->
  flaggedAbove fr (Finding.severity f) -> 70 < Finding.severity f ->
  65 <= rawRiskScore md fr.
Proof.
  intros Hmd Hfr Hin Hcrit Hflag Hsev. rewrite rawRiskScore_parts.
  pose proof (riskSignals_flagged fr 0 _ Hfr Hflag) as H1.
  pose proof (riskFindings_critical md fr f (riskSignals fr 0) Hmd
                (proj2 (proj2 (proj2 (proj2 (proj2 Hfr))))) Hin Hcrit) as H2.
  pose proof (riskIndicators_grows fr (riskFindings md fr (riskSignals fr 0))) as H3.
  pose proof (riskDiscounts_bound md fr
                (riskIndicators fr (riskFindings md fr (riskSignals fr 0)))) as H4.
  revert H1 H2 H3 H4 Hsev.
  generalize (riskDiscounts md fr (riskIndicators fr (riskFindings md fr (riskSignals fr 0)))),
             (riskIndicators fr (riskFindings md fr (riskSignals fr 0))),
             (riskFindings md fr (riskSignals fr 0)), (riskSignals fr 0),
             (Finding.severity f).
  intros a b c d s. lra.
Qed.

Lemma png_critical_risk
  (md : MetadataAnalysisResult.t) (fr : ForensicsAnalysisResult.t) (f : Finding.t) :
  nonnegative (MetadataAnalysisResult.findings md) ->
  soundForensics fr ->
  In f (ForensicsAnalysisResult.findings fr) -> Finding.type f = critical ->
  Finding.severity f = 90 ->
  MetadataAnalysisResult.hasEXIF md = false ->
  MetadataAnalysisResult.hasGPS md = false ->
  cameraMakeKnown md = false ->
  65 <= rawRiskScore md fr.
Proof.
  intros Hmd Hfr Hin Hcrit Hsev He Hg Hc. rewrite rawRiskScore_parts.
  pose proof (riskSignals_grows fr 0 Hfr) as H1.
  pose proof (riskFindings_critical md fr f (riskSignals fr 0) Hmd
                (proj2 (proj2 (proj2 (proj2 (proj2 Hfr))))) Hin Hcrit) as H2.
  pose proof (riskIndicators_grows fr (riskFindings md fr (riskSignals fr 0))) as H3.
  pose proof (riskDiscounts_bare md fr
                (riskIndicators fr (riskFindings md fr (riskSignals fr 0))) He Hg Hc) as H4.
  rewrite Hsev in H2. revert H1 H2 H3 H4.
  generalize (riskDiscounts md fr (riskIndicators fr (riskFindings md fr (riskSignals fr 0)))),
             (riskIndicators fr (riskFindings md fr (riskSignals fr 0))),
             (riskFindings md fr (riskSignals fr 0)), (riskSignals fr 0).
  intros a b c d. lra.
Qed.

(** The failure handler of the forensic analysis alone brings the raw
    risk score to 50. *)
Lemma failed_forensics_risk (md : MetadataAnalysisResult.t) (error : JSError) :
  nonnegative (MetadataAnalysisResult.findings md) ->
  50 <= rawRiskScore md (forensicsFailed error).
Proof.
  intros Hmd. rewrite rawRiskScore_parts.
  set (fr := forensicsFailed error).
  assert (Hfs : nonnegative (ForensicsAnalysisResult.findings fr)).
  { cbn. constructor; [discriminate | constructor]. }
  assert (Hin : In (Finding.mk critical 100 forensics (js "Forensic analysis failed")
                      (Some [ErrTxt error]))
                   (ForensicsAnalysisResult.findings fr)) by now left.
  pose proof (riskFindings_critical md fr _ (riskSignals fr 0) Hmd Hfs Hin eq_refl) as H2.
  cbn [Finding.severity] in H2.
  change (riskSignals fr 0) with 0 in *.
  pose proof (riskIndicators_grows fr (riskFindings md fr 0)) as H3.
  assert (H4 : riskIndicators fr (riskFindings md fr 0) - 50
               <= riskDiscounts md fr (riskIndicators fr (riskFindings md fr 0))).
  { unfold riskDiscounts. cbn [fr forensicsFailed ForensicsAnalysisResult.textureAnalysis
                                ForensicsAnalysisResult.elaAnalysis].
    cbv zeta.
    repeat match goal with |- context [if ?b then _ else _] => destruct b end; lra. }
  revert H2 H3 H4.
  generalize (riskDiscounts md fr (riskIndicators fr (riskFindings md fr 0))),
             (riskIndicators fr (riskFindings md fr 0)), (riskFindings md fr 0).
  intros a b c. lra.
Qed.

Lemma scoreResults_forensics
  (md : MetadataAnalysisResult.t) (fr : ForensicsAnalysisResult.t) :
  DetailedVerificationResult.analysis_forensics (scoreResults md fr) = fr.
Proof.
  unfold scoreResults.
  match goal with
  | |- context [let '(status, confidence) := ?c in _] => destruct c as [status confidence]
  end.
  reflexivity.
Qed.

(** X24.  A critical finding of the forensic analysis excludes the
    verdict VERIFIED.  Such a finding comes with a flagged raster
    analysis of severity above 70, which is counted twice in the risk
    score, or is a PNG finding of severity 90, or is the failure of the
    analysis itself; the discounts take off 75 at most, so the risk
    score stays at 45 or more.  This needs the decoder to agree with
    the data URL: an image sent as JPEG is not reported as PNG. *)
Theorem critical_forensic_finding_is_never_verified
  (image : ImageData) (imageMetadata : Completion SharpMetadata.t) (p : PixelLoops.t) :
  match image with
  | JPEG _ _ inconsistencies =>
      nonnegative inconsistencies
      /\ forall m, imageMetadata = Normal m -> SharpMetadata.format m <> Some (js "png")
  | _ => True
  end ->
  let r := checkAuthenticity image imageMetadata p in
  existsb isCritical
    (ForensicsAnalysisResult.findings (DetailedVerificationResult.analysis_forensics r))
  = true ->
  DetailedVerificationResult.status r <> VERIFIED
  /\ 45 <= DetailedVerificationResult.riskScore r.
Proof.
  intros Hcons. cbv zeta. unfold checkAuthenticity.
  set (md := analyzeMetadata image).
  assert (Hmd : nonnegative (MetadataAnalysisResult.findings md)).
  { apply analyzeMetadata_nonnegative. destruct image; tauto. }
  rewrite scoreResults_forensics. intros Hex.
  apply existsb_exists in Hex as (f & Hin & Hc).
  assert (Hcrit : Finding.type f = critical).
  { unfold isCritical in Hc. destruct (Finding.type f); [reflexivity | discriminate Hc
                                                         | discriminate Hc]. }
  clear Hc.
  assert (Hraw : 45 <= rawRiskScore md (forensicsOf image imageMetadata p md)).
  { unfold forensicsOf in *.
    set (cameraMake := match MetadataAnalysisResult.cameraInfo md with
                       | Some ci => CameraInfo.make ci | None => None end) in *.
    set (software := match MetadataAnalysisResult.cameraInfo md with
                     | Some ci => CameraInfo.software ci | None => None end) in *.
    destruct (extractBase64 image) as [buffer | e] eqn:Ebuf.
    2:{ change (analyzeForensics (Throw e) (stagesOf [] p) cameraMake software)
          with (forensicsFailed e).
        pose proof (failed_forensics_risk md e Hmd). lra. }
    destruct imageMetadata as [m | e].
    2:{ change (analyzeForensics (andThen _ (Throw e)) (stagesOf buffer p) cameraMake software)
          with (forensicsFailed e).
        pose proof (failed_forensics_risk md e Hmd). lra. }
    cbn [andThen] in *.
    set (d := Decoded.mk buffer (orZero (SharpMetadata.width m))
                (orZero (SharpMetadata.height m)) (SharpMetadata.format m)) in *.
    destruct (analyzeForensics_outcome d (stagesOf buffer p) cameraMake software
                (stagesOf_sound buffer p)) as [[e He] | [Hsound Hfind]].
    { rewrite He. pose proof (failed_forensics_risk md e Hmd). lra. }
    destruct (Hfind f Hin Hcrit) as [[Hflag Hsev] | [Hpng Hsev]].
    { pose proof (flagged_critical_risk md _ f Hmd Hsound Hin Hcrit Hflag Hsev). lra. }
    assert (Hfmt : SharpMetadata.format m = Some (js "png")).
    { unfold isFormat, d in Hpng. cbn [Decoded.format] in Hpng.
      destruct (SharpMetadata.format m) as [fmt |]; [| discriminate Hpng].
      apply jsstring_eqb_eq in Hpng. now subst fmt. }
    destruct image as [| jbuffer exifObj inconsistencies | pbuffer].
    - discriminate Ebuf.
    - exfalso. destruct Hcons as [_ Hcons]. now apply (Hcons m eq_refl).
    - destruct (notJPEG_flags pbuffer) as (He & Hg & Hk).
      pose proof (png_critical_risk md _ f Hmd Hsound Hin Hcrit Hsev He Hg Hk). lra. }
  assert (Hrisk : 45 <= calculateRiskScore md (forensicsOf image imageMetadata p md)).
  { apply raw_risk_is_risk; [discriminate | exact Hraw]. }
  split; [now apply moderate_risk_is_not_verified |].
  unfold scoreResults.
  match goal with
  | |- context [let '(status, confidence) := ?c in _] => destruct c as [status confidence]
  end.
  cbn [DetailedVerificationResult.riskScore]. now apply (Math_round_ge 45).
Qed.

Lemma critical_forensic_finding_is_never_verified_witness :
  DetailedVerificationResult.status
    (checkAuthenticity (jpegWithSoftware "") (Normal jpegReport) strongELA)
  <> VERIFIED.
Proof.
  assert (H : nonnegative []
              /\ forall m, Normal jpegReport = Normal m ->
                           SharpMetadata.format m <> Some (js "png")).
  { split; [constructor |]. intros m E. injection E as <-. discriminate. }
  exact (proj1 (critical_forensic_finding_is_never_verified
                  (jpegWithSoftware "") (Normal jpegReport) strongELA H eq_refl)).
Defined.

End NeverVerified.

